(** * GitLab handbook RAG chatbot: crawl, section extraction, chunk offsets,
      idempotent ingestion, citations, confidence and conversation history.

    A shallow embedding of [src/scraper.py], [src/vector_store.py],
    [src/chatbot.py] and [src/analytics.py], followed by the properties of
    the crawl, the chunking and retrieval pipeline, and the usage
    counters.

    Conventions of the embedding:
    - a Python [str] is a [string] whose characters are code points below
      256; [len] is the number of characters;
    - a Python [int] is a [Z]; a Python [float] is a binary64 [float];
    - a dict with a fixed set of keys is a record; a key read with [.get]
      is an [option] field ([None]: the key is absent);
    - an exception is a [None] (or [Raise msg]) result; printing, sleeping
      and timing are dropped. *)

From Stdlib Require Import ZArith Bool Ascii String List Lia.
From Stdlib Require Import Floats Uint63.
From stdpp Require Import base option list gmap strings.

Set Warnings "-inexact-float,-clear-no-such-hyp".
Local Open Scope Z_scope.

(* ===================================================================== *)
(** * Python string primitives *)
(* ===================================================================== *)

Module Py.

(** [len(s)] *)
Definition len (s : string) : Z := Z.of_nat (String.length s).

(** Whitespace as [str.strip()] and the regex class [\s] see it, on code
    points below 256: TAB..CR, FS..US, SPACE, NEL and NBSP. *)
Definition isspace (c : ascii) : bool :=
  let n := nat_of_ascii c in
  ((9 <=? n) && (n <=? 13) || (28 <=? n) && (n <=? 32)
   || (n =? 133) || (n =? 160))%nat.

(** [str.lower()] on one character: A-Z and the Latin-1 capitals. *)
Definition lower_char (c : ascii) : ascii :=
  let n := nat_of_ascii c in
  if ((65 <=? n) && (n <=? 90)
      || (192 <=? n) && (n <=? 222) && negb (n =? 215))%nat
  then ascii_of_nat (n + 32) else c.

(** [s.lower()] *)
Fixpoint lower (s : string) : string :=
  match s with
  | EmptyString => EmptyString
  | String c r => String (lower_char c) (lower r)
  end.

(** [s.startswith(p)] *)
Definition startswith (s p : string) : bool := String.prefix p s.

(** [p in s] *)
Fixpoint contains (p s : string) : bool :=
  String.prefix p s ||
  match s with
  | EmptyString => false
  | String _ r => contains p r
  end.

(** [s.lstrip()] *)
Fixpoint lstrip (s : string) : string :=
  match s with
  | EmptyString => EmptyString
  | String c r => if isspace c then lstrip r else s
  end.

(** [s.rstrip()] *)
Fixpoint rstrip (s : string) : string :=
  match s with
  | EmptyString => EmptyString
  | String c r =>
      match rstrip r with
      | EmptyString => if isspace c then EmptyString else String c EmptyString
      | r' => String c r'
      end
  end.

(** [s.strip()] *)
Definition strip (s : string) : string := lstrip (rstrip s).

(** [s.rstrip(c)] for a one-character argument. *)
Fixpoint rstrip_char (x : ascii) (s : string) : string :=
  match s with
  | EmptyString => EmptyString
  | String c r =>
      match rstrip_char x r with
      | EmptyString =>
          if Ascii.eqb c x then EmptyString else String c EmptyString
      | r' => String c r'
      end
  end.

(** [s.split(c)] for a one-character separator: never the empty list. *)
Fixpoint split (x : ascii) (s : string) : list string :=
  match s with
  | EmptyString => [EmptyString]
  | String c r =>
      if Ascii.eqb c x then EmptyString :: split x r
      else match split x r with
           | [] => [String c EmptyString]
           | h :: t => String c h :: t
           end
  end.

(** [sep.join(parts)] *)
Fixpoint join (sep : string) (parts : list string) : string :=
  match parts with
  | [] => EmptyString
  | [p] => p
  | p :: rest => p +:+ sep +:+ join sep rest
  end.

(** [re.sub(r'\s+', ' ', s)]: every maximal run of whitespace becomes one
    space; [in_run] tells that the previous character was whitespace. *)
Fixpoint sub_spaces (in_run : bool) (s : string) : string :=
  match s with
  | EmptyString => EmptyString
  | String c r =>
      if isspace c
      then if in_run then sub_spaces true r
           else String " "%char (sub_spaces true r)
      else String c (sub_spaces false r)
  end.

(** [x in l] for a list of strings. *)
Definition mem (x : string) (l : list string) : bool :=
  existsb (String.eqb x) l.

End Py.

(* ===================================================================== *)
(** * scraper.py *)
(* ===================================================================== *)

(** The dict the scraper emits per section and [gitlab_chunks.json] stores:
    [{source_url, section_title, start_char, end_char, content}]. *)
Record Chunk := mkChunk {
  source_url : string;
  section_title : string;
  start_char : Z;
  end_char : Z;
  content : string
}.

(** What the scraper reads of a parsed tag. *)
Record Element := mkElement {
  name : string;                 (* element.name *)
  has_landmark_parent : bool;    (* element.find_parent(['nav','header','footer','aside']) is found *)
  get_text : string              (* element.get_text() *)
}.

(** A candidate content root: its descendants in document order and its
    own [get_text()]. *)
Record Root := mkRoot {
  descendants : list Element;
  root_text : string
}.

(** What the scraper reads of a parsed page: the four lookups tried for the
    content root and the [href] of every [<a href=...>]. *)
Record Soup := mkSoup {
  find_main : option Root;         (* soup.find('main') *)
  find_article : option Root;      (* soup.find('article') *)
  find_content_div : option Root;  (* soup.find('div', class_=re.compile('content|main|article')) *)
  find_body : option Root;         (* soup.find('body') *)
  anchors : list string            (* [a['href'] for a in soup.find_all('a', href=True)] *)
}.

Module Scraper.

(** [GitLabScraper.clean_text] *)
Definition clean_text (text : string) : string :=
  match text with
  | EmptyString => EmptyString
  | _ => Py.strip (Py.sub_spaces false text)
  end.

Definition heading_names : list string :=
  ["h1"; "h2"; "h3"; "h4"; "h5"; "h6"].

Definition block_names : list string :=
  ["h1"; "h2"; "h3"; "h4"; "h5"; "h6"; "p"; "li"; "div"].

(** [root.find_all(names)] *)
Definition find_all (names : list string) (root : Root) : list Element :=
  filter (fun e => Is_true (Py.mem (name e) names)) (descendants root).

(** The content root: [find('main') or find('article') or find('div', ...)],
    then [find('body')] when none was found.  A tag is always truthy. *)
Definition main_content (soup : Soup) : option Root :=
  match find_main soup with
  | Some r => Some r
  | None =>
      match find_article soup with
      | Some r => Some r
      | None =>
          match find_content_div soup with
          | Some r => Some r
          | None => find_body soup
          end
      end
  end.

(** The loop state of [extract_sections]. *)
Record Walk := mkWalk {
  chunks : list Chunk;
  current_section_title : string;
  current_section_content : list string;
  char_offset : Z
}.

(** The block that closes a section (it appears at a heading and after the
    loop): the chunk appended, if any. *)
Definition save_section (url : string) (w : Walk) : option Chunk :=
  match current_section_content w with
  | [] => None
  | _ =>
      let section_text := Py.join " " (current_section_content w) in
      if 50 <? Py.len section_text
      then Some {| source_url := url;
                   section_title := current_section_title w;
                   start_char := char_offset w;
                   end_char := char_offset w + Py.len section_text;
                   content := section_text |}
      else None
  end.

(** One iteration of the [for element in ...] loop. *)
Definition walk_step (url : string) (w : Walk) (element : Element) : Walk :=
  if has_landmark_parent element then w
  else
    let text := clean_text (get_text element) in
    if String.eqb text EmptyString || (Py.len text <? 10) then w
    else if Py.mem (name element) heading_names then
      let w' :=
        match save_section url w with
        | Some c => {| chunks := chunks w ++ [c];
                       current_section_title := current_section_title w;
                       current_section_content := current_section_content w;
                       char_offset := end_char c |}
        | None => w
        end in
      {| chunks := chunks w';
         current_section_title := text;
         current_section_content := [];
         char_offset := char_offset w' |}
    else
      {| chunks := chunks w;
         current_section_title := current_section_title w;
         current_section_content := current_section_content w ++ [text];
         char_offset := char_offset w |}.

Definition walk_init : Walk :=
  {| chunks := [];
     current_section_title := "Introduction";
     current_section_content := [];
     char_offset := 0 |}.

(** [GitLabScraper.extract_sections]; [None] when no content root exists
    at all ([main_content.find_all] raises on [None]). *)
Definition extract_sections (soup : Soup) (url : string) : option (list Chunk) :=
  match main_content soup with
  | None => None
  | Some root =>
      let w := fold_left (walk_step url) (find_all block_names root) walk_init in
      let chunks1 :=
        match save_section url w with
        | Some c => chunks w ++ [c]
        | None => chunks w
        end in
      match chunks1 with
      | [] =>
          let all_text := clean_text (root_text root) in
          if 50 <? Py.len all_text
          then Some [ {| source_url := url;
                         section_title := "Main Content";
                         start_char := 0;
                         end_char := Py.len all_text;
                         content := all_text |} ]
          else Some []
      | _ => Some chunks1
      end
  end.

(** What [urllib.parse.urlparse] returns, as far as the scraper reads it. *)
Record ParseResult := mkParseResult {
  netloc : string;
  path : string
}.

(** The state [crawl_recursive] mutates: [self.visited_urls], and the
    requests the session has issued so far, in order, each with whether its
    [try] block ran to the end. The log is a record of the run: the code
    never reads it. *)
Record CrawlState := mkCrawlState {
  visited_urls : gset string;
  fetch_log : list (string * bool)
}.

(** [GitLabScraper.BASE_URLS]; [None] is a [KeyError]. *)
Definition BASE_URLS (base_domain : string) : option string :=
  if String.eqb base_domain "handbook" then Some "https://handbook.gitlab.com"
  else if String.eqb base_domain "direction"
       then Some "https://about.gitlab.com/direction"
       else None.

Definition skip_patterns : list string :=
  ["/search"; "/login"; "/logout"; "/sign"; "/api/";
   ".pdf"; ".zip"; ".jpg"; ".png"; ".gif"; ".svg";
   "#"; "mailto:"; "tel:"; "javascript:"].

Section Crawl.

(** [urllib.parse.urlparse] and [urljoin]; [None] when they raise. *)
Variable urlparse : string -> option ParseResult.
Variable urljoin : string -> string -> option string.

(** The site: the outcome of the [n]-th request of the session when it asks
    for [url] ([session.get], [raise_for_status] and the parse); [None] when
    one of them raises. *)
Variable web : nat -> string -> option Soup.

(** [self.max_depth] and [self.max_pages]. *)
Variable max_depth max_pages : Z.

(** [GitLabScraper.is_valid_url] *)
Definition is_valid_url (url base_domain : string) : bool :=
  match urlparse url with
  | None => false
  | Some parsed =>
      let off_domain :=
        if String.eqb base_domain "handbook" then
          negb (Py.contains "handbook.gitlab.com" (netloc parsed))
          && negb (String.eqb (netloc parsed) "")
        else if String.eqb base_domain "direction" then
          (negb (Py.contains "about.gitlab.com" (netloc parsed))
           && negb (String.eqb (netloc parsed) ""))
          || negb (Py.contains "/direction" (path parsed))
        else false in
      if off_domain then false
      else if existsb (fun pattern => Py.contains pattern (Py.lower url))
                      skip_patterns then false
      else if negb (Py.startswith url "http://" || Py.startswith url "https://")
      then false
      else true
  end.

(** The absolute URL of one [href]. *)
Definition absolute_url (base_url current_url href : string) : option string :=
  if Py.startswith href "/" then urljoin base_url href
  else if Py.startswith href "http://" || Py.startswith href "https://"
       then Some href
       else urljoin current_url href.

(** [full_url.split('#')[0].rstrip('/')] *)
Definition normalize (full_url : string) : string :=
  Py.rstrip_char "/" (hd EmptyString (Py.split "#" full_url)).

(** The loop of [extract_links] over the anchors, [links] being the list
    built so far. *)
Fixpoint collect_links (visited : gset string)
    (base_url current_url base_domain : string)
    (hrefs links : list string) : option (list string) :=
  match hrefs with
  | [] => Some links
  | href :: rest =>
      match absolute_url base_url current_url href with
      | None => None
      | Some full_url =>
          let full_url := normalize full_url in
          if is_valid_url full_url base_domain
             && negb (bool_decide (full_url ∈ visited))
          then collect_links visited base_url current_url base_domain rest
                             (links ++ [full_url])
          else collect_links visited base_url current_url base_domain rest links
      end
  end.

(** [GitLabScraper.extract_links]; [None] when it raises. *)
Definition extract_links (visited : gset string) (soup : Soup)
    (current_url base_domain : string) : option (list string) :=
  match BASE_URLS base_domain with
  | None => None
  | Some base_url =>
      collect_links visited base_url current_url base_domain (anchors soup) []
  end.

(** [len(self.visited_urls) >= self.max_pages] *)
Definition budget_spent (st : CrawlState) : bool :=
  max_pages <=? Z.of_nat (size (visited_urls st)).

(** The part of the [try] block that can raise: the request and the link
    extraction. *)
Definition discover (st : CrawlState) (url base_domain : string)
    : option (list string) :=
  match web (length (fetch_log st)) url with
  | None => None
  | Some soup => extract_links (visited_urls st) soup url base_domain
  end.

(** [for link in found_links: if link not in self.visited_urls and link not
    in next_level_urls: next_level_urls.append(link)] *)
Definition add_new_links (visited : gset string)
    (next_level_urls found_links : list string) : list string :=
  fold_left
    (fun next link =>
       if negb (bool_decide (link ∈ visited)) && negb (Py.mem link next)
       then next ++ [link] else next)
    found_links next_level_urls.

(** The [for url in start_urls] loop of [crawl_recursive]. *)
Fixpoint crawl_level (start_urls : list string) (base_domain : string)
    (st : CrawlState) (urls_to_scrape next_level_urls : list string)
    : list string * list string * CrawlState :=
  match start_urls with
  | [] => (urls_to_scrape, next_level_urls, st)
  | url :: rest =>
      if bool_decide (url ∈ visited_urls st) then
        crawl_level rest base_domain st urls_to_scrape next_level_urls
      else if budget_spent st then
        (urls_to_scrape, next_level_urls, st)
      else
        match discover st url base_domain with
        | Some found_links =>
            let st' := {| visited_urls := {[url]} ∪ visited_urls st;
                          fetch_log := fetch_log st ++ [(url, true)] |} in
            crawl_level rest base_domain st' (urls_to_scrape ++ [url])
              (add_new_links (visited_urls st') next_level_urls found_links)
        | None =>
            let st' := {| visited_urls := visited_urls st;
                          fetch_log := fetch_log st ++ [(url, false)] |} in
            crawl_level rest base_domain st' urls_to_scrape next_level_urls
        end
  end.

(** The body of [crawl_recursive] at a depth that is [levels_left] below
    [max_depth]: the test [depth < self.max_depth] is the match on
    [levels_left]. *)
Fixpoint crawl_levels (levels_left : nat) (start_urls : list string)
    (base_domain : string) (st : CrawlState) : list string * CrawlState :=
  if budget_spent st then ([], st)
  else
    let '(urls_to_scrape, next_level_urls, st') :=
      crawl_level start_urls base_domain st [] [] in
    match levels_left, next_level_urls with
    | S deeper_levels, _ :: _ =>
        if budget_spent st' then (urls_to_scrape, st')
        else
          let '(deeper_urls, st'') :=
            crawl_levels deeper_levels next_level_urls base_domain st' in
          (urls_to_scrape ++ deeper_urls, st'')
    | _, _ => (urls_to_scrape, st')
    end.

(** [GitLabScraper.crawl_recursive]: the list returned and the state left. *)
Definition crawl_recursive (start_urls : list string) (base_domain : string)
    (depth : Z) (st : CrawlState) : list string * CrawlState :=
  if max_depth <? depth then ([], st)
  else crawl_levels (Z.to_nat (max_depth - depth)) start_urls base_domain st.

(** [GitLabScraper.find_all_pages]: the visited set is reset, the crawl
    starts from the base URL at depth 0. *)
Definition find_all_pages (base_domain : string) (st : CrawlState)
    : option (list string * CrawlState) :=
  match BASE_URLS base_domain with
  | None => None
  | Some start_url =>
      Some (crawl_recursive [start_url] base_domain 0
              {| visited_urls := ∅; fetch_log := fetch_log st |})
  end.

(** [for script in soup(["script", "style", "nav", "header", "footer"]):
    script.decompose()]: the page once those elements are removed. *)
Variable decompose : Soup -> Soup.

(** [GitLabScraper.scrape_page]: the chunks of the page, the empty list when
    anything raises; the request is logged like those of the crawl. *)
Definition scrape_page (st : CrawlState) (url : string)
    : list Chunk * CrawlState :=
  let logged ok := {| visited_urls := visited_urls st;
                      fetch_log := fetch_log st ++ [(url, ok)] |} in
  match web (length (fetch_log st)) url with
  | None => ([], logged false)
  | Some soup =>
      match extract_sections (decompose soup) url with
      | Some chunks => (chunks, logged true)
      | None => ([], logged false)
      end
  end.

(** [for url in urls: all_chunks.extend(self.scrape_page(url))] *)
Fixpoint scrape_pages (urls : list string) (st : CrawlState)
    (all_chunks : list Chunk) : list Chunk * CrawlState :=
  match urls with
  | [] => (all_chunks, st)
  | url :: rest =>
      let '(chunks, st') := scrape_page st url in
      scrape_pages rest st' (all_chunks ++ chunks)
  end.

(** [with open(output_file, 'w', encoding='utf-8') as f:
    json.dump(all_chunks, f, indent=2, ensure_ascii=False)]: [None] when
    opening or writing [gitlab_chunks.json] raises. *)
Variable dump_chunks : list Chunk -> option unit.

(** [GitLabScraper.scrape_all]: the list it returns ([None] when it
    raises) and the state it leaves. The write of [gitlab_chunks.json] is
    outside any [try]. *)
Definition scrape_all (st : CrawlState) : option (list Chunk) * CrawlState :=
  match find_all_pages "handbook" st with
  | None => (None, st)
  | Some (handbook_urls, st1) =>
      let '(all_chunks, st2) := scrape_pages handbook_urls st1 [] in
      match find_all_pages "direction" st2 with
      | None => (None, st2)
      | Some (direction_urls, st3) =>
          let '(all_chunks, st4) :=
            scrape_pages direction_urls st3 all_chunks in
          match dump_chunks all_chunks with
          | Some _ => (Some all_chunks, st4)
          | None => (None, st4)
          end
      end
  end.

End Crawl.

End Scraper.

(* ===================================================================== *)
(** * vector_store.py *)
(* ===================================================================== *)

(** The metadata dict of a LangChain [Document]; a key that is absent is
    [None]. *)
Record Metadata := mkMetadata {
  md_source_url : option string;
  md_section_title : option string;
  md_start_char : option Z;
  md_end_char : option Z;
  md_original_content : option string;
  md_chunk_index : option Z;
  md_total_chunks : option Z;
  md_original_start : option Z;
  md_original_end : option Z
}.

Record Document := mkDocument {
  page_content : string;
  metadata : Metadata
}.

(** What the store reads of [RecursiveCharacterTextSplitter]: the pieces
    it cuts a text into, and the configured overlap. *)
Record TextSplitter := mkTextSplitter {
  split_text : string -> list string;
  _chunk_overlap : Z
}.

(** The dict [VectorStore.search] returns per match. *)
Record SearchResult := mkSearchResult {
  sr_content : string;
  sr_source_url : string;
  sr_section_title : string;
  sr_start_char : Z;
  sr_end_char : Z;
  sr_distance : option float
}.

(** How a call ends. *)
Inductive Result (A : Type) : Type :=
| Ok (a : A)
| Raise (msg : string).
Arguments Ok {A} a.
Arguments Raise {A} msg.

(** The Chroma collection behind [self.vector_store], as the code uses it.
    A call that raises leaves the store it returns with [false] or with
    [Raise]. *)
Class VectorIndex (Store : Type) := {
  (* self.vector_store._collection.count() *)
  count : Store -> option Z;
  (* self.vector_store.add_documents(batch): embeds the batch and inserts it *)
  add_documents : Store -> list Document -> Store * bool;
  (* self.vector_store.similarity_search_with_score(query, k=k) *)
  similarity_search_with_score :
    Store -> string -> Z -> Result (list (Document * float))
}.

Module VectorStore.

(** [VectorStore._create_langchain_documents] *)
Definition _create_langchain_documents (chunks : list Chunk) : list Document :=
  map (fun chunk =>
         {| page_content := content chunk;
            metadata :=
              {| md_source_url := Some (source_url chunk);
                 md_section_title := Some (section_title chunk);
                 md_start_char := Some (start_char chunk);
                 md_end_char := Some (end_char chunk);
                 md_original_content := Some (content chunk);
                 md_chunk_index := None;
                 md_total_chunks := None;
                 md_original_start := None;
                 md_original_end := None |} |})
      chunks.

(** The inner loop of [_split_with_metadata_preservation], from piece
    number [i] on, [current_char] being the running offset. *)
Fixpoint split_pieces (overlap_chars : Z) (src title : string)
    (original_start original_end total : Z)
    (i current_char : Z) (splits : list string) : list Document :=
  match splits with
  | [] => []
  | piece :: rest =>
      let split_length := Py.len piece in
      let split_start := current_char in
      let split_end := current_char + split_length in
      {| page_content := piece;
         metadata :=
           {| md_source_url := Some src;
              md_section_title := Some title;
              md_start_char := Some split_start;
              md_end_char := Some split_end;
              md_original_content := None;
              md_chunk_index := Some i;
              md_total_chunks := Some total;
              md_original_start := Some original_start;
              md_original_end := Some original_end |} |}
      :: split_pieces overlap_chars src title original_start original_end
           total (i + 1) (split_end - overlap_chars) rest
  end.

(** One iteration of the outer loop of [_split_with_metadata_preservation];
    [None] is the [KeyError] of a missing metadata key. *)
Definition split_document (text_splitter : TextSplitter) (doc : Document)
    : option (list Document) :=
  let splits := split_text text_splitter (page_content doc) in
  match md_start_char (metadata doc) with
  | None => None
  | Some current_char =>
      match splits with
      | [] => Some []
      | _ =>
          match md_source_url (metadata doc), md_section_title (metadata doc),
                md_end_char (metadata doc) with
          | Some src, Some title, Some original_end =>
              Some (split_pieces (_chunk_overlap text_splitter) src title
                      current_char original_end
                      (Z.of_nat (length splits)) 0 current_char splits)
          | _, _, _ => None
          end
      end
  end.

(** [VectorStore._split_with_metadata_preservation] *)
Fixpoint _split_with_metadata_preservation (text_splitter : TextSplitter)
    (documents : list Document) : option (list Document) :=
  match documents with
  | [] => Some []
  | doc :: rest =>
      match split_document text_splitter doc with
      | None => None
      | Some split_docs =>
          match _split_with_metadata_preservation text_splitter rest with
          | None => None
          | Some more => Some (split_docs ++ more)
          end
      end
  end.

(** [documents[i:i + batch_size] for i in range(0, len(documents), batch_size)] *)
Definition batches (batch_size : nat) (documents : list Document)
    : list (list Document) :=
  map (fun k => take batch_size (drop (k * batch_size) documents))
      (seq 0 ((length documents + batch_size - 1) / batch_size)%nat).

Section Index.

Context {Store : Type} `{VectorIndex Store}.

(** The batch loop of [add_chunks]: it stops at the first batch that
    raises. *)
Fixpoint add_batches (store : Store) (bs : list (list Document))
    : Store * bool :=
  match bs with
  | [] => (store, true)
  | batch :: rest =>
      match add_documents store batch with
      | (store', true) => add_batches store' rest
      | (store', false) => (store', false)
      end
  end.

(** [VectorStore.add_chunks]: the store it leaves, and whether it returned
    ([true]) or raised. *)
Definition add_chunks (text_splitter : TextSplitter) (chunks : list Chunk)
    (apply_token_chunking : bool) (store : Store) : Store * bool :=
  match chunks with
  | [] => (store, true)
  | _ =>
      let documents := _create_langchain_documents chunks in
      match (if apply_token_chunking
             then _split_with_metadata_preservation text_splitter documents
             else Some documents) with
      | None => (store, false)
      | Some documents =>
          let existing_count :=
            match count store with Some n => n | None => 0 end in
          if 0 <? existing_count then (store, true)
          else
            match add_batches store (batches 100 documents) with
            | (store', false) => (store', false)
            | (store', true) =>
                match count store' with
                | Some final_count => (store', true)
                | None => (store', false)
                end
            end
      end
  end.

(** [VectorStore.search] *)
Definition search (store : Store) (query : string) (n_results : Z)
    : Result (list SearchResult) :=
  let count := match count store with Some n => n | None => 0 end in
  if count =? 0 then Ok []
  else
    match similarity_search_with_score store query n_results with
    | Raise e => Raise e
    | Ok results =>
        Ok (map (fun '(doc, score) =>
                   let metadata := metadata doc in
                   {| sr_content := page_content doc;
                      sr_source_url := default EmptyString (md_source_url metadata);
                      sr_section_title := default EmptyString (md_section_title metadata);
                      sr_start_char := default 0 (md_start_char metadata);
                      sr_end_char := default 0 (md_end_char metadata);
                      sr_distance := Some score |})
                results)
    end.

(** [VectorStore.initialize], given what [load_chunks] read from the corpus
    file (the empty list when the file is missing). *)
Definition initialize (text_splitter : TextSplitter) (loaded : list Chunk)
    (apply_token_chunking : bool) (store : Store) : Store * bool :=
  match loaded with
  | [] => (store, true)
  | _ => add_chunks text_splitter loaded apply_token_chunking store
  end.

(** The ['total_chunks'] of [VectorStore.get_stats]. *)
Definition get_stats (store : Store) : Z :=
  match count store with Some n => n | None => 0 end.

End Index.

End VectorStore.

(* ===================================================================== *)
(** * chatbot.py *)
(* ===================================================================== *)

(** One entry of [self.conversation_history]. *)
Record Message := mkMessage {
  role : string;
  msg_content : string
}.

(** One citation of the result's ['sources']. *)
Record Source := mkSource {
  url : string;
  src_section_title : string;
  src_start_char : Z;
  src_end_char : Z;
  relevance_score : option float
}.

(** The value of the result's ['confidence']. *)
Inductive Confidence := high | medium | low.

(** The dict [generate_response] returns; a key that a path does not set is
    [None]. *)
Record AnswerResult := mkAnswerResult {
  response : string;
  sources : list Source;
  confidence : Confidence;
  context_used : bool;
  guardrail_triggered : option bool;
  error : option string
}.

Module Chatbot.

Definition NL : string := String "010"%char EmptyString.

(** The [format_docs] helper of [__init__]. *)
Definition format_docs (docs : list Document) : string :=
  Py.join (NL +:+ NL) (map page_content docs).

(** The first loop of [extract_sources], over the retriever's documents. *)
Fixpoint sources_of_documents (source_documents : list Document)
    (sources : list Source) (seen_urls : gset string)
    : list Source * gset string :=
  match source_documents with
  | [] => (sources, seen_urls)
  | doc :: rest =>
      let metadata := metadata doc in
      let url := default EmptyString (md_source_url metadata) in
      if negb (String.eqb url EmptyString)
         && negb (bool_decide (url ∈ seen_urls))
      then sources_of_documents rest
             (sources ++
              [ {| url := url;
                   src_section_title := default EmptyString (md_section_title metadata);
                   src_start_char := default 0 (md_start_char metadata);
                   src_end_char := default 0 (md_end_char metadata);
                   relevance_score := None |} ])
             ({[url]} ∪ seen_urls)
      else sources_of_documents rest sources seen_urls
  end.

(** [1 - distance if distance else None] *)
Definition relevance (distance : float) : option float :=
  if PrimFloat.eqb distance 0 then None else Some (1 - distance)%float.

(** The second loop of [extract_sources], over the search results. *)
Fixpoint sources_of_results (search_results : list SearchResult)
    (sources : list Source) (seen_urls : gset string)
    : list Source * gset string :=
  match search_results with
  | [] => (sources, seen_urls)
  | result :: rest =>
      let url := sr_source_url result in
      if negb (bool_decide (url ∈ seen_urls))
      then
        let distance := default 0%float (sr_distance result) in
        sources_of_results rest
          (sources ++
           [ {| url := url;
                src_section_title := sr_section_title result;
                src_start_char := sr_start_char result;
                src_end_char := sr_end_char result;
                relevance_score := relevance distance |} ])
          ({[url]} ∪ seen_urls)
      else sources_of_results rest sources seen_urls
  end.

(** [Chatbot.extract_sources] *)
Definition extract_sources (source_documents : list Document)
    (search_results : list SearchResult) : list Source :=
  let '(sources, seen_urls) := sources_of_documents source_documents [] ∅ in
  fst (sources_of_results search_results sources seen_urls).

Definition inappropriate_keywords : list string :=
  ["hack"; "exploit"; "bypass"; "unauthorized access";
   "personal information"; "private data"; "confidential"].

(** [Chatbot.check_query_appropriateness] *)
Definition check_query_appropriateness (query : string) : bool * option string :=
  let query_lower := Py.lower query in
  match List.find (fun keyword => Py.contains keyword query_lower)
                  inappropriate_keywords with
  | Some keyword =>
      (false,
       Some ("I can only help with questions about GitLab's public Handbook and Direction pages. I cannot assist with "
             +:+ keyword +:+ "."))
  | None => (true, None)
  end.

(** [line.strip().lower().startswith('sources:')] *)
Definition is_sources_line (line : string) : bool :=
  Py.startswith (Py.lower (Py.strip line)) "sources:".

(** The lines kept by the loop that [break]s at the first sources line. *)
Fixpoint cleaned_lines (lines : list string) : list string :=
  match lines with
  | [] => []
  | line :: rest =>
      if is_sources_line line then [] else line :: cleaned_lines rest
  end.

(** The cleaning of the response text in [generate_response]. *)
Definition clean_response (response_text : string) : string :=
  if Py.contains "Sources:" response_text
     || Py.contains "sources:" (Py.lower response_text)
  then Py.strip (Py.join NL (cleaned_lines (Py.split "010" response_text)))
  else response_text.

(** The validation loop: [source.get('url') and source['url'].startswith('http')]. *)
Definition validated_sources (sources : list Source) : list Source :=
  List.filter (fun source => negb (String.eqb (url source) EmptyString)
                             && Py.startswith (url source) "http")
              sources.

(** [self.conversation_history[-4:]] *)
Definition last4 (history : list Message) : list Message :=
  drop (length history - 4)%nat history.

(** The chat history string of the prompt. *)
Definition chat_history_str (include_history : bool) (history : list Message)
    : string :=
  if include_history
  then fold_left
         (fun acc msg =>
            let role := if String.eqb (role msg) "user"
                        then "User" else "Assistant" in
            acc +:+ role +:+ ": " +:+ msg_content msg +:+ NL)
         (last4 history) EmptyString
  else EmptyString.

Section Compose.

Context {Store : Type} `{VectorIndex Store}.

(** [self.retriever.invoke(query)] *)
Variable retriever_invoke : Store -> string -> Result (list Document).
(** [self.prompt_template.format(context=..., question=..., chat_history=...)] *)
Variable prompt_format : string -> string -> string -> string.
(** [self.llm.invoke(formatted_prompt)], read through [.content] *)
Variable llm_invoke : string -> Result string.
(** The built-in [sum] over the distances of the matches. *)
Variable float_sum : list float -> float.

(** [sum(r.get('distance', 1) for r in search_results) / len(search_results)] *)
Definition avg_distance (search_results : list SearchResult) : float :=
  (float_sum (map (fun r => default 1%float (sr_distance r)) search_results)
   / PrimFloat.of_uint63 (Uint63.of_Z (Z.of_nat (length search_results))))%float.

(** The confidence determined from the search results. *)
Definition score_confidence (search_results : list SearchResult) : Confidence :=
  match search_results with
  | [] => low
  | _ =>
      let avg := avg_distance search_results in
      if (avg <? 0.3)%float then high
      else if (avg <? 0.5)%float then medium
      else low
  end.

(** The [try] block of [generate_response]: the answer and the history it
    leaves, or the exception it raises. *)
Definition compose (store : Store) (query : string) (include_history : bool)
    (additional_context : option string)
    (search_results : list SearchResult) (context_used : bool)
    (history : list Message) : Result (AnswerResult * list Message) :=
  match retriever_invoke store query with
  | Raise e => Raise e
  | Ok source_documents =>
      let context := format_docs source_documents in
      let context :=
        match additional_context with
        | Some extra =>
            if String.eqb extra EmptyString then context
            else context +:+ NL +:+ NL
                 +:+ "--- Additional Context (from uploaded document) ---"
                 +:+ NL +:+ extra
        | None => context
        end in
      let formatted_prompt :=
        prompt_format context query (chat_history_str include_history history) in
      match llm_invoke formatted_prompt with
      | Raise e => Raise e
      | Ok response_text =>
          let response_text := clean_response response_text in
          let sources :=
            validated_sources (extract_sources source_documents search_results) in
          let confidence := score_confidence search_results in
          Ok ({| response := response_text;
                 sources := sources;
                 confidence := confidence;
                 context_used := context_used;
                 guardrail_triggered := Some false;
                 error := None |},
              history ++ [ {| role := "user"; msg_content := query |};
                           {| role := "assistant"; msg_content := response_text |} ])
      end
  end.

(** [Chatbot.generate_response]: what the call returns (or the exception
    that escapes it) and the conversation history it leaves. *)
Definition generate_response (store : Store) (query : string)
    (include_history : bool) (max_context_chunks : Z)
    (additional_context : option string) (history : list Message)
    : Result AnswerResult * list Message :=
  match check_query_appropriateness query with
  | (false, guardrail_message) =>
      (Ok {| response := default EmptyString guardrail_message;
             sources := [];
             confidence := low;
             context_used := false;
             guardrail_triggered := Some true;
             error := None |},
       history)
  | (true, _) =>
      match VectorStore.search store query max_context_chunks with
      | Raise e => (Raise e, history)
      | Ok search_results =>
          let context_used := (0 <? length search_results)%nat in
          match compose store query include_history additional_context
                        search_results context_used history with
          | Ok (answer, history') => (Ok answer, history')
          | Raise e =>
              (Ok {| response := "I encountered an error: " +:+ e
                                 +:+ ". Please try again.";
                     sources := [];
                     confidence := low;
                     context_used := false;
                     guardrail_triggered := None;
                     error := Some e |},
               history)
          end
      end
  end.

(** One entry of what [get_context_preview] returns. *)
Record ContextPreview := mkContextPreview {
  cp_section_title : string;
  cp_url : string;
  preview : string
}.

(** [r['content'][:200] + '...' if len(r['content']) > 200 else r['content']] *)
Definition preview_text (content : string) : string :=
  if 200 <? Py.len content
  then String.substring 0 200 content +:+ "..."
  else content.

(** [Chatbot.get_context_preview] *)
Definition get_context_preview (store : Store) (query : string)
    (max_chunks : Z) : Result (list ContextPreview) :=
  match VectorStore.search store query max_chunks with
  | Raise e => Raise e
  | Ok search_results =>
      Ok (map (fun r => {| cp_section_title := sr_section_title r;
                           cp_url := sr_source_url r;
                           preview := preview_text (sr_content r) |})
              search_results)
  end.

End Compose.

End Chatbot.

(* ===================================================================== *)
(** * analytics.py *)
(* ===================================================================== *)

(** One entry of [data['queries']]. *)
Record QueryEntry := mkQueryEntry {
  qe_timestamp : string;
  qe_query : string;
  qe_confidence : string;
  qe_sources_count : Z;
  qe_guardrail_triggered : bool;
  qe_error : bool
}.

(** [Analytics.data]; the two [Counter]s are maps from key to count. *)
Record AnalyticsData := mkAnalyticsData {
  total_queries : Z;
  queries : list QueryEntry;
  sources_accessed : gmap string Z;
  confidence_distribution : gmap string Z;
  guardrail_triggers : Z;
  errors : Z
}.

Module Analytics.

(** The data [load_analytics] starts from when no file exists. *)
Definition fresh : AnalyticsData :=
  {| total_queries := 0;
     queries := [];
     sources_accessed := ∅;
     confidence_distribution := ∅;
     guardrail_triggers := 0;
     errors := 0 |}.

(** [counter[key]]: a missing key counts 0. *)
Definition counter_get (counter : gmap string Z) (key : string) : Z :=
  default 0 (counter !! key).

(** [counter[key] += 1] *)
Definition counter_incr (counter : gmap string Z) (key : string) : gmap string Z :=
  <[key := counter_get counter key + 1]> counter.

(** The value of ['confidence'] in the result dict. *)
Definition confidence_key (c : Confidence) : string :=
  match c with
  | high => "high"
  | medium => "medium"
  | low => "low"
  end.

(** [data['queries'][-1000:]] when the list is longer than 1000. *)
Definition last_1000 (entries : list QueryEntry) : list QueryEntry :=
  if (1000 <? length entries)%nat
  then drop (length entries - 1000)%nat entries
  else entries.

(** [Analytics.track_query], [now] being [datetime.now().isoformat()]; the
    write to [analytics.json] is left out. *)
Definition track_query (now query : string) (response : AnswerResult)
    (data : AnalyticsData) : AnalyticsData :=
  let query_entry :=
    {| qe_timestamp := now;
       qe_query := query;
       qe_confidence := confidence_key (confidence response);
       qe_sources_count := Z.of_nat (length (sources response));
       qe_guardrail_triggered := default false (guardrail_triggered response);
       qe_error := bool_decide (is_Some (error response)) |} in
  {| total_queries := total_queries data + 1;
     queries := last_1000 (queries data ++ [query_entry]);
     sources_accessed :=
       fold_left (fun counter source => counter_incr counter (url source))
                 (sources response) (sources_accessed data);
     confidence_distribution :=
       counter_incr (confidence_distribution data)
                    (confidence_key (confidence response));
     guardrail_triggers :=
       if default false (guardrail_triggered response)
       then guardrail_triggers data + 1 else guardrail_triggers data;
     errors :=
       if bool_decide (is_Some (error response))
       then errors data + 1 else errors data |}.

End Analytics.

(* ===================================================================== *)
(** * Vocabulary of the statements *)
(* ===================================================================== *)

(** The documents with the four keys [_split_with_metadata_preservation]
    reads. *)
Definition section_document (doc : Document) (src title : string) (s e : Z) : Prop :=
  md_source_url (metadata doc) = Some src /\
  md_section_title (metadata doc) = Some title /\
  md_start_char (metadata doc) = Some s /\
  md_end_char (metadata doc) = Some e.

(** The pieces lie left to right in [text]: piece number [i] is the part of
    [text] that starts at [positions[i]], the first position is at least
    [lo], and each next piece starts no more than [overlap] characters
    before the end of the previous one (neighbours share at most [overlap]
    characters). *)
Fixpoint tiles_from (overlap : Z) (text : string) (lo : Z)
    (pieces : list string) (positions : list Z) : Prop :=
  match pieces, positions with
  | [], [] => True
  | piece :: pieces', a :: positions' =>
      lo <= a /\ 0 <= a /\
      String.substring (Z.to_nat a) (String.length piece) text = piece /\
      a + Py.len piece <= Py.len text /\
      tiles_from overlap text (a + Py.len piece - overlap) pieces' positions'
  | _, _ => False
  end.

(** The sections [cs] lie end to end from offset [from]: each starts where
    the previous one ended and spans the length of its content. *)
Fixpoint laid_from (from : Z) (cs : list Chunk) : Prop :=
  match cs with
  | [] => True
  | c :: rest =>
      start_char c = from /\
      end_char c = from + Py.len (content c) /\
      laid_from (end_char c) rest
  end.

(** Where the last of the sections [cs] laid from [from] ends. *)
Fixpoint end_of (from : Z) (cs : list Chunk) : Z :=
  match cs with
  | [] => from
  | c :: rest => end_of (end_char c) rest
  end.

(** The invariant of the walk: the sections emitted so far lie end to end
    from 0 up to the running offset. *)
Definition walk_ok (w : Scraper.Walk) : Prop :=
  laid_from 0 (Scraper.chunks w) /\
  Scraper.char_offset w = end_of 0 (Scraper.chunks w).

(** The section a boundary closes: the accumulated texts joined by spaces,
    from the running offset. *)
Definition pending_section (url : string) (w : Scraper.Walk) : Chunk :=
  let section_text := Py.join " " (Scraper.current_section_content w) in
  {| source_url := url;
     section_title := Scraper.current_section_title w;
     start_char := Scraper.char_offset w;
     end_char := Scraper.char_offset w + Py.len section_text;
     content := section_text |}.

(** The URLs of the requests of a log whose discovery step completed (the
    [try] block ran to its end: request, parse and link extraction), in
    order. *)
Definition successes (log : list (string * bool)) : list string :=
  map fst (List.filter snd log).

(** The visited set after the requests of [log], started from [visited]:
    each request whose discovery step completed adds its URL. *)
Fixpoint visited_after (visited : gset string) (log : list (string * bool))
    : gset string :=
  match log with
  | [] => visited
  | (u, ok) :: rest =>
      visited_after (if ok then {[u]} ∪ visited else visited) rest
  end.

(** Every request of [log] asked for a URL that was not in the visited set
    at that moment, while the set held fewer than [max_pages] URLs. *)
Fixpoint log_ok (max_pages : Z) (visited : gset string)
    (log : list (string * bool)) : Prop :=
  match log with
  | [] => True
  | (u, ok) :: rest =>
      (u ∉ visited) /\
      Z.of_nat (size visited) < max_pages /\
      log_ok max_pages (if ok then {[u]} ∪ visited else visited) rest
  end.

(** Whether every character of [s] satisfies [f]. *)
Fixpoint all_chars (f : ascii -> bool) (s : string) : bool :=
  match s with
  | EmptyString => true
  | String c r => f c && all_chars f r
  end.

(** The citation a retrieved document stands for. *)
Definition doc_source (doc : Document) : Source :=
  {| url := default EmptyString (md_source_url (metadata doc));
     src_section_title := default EmptyString (md_section_title (metadata doc));
     src_start_char := default 0 (md_start_char (metadata doc));
     src_end_char := default 0 (md_end_char (metadata doc));
     relevance_score := None |}.

(** The citation a search result stands for. *)
Definition result_source (result : SearchResult) : Source :=
  {| url := sr_source_url result;
     src_section_title := sr_section_title result;
     src_start_char := sr_start_char result;
     src_end_char := sr_end_char result;
     relevance_score :=
       Chatbot.relevance (default 0%float (sr_distance result)) |}.

Definition has_url (source : Source) : bool :=
  negb (String.eqb (url source) EmptyString).

(** The candidate citations in the order [extract_sources] meets them: the
    retriever's documents that carry a URL, then the search results. *)
Definition candidates (source_documents : list Document)
    (search_results : list SearchResult) : list Source :=
  List.filter has_url (map doc_source source_documents)
  ++ map result_source search_results.


(** Keep the first candidate of every URL not in [seen]. *)
Fixpoint keep_first (seen : gset string) (cands : list Source) : list Source :=
  match cands with
  | [] => []
  | c :: rest =>
      if bool_decide (url c ∈ seen) then keep_first seen rest
      else c :: keep_first ({[url c]} ∪ seen) rest
  end.

(** Whether the whitespace of [s] is made of single spaces, each between
    two other characters; [after_space] tells that the character before [s]
    is whitespace (or that [s] starts the text). *)
Fixpoint single_spaced (after_space : bool) (s : string) : bool :=
  match s with
  | EmptyString => true
  | String c r =>
      if Py.isspace c
      then Ascii.eqb c " " && negb after_space && single_spaced true r
      else single_spaced false r
  end.

(** Whether [s] does not end with whitespace. *)
Fixpoint no_trailing_space (s : string) : bool :=
  match s with
  | EmptyString => true
  | String c EmptyString => negb (Py.isspace c)
  | String _ r => no_trailing_space r
  end.

(** Whitespace-normalized text: no whitespace at either end, and inside
    only single spaces. *)
Definition normalized (s : string) : bool :=
  single_spaced true s && no_trailing_space s.

(** Whether the walk of [extract_sections] looks at an element: it is not
    under a landmark and its cleaned text has at least 10 characters. *)
Definition kept (e : Element) : bool :=
  negb (has_landmark_parent e)
  && (10 <=? Py.len (Scraper.clean_text (get_text e))).

(** What the sections of a page are made from: the elements the walk looks
    at, and the cleaned text of the content root. *)
Definition walked (root : Root) : list Element :=
  List.filter kept (Scraper.find_all Scraper.block_names root).

(** A well-formed section of the page at [url] whose content root is
    [root]: it carries the page's URL, its content is whitespace-normalized
    and longer than 50 characters, and its title is [Introduction], or
    [Main Content], or the cleaned text of a heading of the root that the
    walk looks at. *)
Definition section_of (url : string) (root : Root) (c : Chunk) : Prop :=
  source_url c = url /\
  50 < Py.len (content c) /\
  normalized (content c) = true /\
  (section_title c = "Introduction" \/
   section_title c = "Main Content" \/
   exists e, e ∈ descendants root /\
     Py.mem (name e) Scraper.heading_names = true /\
     kept e = true /\
     section_title c = Scraper.clean_text (get_text e)).

Section CrawlVocabulary.

Variable urlparse : string -> option Scraper.ParseResult.
Variable urljoin : string -> string -> option string.
Variable web : nat -> string -> option Soup.

(** A URL the crawl of [base_domain] may follow, as [is_valid_url] decides
    it: it starts with [http://] or [https://], its lower-cased text holds
    none of the skip patterns, and [urlparse] places it on the domain's
    site (a host that contains the site's name, or no host; for the
    direction pages also a path that contains [/direction]). *)
Definition on_site (base_domain u : string) : Prop :=
  (Py.startswith u "http://" = true \/ Py.startswith u "https://" = true) /\
  Forall (fun pattern => Py.contains pattern (Py.lower u) = false)
         Scraper.skip_patterns /\
  exists parsed, urlparse u = Some parsed /\
    (base_domain = "handbook" ->
     Py.contains "handbook.gitlab.com" (Scraper.netloc parsed) = true \/
     Scraper.netloc parsed = "") /\
    (base_domain = "direction" ->
     (Py.contains "about.gitlab.com" (Scraper.netloc parsed) = true \/
      Scraper.netloc parsed = "") /\
     Py.contains "/direction" (Scraper.path parsed) = true).

(** The page [v] links to [u]: request number [i] of the session fetched
    [v] with success, and the page it got holds an anchor whose absolute,
    normalized URL is [u], a URL valid for the domain. *)
Definition links_to (log : list (string * bool)) (base_domain v u : string)
    : Prop :=
  exists i soup base_url href full_url,
    log !! i = Some (v, true) /\
    web i v = Some soup /\
    Scraper.BASE_URLS base_domain = Some base_url /\
    href ∈ anchors soup /\
    Scraper.absolute_url urljoin base_url v href = Some full_url /\
    u = Scraper.normalize full_url /\
    Scraper.is_valid_url urlparse u base_domain = true.

(** [u] is at most [k] links away from the URLs of [start], following the
    pages the session fetched. *)
Inductive within (log : list (string * bool)) (base_domain : string)
    (start : list string) : nat -> string -> Prop :=
| within_start (k : nat) (u : string) :
    u ∈ start -> within log base_domain start k u
| within_link (k : nat) (v u : string) :
    within log base_domain start k v ->
    links_to log base_domain v u ->
    within log base_domain start (S k) u.

End CrawlVocabulary.


(** The answer [generate_response] returns when the retriever or the model
    raises [e]. *)
Definition error_answer (e : string) : AnswerResult :=
  {| response := "I encountered an error: " +:+ e +:+ ". Please try again.";
     sources := [];
     confidence := low;
     context_used := false;
     guardrail_triggered := None;
     error := Some e |}.

(** The entry [track_query] appends to [data['queries']]. *)
Definition query_entry_of (now query : string) (response : AnswerResult)
    : QueryEntry :=
  {| qe_timestamp := now;
     qe_query := query;
     qe_confidence := Analytics.confidence_key (confidence response);
     qe_sources_count := Z.of_nat (length (sources response));
     qe_guardrail_triggered := default false (guardrail_triggered response);
     qe_error := bool_decide (is_Some (error response)) |}.

(** [track_query] called once per event, in order; an event is the time,
    the query and the response. *)
Definition track_all (events : list (string * string * AnswerResult))
    (data : AnalyticsData) : AnalyticsData :=
  fold_left (fun data '(now, query, response) =>
               Analytics.track_query now query response data)
            events data.

(** Whether the answer has the confidence [c]. *)
Definition has_confidence (c : Confidence) (response : AnswerResult) : bool :=
  match c, confidence response with
  | high, high | medium, medium | low, low => true
  | _, _ => false
  end.

(** How many of [xs] satisfy [f]. *)
Definition count_of {A : Type} (f : A -> bool) (xs : list A) : Z :=
  Z.of_nat (length (List.filter f xs)).

(** A document that carries the four keys
    [_split_with_metadata_preservation] reads. *)
Definition keyed_document (doc : Document) : Prop :=
  exists src title s e, section_document doc src title s e.

Section CrawlOutcomes.

Variable urlparse : string -> option Scraper.ParseResult.
Variable urljoin : string -> string -> option string.
Variable web : nat -> string -> option Soup.

(** The discovery step of [u] completes: request number [n] of the session
    gets the page ([session.get], [raise_for_status] and the parse do not
    raise) and [extract_links] returns its links, [visited] being the
    visited set at that moment. Only then is [u] marked visited and put on
    the list to scrape. *)
Definition discovery_completes (base_domain : string) (visited : gset string)
    (n : nat) (u : string) : Prop :=
  exists soup links,
    web n u = Some soup /\
    Scraper.extract_links urlparse urljoin visited soup u base_domain
      = Some links.

(** Every entry [(u, ok)] of [log], the requests issued from request number
    [n] on with the visited set [visited], has [ok = true] exactly when the
    discovery step of [u] completed. *)
Fixpoint log_outcomes (base_domain : string) (visited : gset string)
    (n : nat) (log : list (string * bool)) : Prop :=
  match log with
  | [] => True
  | (u, ok) :: rest =>
      (ok = true <-> discovery_completes base_domain visited n u) /\
      log_outcomes base_domain (if ok then {[u]} ∪ visited else visited)
                   (S n) rest
  end.

End CrawlOutcomes.

(** The sections the walk of [extract_sections] over [elements] gives,
    the section pending at its end included. *)
Definition sections_of_walk (url : string) (elements : list Element)
    : list Chunk :=
  let w := fold_left (Scraper.walk_step url) elements Scraper.walk_init in
  match Scraper.save_section url w with
  | Some c => Scraper.chunks w ++ [c]
  | None => Scraper.chunks w
  end.

(* ===================================================================== *)
(** * Example data *)
(* ===================================================================== *)

(** The corpus of the end-to-end scenario: one section, "Remote Work", and
    a splitter whose chunk size fits it whole. *)
Definition remote_work : Chunk :=
  {| source_url := "https://handbook.gitlab.com/remote";
     section_title := "Remote Work";
     start_char := 0;
     end_char := 32;
     content := "GitLab is an all-remote company." |}.

Definition whole_splitter : TextSplitter :=
  {| split_text := fun text => [text]; _chunk_overlap := 50 |}.

(** A section of 232 characters and a splitter with the overlap 50 that
    cuts it into two pieces sharing 39 characters. *)
Definition team_text : string :=
  "GitLab is an all-remote company with team members in more than sixty countries. We document everything in the handbook so that people can work asynchronously. Meetings are optional, recorded when possible, and always have an agenda.".

Definition team_document (text : string) : Document :=
  {| page_content := text;
     metadata :=
       {| md_source_url := Some "https://handbook.gitlab.com/teamops";
          md_section_title := Some "TeamOps";
          md_start_char := Some 0;
          md_end_char := Some (Py.len text);
          md_original_content := Some text;
          md_chunk_index := None;
          md_total_chunks := None;
          md_original_start := None;
          md_original_end := None |} |}.

Definition narrow_overlap_splitter : TextSplitter :=
  {| split_text := fun text =>
       [String.substring 0 158 text; String.substring 119 113 text];
     _chunk_overlap := 50 |}.

Fixpoint repeat_text (n : nat) (s : string) : string :=
  match n with
  | O => EmptyString
  | S n' => s +:+ repeat_text n' s
  end.

(** A section of 3539 characters: a one-word sentence, then one sentence of
    562 words. Cut for 300 tokens with 50 tokens of overlap, separators
    kept at the start of the next piece, it gives four pieces: the word
    [Overview] alone (the sentence after it is too long to join it), then
    three runs of words, each sharing its last 50 words with the next; they
    stand in the text at [0, 8), [8, 1888), [1575, 3463), [3146, 3539). *)
Definition decisions_text : string :=
  "Overview. "
  +:+ repeat_text 80 "we document decisions in merge requests and "
  +:+ "in issues".

Definition token_splitter : TextSplitter :=
  {| split_text := fun text =>
       [String.substring 0 8 text; String.substring 8 1880 text;
        String.substring 1575 1888 text; String.substring 3146 393 text];
     _chunk_overlap := 50 |}.

(** A page whose content root is [<main>], given by the elements found
    under it and its text. *)
Definition para (text : string) : Element :=
  {| name := "p"; has_landmark_parent := false; get_text := text |}.
Definition heading (text : string) : Element :=
  {| name := "h2"; has_landmark_parent := false; get_text := text |}.
Definition page_of (elements : list Element) (text : string) : Soup :=
  {| find_main := Some {| descendants := elements; root_text := text |};
     find_article := None; find_content_div := None; find_body := None;
     anchors := [] |}.

Definition values_intro : string :=
  "GitLab publishes the handbook so that everyone can contribute.".
Definition values_body : string :=
  "Collaboration, results, efficiency, diversity, iteration and transparency.".
Definition values_page : Soup :=
  page_of [para values_intro; heading "Our six core values"; para values_body]
          (values_intro +:+ " Our six core values " +:+ values_body).

Definition fifty_chars : string :=
  "GitLab values results over hours spent in a seat..".

(** A small handbook: the base page links to [/values] and [/hiring], and
    [/hiring] links to [/values]. *)
Definition handbook_url : string := "https://handbook.gitlab.com".
Definition values_url : string := "https://handbook.gitlab.com/values".
Definition hiring_url : string := "https://handbook.gitlab.com/hiring".

Definition links_page (hrefs : list string) : Soup :=
  {| find_main := None; find_article := None; find_content_div := None;
     find_body := Some {| descendants := []; root_text := "" |};
     anchors := hrefs |}.

(** [urlparse] on the URLs of the handbook host. *)
Definition handbook_urlparse (url : string) : option Scraper.ParseResult :=
  if String.prefix handbook_url url
  then Some {| Scraper.netloc := "handbook.gitlab.com";
               Scraper.path := String.substring 27 (String.length url - 27) url |}
  else None.

(** [urljoin] in the examples. Every [href] of the small handbook is
    absolute, so [urljoin] is not reached for them; it is reached only for
    the malformed [href] [//[], on which it raises. *)
Definition no_urljoin (base href : string) : option string := None.

(** The small handbook with [/values] down for the whole run. *)
Definition values_down_web (n : nat) (url : string) : option Soup :=
  if String.eqb url handbook_url then Some (links_page [values_url; hiring_url])
  else if String.eqb url hiring_url then Some (links_page [values_url])
  else None.

(** The small handbook with [/values] failing once: the first two requests
    of the session cannot reach it, the later ones can. *)
Definition values_flaky_web (n : nat) (url : string) : option Soup :=
  if String.eqb url handbook_url then Some (links_page [values_url; hiring_url])
  else if String.eqb url hiring_url then Some (links_page [values_url])
  else if String.eqb url values_url
       then if (n <? 2)%nat then None else Some (links_page [])
       else None.

Definition fresh_crawl : Scraper.CrawlState :=
  {| Scraper.visited_urls := ∅; Scraper.fetch_log := [] |}.

(** What a run of [find_all_pages] returns and the requests it issued. *)
Definition crawl_report (web : nat -> string -> option Soup)
    (max_depth max_pages : Z) : option (list string * list (string * bool)) :=
  match Scraper.find_all_pages handbook_urlparse no_urljoin web
          max_depth max_pages "handbook" fresh_crawl with
  | Some (urls, st) => Some (urls, Scraper.fetch_log st)
  | None => None
  end.

(** An index kept as the list of its documents, which also records every
    text passed to the embedding model. *)
Record ListIndex := mkListIndex {
  stored : list Document;
  embedded : list string
}.

#[local] Instance list_index : VectorIndex ListIndex := {|
  count := fun store => Some (Z.of_nat (length (stored store)));
  add_documents := fun store batch =>
    ({| stored := stored store ++ batch;
        embedded := embedded store ++ map page_content batch |}, true);
  similarity_search_with_score := fun store query k =>
    Ok (map (fun doc => (doc, 0.25%float)) (take (Z.to_nat k) (stored store)))
|}.

Definition remote_document : Document :=
  {| page_content := "GitLab is an all-remote company.";
     metadata :=
       {| md_source_url := Some "https://handbook.gitlab.com/remote";
          md_section_title := Some "Remote Work";
          md_start_char := Some 0;
          md_end_char := Some 32;
          md_original_content := None;
          md_chunk_index := Some 0;
          md_total_chunks := Some 1;
          md_original_start := Some 0;
          md_original_end := Some 32 |} |}.

Definition populated_index : ListIndex :=
  {| stored := [remote_document];
     embedded := ["GitLab is an all-remote company."] |}.

(** The built-in [sum] as plain left-to-right binary64 addition from 0; on
    one or two numbers every way of summing them gives this value. *)
Definition plain_sum (xs : list float) : float :=
  fold_left PrimFloat.add xs 0%float.

Definition match_at (distance : float) : SearchResult :=
  {| sr_content := "GitLab is an all-remote company.";
     sr_source_url := "https://handbook.gitlab.com/remote";
     sr_section_title := "Remote Work";
     sr_start_char := 0;
     sr_end_char := 32;
     sr_distance := Some distance |}.

(** A retriever over the list index, a prompt template, and a model that
    appends a sources section of its own to the answer. *)
Definition list_retriever (store : ListIndex) (query : string)
    : Result (list Document) :=
  Ok (take 5 (stored store)).

Definition plain_prompt (context question chat_history : string) : string :=
  chat_history +:+ context +:+ Chatbot.NL +:+ question.

Definition citing_model (prompt : string) : Result string :=
  Ok ("GitLab is an all-remote company." +:+ Chatbot.NL
      +:+ Chatbot.NL
      +:+ "Sources:" +:+ Chatbot.NL
      +:+ "- https://example.com/remote-work-guide").

Definition failing_model (prompt : string) : Result string :=
  Raise "503 Service Unavailable".

Definition remote_answer : AnswerResult :=
  {| response := "GitLab is an all-remote company.";
     sources := [ {| url := "https://handbook.gitlab.com/remote";
                     src_section_title := "Remote Work";
                     src_start_char := 0;
                     src_end_char := 32;
                     relevance_score := None |} ];
     confidence := high;
     context_used := true;
     guardrail_triggered := Some false;
     error := None |}.

(** The values page with a navigation bar, a short heading fragment and a
    [span] added: none of them is looked at by the walk, and the text of
    the content root holds them all. *)
Definition values_page_with_nav : Soup :=
  {| find_main := None;
     find_article :=
       Some {| descendants :=
                 [ {| name := "li"; has_landmark_parent := true;
                      get_text := "Handbook home and navigation" |};
                   para values_intro;
                   heading "Menu";
                   {| name := "span"; has_landmark_parent := false;
                      get_text := "An inline remark that is not a block" |};
                   heading "Our six core values";
                   para values_body ];
               root_text := "Handbook home and navigation "
                            +:+ values_intro
                            +:+ " Menu An inline remark that is not a block"
                            +:+ " Our six core values " +:+ values_body |};
     find_content_div := None; find_body := None; anchors := [] |}.

(** A chain of pages: the base page links to [/a], [/a] to [/a/b], [/a/b]
    to [/a/b/c]. *)
Definition chain_web (n : nat) (url : string) : option Soup :=
  if String.eqb url handbook_url
  then Some (links_page ["https://handbook.gitlab.com/a/"])
  else if String.eqb url "https://handbook.gitlab.com/a"
  then Some (links_page ["https://handbook.gitlab.com/a/b#top"])
  else if String.eqb url "https://handbook.gitlab.com/a/b"
  then Some (links_page ["https://handbook.gitlab.com/a/b/c"])
  else Some (links_page []).

(** A handbook whose pages all hold the values text; [decompose] is the
    identity on them (they have no script, style or landmark). *)
Definition values_site (n : nat) (url : string) : option Soup :=
  if String.eqb url handbook_url
  then Some {| find_main := find_main values_page;
               find_article := None; find_content_div := None;
               find_body := None; anchors := [values_url] |}
  else if String.eqb url values_url then Some values_page
  else None.

(** An index that holds at most [quota] documents: a batch that would go
    past the quota is refused and [add_documents] raises. *)
Record QuotaIndex := mkQuotaIndex {
  quota : nat;
  held : list Document
}.

#[local] Instance quota_index : VectorIndex QuotaIndex := {|
  count := fun store => Some (Z.of_nat (length (held store)));
  add_documents := fun store batch =>
    if (length (held store) + length batch <=? quota store)%nat
    then ({| quota := quota store; held := held store ++ batch |}, true)
    else (store, false);
  similarity_search_with_score := fun store query k =>
    Ok (map (fun doc => (doc, 0.25%float)) (take (Z.to_nat k) (held store)))
|}.

(** A corpus of 250 copies of the "Remote Work" section. *)
Definition remote_corpus : list Chunk := repeat remote_work 250.

(** An index whose similarity search is down. *)
Record DownIndex := mkDownIndex { reported : option Z }.

#[local] Instance down_index : VectorIndex DownIndex := {|
  count := reported;
  add_documents := fun store batch => (store, false);
  similarity_search_with_score := fun store query k =>
    Raise "index unavailable"
|}.

(** A section text of 230 characters. *)
Definition long_content : string :=
  repeat_text 5 "we document decisions in merge requests and " +:+ "in issues.".

(** A retriever that is down. *)
Definition failing_retriever (store : ListIndex) (query : string)
    : Result (list Document) :=
  Raise "retriever timeout".

(** Search results for two URLs, and the retriever's document for the
    first of them. *)
Definition values_result : SearchResult :=
  {| sr_content := values_intro;
     sr_source_url := "https://handbook.gitlab.com/values";
     sr_section_title := "Values";
     sr_start_char := 0;
     sr_end_char := 62;
     sr_distance := Some 0.4%float |}.

(** A second section of the "Remote Work" page, 232 characters from offset
    32, and a splitter with the overlap 50 that leaves a text of up to 158
    characters whole and cuts a longer one in two pieces sharing 39
    characters. *)
Definition team_section : Chunk :=
  {| source_url := "https://handbook.gitlab.com/remote";
     section_title := "TeamOps";
     start_char := 32;
     end_char := 264;
     content := team_text |}.

Definition window_splitter : TextSplitter :=
  {| split_text := fun text =>
       if (String.length text <=? 158)%nat then [text]
       else [String.substring 0 158 text;
             String.substring 119 (String.length text - 119) text];
     _chunk_overlap := 50 |}.

(** A page whose only paragraph has exactly 50 characters, followed by an
    inline remark that is not a block element. *)
Definition fifty_chars_page : Soup :=
  page_of [para fifty_chars]
          (fifty_chars +:+ " See the handbook for more.").

(** The small handbook with a malformed link on [/values]: the page answers
    every request, but its only anchor is [//[], on which [urljoin] raises
    (the host is an unclosed IPv6 literal), so [extract_links] raises. *)
Definition values_bad_href_web (n : nat) (url : string) : option Soup :=
  if String.eqb url handbook_url then Some (links_page [values_url; hiring_url])
  else if String.eqb url hiring_url then Some (links_page [values_url])
  else if String.eqb url values_url then Some (links_page ["//["])
  else None.





(** A page that holds a navigation item only. *)
Definition navigation_page : Soup :=
  {| find_main := None; find_article := None; find_content_div := None;
     find_body :=
       Some {| descendants :=
                 [ {| name := "li"; has_landmark_parent := true;
                      get_text := "Handbook home, values, hiring, direction and more pages" |} ];
               root_text := "Handbook home, values, hiring, direction and more pages" |};
     anchors := [] |}.

(* ===================================================================== *)
(** * Chunk splitter: the offset recurrence *)
(* ===================================================================== *)

Section SplitterFacts.

Import VectorStore.

Variables (overlap_chars : Z) (src title : string).
Variables (original_start original_end total : Z).

Local Abbreviation pieces_from :=
  (split_pieces overlap_chars src title original_start original_end total).

Lemma split_pieces_length (splits : list string) (i current_char : Z) :
  length (pieces_from i current_char splits) = length splits.
Proof.
  revert i current_char.
  induction splits as [|piece rest IH]; intros i cur; simpl; [reflexivity|].
  now rewrite IH.
Qed.

Lemma split_pieces_head (splits : list string) (i current_char : Z) (c : Document) :
  head (pieces_from i current_char splits) = Some c ->
  md_start_char (metadata c) = Some current_char.
Proof.
  destruct splits as [|piece rest]; simpl; intros Hc; [discriminate|].
  injection Hc as <-. reflexivity.
Qed.

Lemma split_pieces_lookup (splits : list string) (i current_char : Z)
    (k : nat) (c : Document) :
  pieces_from i current_char splits !! k = Some c ->
  exists piece st,
    splits !! k = Some piece /\
    page_content c = piece /\
    md_start_char (metadata c) = Some st /\
    md_end_char (metadata c) = Some (st + Py.len piece) /\
    md_chunk_index (metadata c) = Some (i + Z.of_nat k) /\
    md_total_chunks (metadata c) = Some total.
Proof.
  revert i current_char k.
  induction splits as [|piece rest IH]; intros i cur k Hk; [discriminate|].
  destruct k as [|k]; simpl in Hk.
  - injection Hk as <-. exists piece, cur. simpl.
    repeat split; try reflexivity. f_equal. lia.
  - apply IH in Hk as (p & st & Hp & Hc & Hs & He & Hi & Ht).
    exists p, st. simpl. repeat split; try assumption.
    rewrite Hi. f_equal. lia.
Qed.

Lemma split_pieces_next (splits : list string) (i current_char : Z)
    (k : nat) (c c' : Document) (en : Z) :
  pieces_from i current_char splits !! k = Some c ->
  pieces_from i current_char splits !! S k = Some c' ->
  md_end_char (metadata c) = Some en ->
  md_start_char (metadata c') = Some (en - overlap_chars).
Proof.
  revert i current_char k.
  induction splits as [|piece rest IH]; intros i cur k Hk Hk' Hen; [discriminate|].
  destruct k as [|k]; simpl in Hk, Hk'.
  - injection Hk as <-. simpl in Hen. injection Hen as <-.
    apply (split_pieces_head rest (i + 1)). now destruct (pieces_from _ _ rest).
  - eapply IH; eassumption.
Qed.

End SplitterFacts.

Lemma split_document_pieces (ts : TextSplitter) (doc : Document)
    (src title : string) (s e : Z) :
  section_document doc src title s e ->
  VectorStore.split_document ts doc =
    Some (VectorStore.split_pieces (_chunk_overlap ts) src title s e
            (Z.of_nat (length (split_text ts (page_content doc)))) 0 s
            (split_text ts (page_content doc))).
Proof.
  intros (Hsrc & Htitle & Hs & He). unfold VectorStore.split_document.
  rewrite Hs, Hsrc, Htitle, He.
  now destruct (split_text ts (page_content doc)).
Qed.

Lemma split_single_document (ts : TextSplitter) (doc : Document) :
  VectorStore._split_with_metadata_preservation ts [doc] =
    VectorStore.split_document ts doc.
Proof.
  simpl. destruct (VectorStore.split_document ts doc) as [cs|]; [|reflexivity].
  now rewrite app_nil_r.
Qed.

(** The chunks of one section document, piece by piece. *)
Lemma split_section_chunks (ts : TextSplitter) (doc : Document)
    (src title : string) (s e : Z) :
  section_document doc src title s e ->
  let pieces := split_text ts (page_content doc) in
  exists chunks,
    VectorStore._split_with_metadata_preservation ts [doc] = Some chunks /\
    length chunks = length pieces /\
    (forall c, head chunks = Some c -> md_start_char (metadata c) = Some s) /\
    (forall i c, chunks !! i = Some c ->
       exists piece st,
         pieces !! i = Some piece /\
         page_content c = piece /\
         md_start_char (metadata c) = Some st /\
         md_end_char (metadata c) = Some (st + Py.len piece) /\
         md_chunk_index (metadata c) = Some (Z.of_nat i) /\
         md_total_chunks (metadata c) = Some (Z.of_nat (length pieces))) /\
    (forall i c c' en,
       chunks !! i = Some c -> chunks !! S i = Some c' ->
       md_end_char (metadata c) = Some en ->
       md_start_char (metadata c') = Some (en - _chunk_overlap ts)).
Proof.
  intros Hdoc pieces. eexists.
  rewrite split_single_document, (split_document_pieces ts doc src title s e Hdoc).
  fold pieces. split; [reflexivity|].
  split; [apply split_pieces_length|].
  split; [intros c; apply split_pieces_head|].
  split; [intros i c Hc; apply split_pieces_lookup in Hc; exact Hc|].
  intros i c c' en; apply split_pieces_next.
Qed.

(** The chunks of a list of documents are the chunks of each document, one
    document after the other. *)
Lemma split_documents_groups (ts : TextSplitter) (docs : list Document) :
  Forall keyed_document docs ->
  exists groups,
    VectorStore._split_with_metadata_preservation ts docs
      = Some (concat groups) /\
    Forall2 (fun doc chunks =>
               VectorStore._split_with_metadata_preservation ts [doc]
               = Some chunks)
            docs groups.
Proof.
  induction 1 as [|doc rest (src & title & s & e & Hdoc) _ (groups & Hrun & Hall)].
  - exists []. split; [reflexivity|constructor].
  - cbn [VectorStore._split_with_metadata_preservation].
    rewrite (split_document_pieces ts doc src title s e Hdoc), Hrun.
    eexists (_ :: groups). split; [reflexivity|]. constructor; [|exact Hall].
    cbv beta. etransitivity; [apply split_single_document|].
    now apply split_document_pieces.
Qed.

(** C1. For every list of section documents, the chunks emitted are the
    chunks of the first section, then those of the second, and so on, and
    the chunks of each section follow the offset recurrence: there is one
    chunk per piece the splitter cuts the section into; the first chunk
    starts at the section's [start_char]; chunk [i] holds piece [i], ends at
    its start plus the length of the piece, and is tagged [chunk_index = i]
    and [total_chunks = ] the number of pieces; each next chunk starts at
    the previous chunk's end minus the configured overlap. When the
    splitter returns the whole content as its only piece, the section
    gives exactly one chunk, from the section's [start_char] to
    [start_char + len(content)], with [chunk_index = 0], [total_chunks = 1]. *)
Theorem split_offset_recurrence (ts : TextSplitter) (docs : list Document) :
  Forall keyed_document docs ->
  exists groups,
    VectorStore._split_with_metadata_preservation ts docs
      = Some (concat groups) /\
    Forall2
      (fun doc chunks =>
         forall src title s e, section_document doc src title s e ->
         let pieces := split_text ts (page_content doc) in
         length chunks = length pieces /\
         (forall c, head chunks = Some c ->
            md_start_char (metadata c) = Some s) /\
         (forall i c, chunks !! i = Some c ->
            exists piece st,
              pieces !! i = Some piece /\
              page_content c = piece /\
              md_start_char (metadata c) = Some st /\
              md_end_char (metadata c) = Some (st + Py.len piece) /\
              md_chunk_index (metadata c) = Some (Z.of_nat i) /\
              md_total_chunks (metadata c) = Some (Z.of_nat (length pieces))) /\
         (forall i c c' en,
            chunks !! i = Some c -> chunks !! S i = Some c' ->
            md_end_char (metadata c) = Some en ->
            md_start_char (metadata c') = Some (en - _chunk_overlap ts)) /\
         (pieces = [page_content doc] ->
            exists c,
              chunks = [c] /\
              md_start_char (metadata c) = Some s /\
              md_end_char (metadata c) = Some (s + Py.len (page_content doc)) /\
              md_chunk_index (metadata c) = Some 0 /\
              md_total_chunks (metadata c) = Some 1))
      docs groups.
Proof.
  intros Hdocs.
  destruct (split_documents_groups ts docs Hdocs) as (groups & Hrun & Hall).
  exists groups. split; [exact Hrun|].
  eapply Forall2_impl; [exact Hall|]. cbv beta.
  intros doc chunks Hdoc_run src title s e Hdoc pieces.
  destruct (split_section_chunks ts doc src title s e Hdoc)
    as (chunks' & Hrun' & Hlen & Hhead & Hat & Hnext).
  rewrite Hdoc_run in Hrun'. injection Hrun' as <-.
  repeat (split; [assumption|]).
  fold pieces in Hlen, Hat. intros Hone. rewrite Hone in Hlen, Hat.
  destruct chunks as [|c [|c' rest]]; try discriminate Hlen.
  exists c. split; [reflexivity|].
  destruct (Hat 0%nat c eq_refl) as (piece & st & Hp & _ & Hst & Hen & Hi & Ht).
  injection Hp as <-. rewrite (Hhead c eq_refl) in Hst. injection Hst as <-.
  auto.
Qed.

Lemma created_document_is_section (chunk : Chunk) :
  section_document
    (mkDocument (content chunk)
       (mkMetadata (Some (source_url chunk)) (Some (section_title chunk))
          (Some (start_char chunk)) (Some (end_char chunk))
          (Some (content chunk)) None None None None))
    (source_url chunk) (section_title chunk) (start_char chunk) (end_char chunk).
Proof. repeat split. Qed.

Lemma created_documents_keyed (chunks : list Chunk) :
  Forall keyed_document (VectorStore._create_langchain_documents chunks).
Proof.
  unfold VectorStore._create_langchain_documents. apply Forall_forall.
  intros doc Hdoc. apply list_elem_of_fmap in Hdoc as (chunk & -> & _).
  exists (source_url chunk), (section_title chunk), (start_char chunk),
         (end_char chunk).
  apply created_document_is_section.
Qed.

(** Two sections of one page through a splitter that leaves the first
    whole and cuts the second in two: three chunks, the offsets of the
    second section's chunks starting from that section's [start_char]. *)
Lemma split_offset_recurrence_witness :
  exists c0 c1 c2,
    VectorStore._split_with_metadata_preservation window_splitter
      (VectorStore._create_langchain_documents [remote_work; team_section])
      = Some [c0; c1; c2] /\
    (md_start_char (metadata c0), md_end_char (metadata c0),
     md_chunk_index (metadata c0), md_total_chunks (metadata c0))
      = (Some 0, Some 32, Some 0, Some 1) /\
    (md_start_char (metadata c1), md_end_char (metadata c1),
     md_chunk_index (metadata c1), md_total_chunks (metadata c1))
      = (Some 32, Some 190, Some 0, Some 2) /\
    (md_start_char (metadata c2), md_end_char (metadata c2),
     md_chunk_index (metadata c2), md_total_chunks (metadata c2))
      = (Some 140, Some 253, Some 1, Some 2).
Proof.
  destruct (split_offset_recurrence window_splitter
              (VectorStore._create_langchain_documents
                 [remote_work; team_section])
              (created_documents_keyed [remote_work; team_section]))
    as (groups & Hrun & Hall).
  apply Forall2_cons_inv_l in Hall as (g1 & groups1 & H1 & Hall & ->).
  apply Forall2_cons_inv_l in Hall as (g2 & groups2 & H2 & Hall & ->).
  apply Forall2_nil_inv_l in Hall as ->.
  destruct (H1 _ _ _ _ (created_document_is_section remote_work))
    as (_ & _ & _ & _ & Hone).
  destruct (Hone eq_refl) as (c0 & -> & Hs0 & He0 & Hi0 & Ht0).
  destruct (H2 _ _ _ _ (created_document_is_section team_section))
    as (Hlen & Hhead & Hat & Hnext & _).
  destruct g2 as [|c1 [|c2 [|c3 rest]]]; try discriminate Hlen.
  exists c0, c1, c2. split; [exact Hrun|].
  split; [now rewrite Hs0, He0, Hi0, Ht0|].
  pose proof (Hhead c1 eq_refl) as Hs1.
  destruct (Hat 0%nat c1 eq_refl) as (p1 & st1 & Hp1 & _ & Hst1 & He1 & Hi1 & Ht1).
  destruct (Hat 1%nat c2 eq_refl) as (p2 & st2 & Hp2 & _ & Hst2 & He2 & Hi2 & Ht2).
  rewrite Hs1 in Hst1. injection Hst1 as <-.
  rewrite (Hnext 0%nat c1 c2 _ eq_refl eq_refl He1) in Hst2.
  injection Hst2 as <-.
  vm_compute in Hp1, Hp2. injection Hp1 as <-. injection Hp2 as <-.
  split; [now rewrite Hs1, He1, Hi1, Ht1|].
  rewrite (Hnext 0%nat c1 c2 _ eq_refl eq_refl He1), He2, Hi2, Ht2.
  reflexivity.
Defined.

(** Every document made from the corpus has the keys the splitter reads, so
    the splitting pass never raises on them. *)
Lemma split_created_documents_total (ts : TextSplitter) (chunks : list Chunk) :
  is_Some (VectorStore._split_with_metadata_preservation ts
             (VectorStore._create_langchain_documents chunks)).
Proof.
  induction chunks as [|chunk rest [more IH]]; [eexists; reflexivity|].
  change (VectorStore._create_langchain_documents (chunk :: rest))
    with (mkDocument (content chunk)
            (mkMetadata (Some (source_url chunk)) (Some (section_title chunk))
               (Some (start_char chunk)) (Some (end_char chunk))
               (Some (content chunk)) None None None None)
          :: VectorStore._create_langchain_documents rest).
  cbn [VectorStore._split_with_metadata_preservation].
  erewrite split_document_pieces by apply created_document_is_section.
  rewrite IH. eexists; reflexivity.
Qed.

(* ===================================================================== *)
(** * Chunk splitter: monotonicity and bounds of the offsets *)
(* ===================================================================== *)

(** From one chunk to the next the start moves by the length of the piece
    minus the overlap. *)
Lemma split_start_step (ts : TextSplitter) (doc : Document)
    (src title : string) (s e : Z) (chunks : list Document)
    (i : nat) (c c' : Document) (st : Z) :
  section_document doc src title s e ->
  VectorStore._split_with_metadata_preservation ts [doc] = Some chunks ->
  chunks !! i = Some c -> chunks !! S i = Some c' ->
  md_start_char (metadata c) = Some st ->
  md_start_char (metadata c') =
    Some (st + Py.len (page_content c) - _chunk_overlap ts).
Proof.
  intros Hdoc Hrun Hc Hc' Hst.
  destruct (split_section_chunks ts doc src title s e Hdoc)
    as (chunks' & Hrun' & _ & _ & Hat & Hnext).
  rewrite Hrun in Hrun'. injection Hrun' as <-.
  destruct (Hat i c Hc) as (piece & st' & _ & Hpc & Hst' & Hen & _).
  rewrite Hst in Hst'. injection Hst' as <-. subst piece.
  exact (Hnext i c c' _ Hc Hc' Hen).
Qed.

(** The starts never decrease, and stay at or above the section's start,
    as long as every piece is at least as long as the overlap. *)
Lemma split_starts_monotone_when_pieces_long (ts : TextSplitter)
    (doc : Document) (src title : string) (s e : Z) (chunks : list Document) :
  section_document doc src title s e ->
  VectorStore._split_with_metadata_preservation ts [doc] = Some chunks ->
  Forall (fun piece => _chunk_overlap ts <= Py.len piece)
         (split_text ts (page_content doc)) ->
  forall i c st,
    chunks !! i = Some c -> md_start_char (metadata c) = Some st ->
    s <= st /\
    forall c' st', chunks !! S i = Some c' ->
      md_start_char (metadata c') = Some st' -> st <= st'.
Proof.
  intros Hdoc Hrun Hlong.
  destruct (split_section_chunks ts doc src title s e Hdoc)
    as (chunks' & Hrun' & _ & Hhead & Hat & _).
  rewrite Hrun in Hrun'. injection Hrun' as <-.
  assert (Hpiece : forall i c, chunks !! i = Some c ->
            _chunk_overlap ts <= Py.len (page_content c)).
  { intros i c Hc. destruct (Hat i c Hc) as (piece & _ & Hp & <- & _).
    rewrite Forall_forall in Hlong. apply Hlong.
    eapply list_elem_of_lookup_2; eassumption. }
  assert (Hstep : forall i c c' st st', chunks !! i = Some c ->
            chunks !! S i = Some c' -> md_start_char (metadata c) = Some st ->
            md_start_char (metadata c') = Some st' -> st <= st').
  { intros i c c' st st' Hc Hc' Hst Hst'.
    rewrite (split_start_step ts doc src title s e chunks i c c' st
               Hdoc Hrun Hc Hc' Hst) in Hst'.
    injection Hst' as <-. specialize (Hpiece i c Hc). lia. }
  induction i as [|i IH]; intros c st Hc Hst.
  - split; [|intros c' st' Hc' Hst'; exact (Hstep _ _ _ _ _ Hc Hc' Hst Hst')].
    rewrite (Hhead c) in Hst; [injection Hst as <-; lia|].
    now destruct chunks.
  - split; [|intros c' st' Hc' Hst'; exact (Hstep _ _ _ _ _ Hc Hc' Hst Hst')].
    destruct (chunks !! i) as [p|] eqn:Hp.
    + destruct (Hat i p Hp) as (_ & stp & _ & _ & Hstp & _).
      destruct (IH p stp eq_refl Hstp) as [Hlow Hup].
      specialize (Hup c st Hc Hst). lia.
    + apply lookup_ge_None in Hp. apply lookup_lt_Some in Hc. lia.
Qed.

Section SplitterBounds.

Variables (overlap : Z) (text src title : string).
Variables (s original_start original_end total : Z).

(** With pieces at least as long as the overlap that lie left to right in
    the text and share at most the overlap, the running offset never passes
    the true position of the piece: every chunk stays inside the section. *)
Lemma split_pieces_within (splits : list string) :
  forall positions i current_char lo,
    Forall (fun piece => overlap <= Py.len piece) splits ->
    tiles_from overlap text lo splits positions ->
    s <= current_char -> current_char <= s + lo ->
    forall k c st en,
      VectorStore.split_pieces overlap src title original_start original_end
        total i current_char splits !! k = Some c ->
      md_start_char (metadata c) = Some st ->
      md_end_char (metadata c) = Some en ->
      s <= st /\ st <= en /\ en <= s + Py.len text.
Proof.
  induction splits as [|piece rest IH];
    intros positions i cur lo Hlong Htiles Hlow Hup k c st en Hc Hst Hen;
    [discriminate|].
  destruct positions as [|a positions]; [contradiction|].
  destruct Htiles as (Hlo & Ha & _ & Hfit & Htiles).
  apply Forall_cons in Hlong as [Hpiece Hlong].
  assert (0 <= Py.len piece) by (unfold Py.len; lia).
  destruct k as [|k]; simpl in Hc.
  - injection Hc as <-. simpl in Hst, Hen.
    injection Hst as <-. injection Hen as <-. lia.
  - eapply (IH positions (i + 1) (cur + Py.len piece - overlap)
              (a + Py.len piece - overlap)); try eassumption; lia.
Qed.

End SplitterBounds.

(** C2 (amended). For every list of section documents, the chunks emitted
    are those of each section in turn, and for each section and the pieces
    the splitter cuts it into: each chunk ends at or after its start, and
    the next chunk starts exactly the configured overlap below that end,
    whatever the pieces. When every piece of the section is at least as
    long as the overlap, the starts never decrease from one chunk to the
    next and no offset falls below the section's [start_char]; when, in
    addition, the pieces lie left to right in the content and neighbours
    share at most the overlap in characters, every offset also stays at or
    below [start_char + len(content)]. *)
Theorem split_offsets_within_section (ts : TextSplitter)
    (docs : list Document) :
  Forall keyed_document docs ->
  exists groups,
    VectorStore._split_with_metadata_preservation ts docs
      = Some (concat groups) /\
    Forall2
      (fun doc chunks =>
         VectorStore._split_with_metadata_preservation ts [doc] = Some chunks /\
         forall src title s e, section_document doc src title s e ->
         let pieces := split_text ts (page_content doc) in
         (forall i c st en,
            chunks !! i = Some c ->
            md_start_char (metadata c) = Some st ->
            md_end_char (metadata c) = Some en ->
            st <= en /\
            (forall c' st', chunks !! S i = Some c' ->
               md_start_char (metadata c') = Some st' ->
               st' = en - _chunk_overlap ts)) /\
         (Forall (fun piece => _chunk_overlap ts <= Py.len piece) pieces ->
          forall i c st en,
            chunks !! i = Some c ->
            md_start_char (metadata c) = Some st ->
            md_end_char (metadata c) = Some en ->
            s <= st /\
            (forall c' st', chunks !! S i = Some c' ->
               md_start_char (metadata c') = Some st' -> st <= st') /\
            (forall positions,
               tiles_from (_chunk_overlap ts) (page_content doc) 0
                          pieces positions ->
               en <= s + Py.len (page_content doc))))
      docs groups.
Proof.
  intros Hdocs.
  destruct (split_documents_groups ts docs Hdocs) as (groups & Hrun & Hall).
  exists groups. split; [exact Hrun|].
  eapply Forall2_impl; [exact Hall|]. cbv beta.
  intros doc chunks Hdoc_run. split; [exact Hdoc_run|].
  intros src title s e Hdoc pieces.
  destruct (split_section_chunks ts doc src title s e Hdoc)
    as (chunks' & Hrun' & _ & _ & Hat & Hnext).
  rewrite Hdoc_run in Hrun'. injection Hrun' as <-. split.
  - intros i c st en Hc Hst Hen.
    destruct (Hat i c Hc) as (piece & st0 & _ & _ & Hst0 & Hen0 & _).
    rewrite Hst in Hst0. injection Hst0 as <-.
    rewrite Hen in Hen0. injection Hen0 as ->.
    split; [unfold Py.len; lia|].
    intros c' st' Hc' Hst'.
    rewrite (Hnext i c c' _ Hc Hc' Hen) in Hst'. now injection Hst' as <-.
  - intros Hlong i c st en Hc Hst Hen.
    destruct (split_starts_monotone_when_pieces_long ts doc src title s e
                chunks Hdoc Hdoc_run Hlong i c st Hc Hst) as [Hlow Hmono].
    split; [exact Hlow|]. split; [exact Hmono|].
    intros positions Htiles.
    rewrite split_single_document,
            (split_document_pieces ts doc src title s e Hdoc) in Hdoc_run.
    injection Hdoc_run as <-.
    eapply (split_pieces_within (_chunk_overlap ts) (page_content doc)
              src title s s e _ _ positions 0 s 0 Hlong Htiles);
      try eassumption; lia.
Qed.

Lemma split_offsets_within_section_witness :
  exists c0 c1 c2,
    VectorStore._split_with_metadata_preservation window_splitter
      (VectorStore._create_langchain_documents [remote_work; team_section])
      = Some [c0; c1; c2] /\
    md_start_char (metadata c1) = Some 32 /\
    md_end_char (metadata c1) = Some 190 /\
    md_start_char (metadata c2) = Some 140 /\
    md_end_char (metadata c2) = Some 253 /\
    32 <= 140 /\ 140 = 190 - 50 /\ 253 <= 32 + Py.len team_text.
Proof.
  destruct (split_offsets_within_section window_splitter
              (VectorStore._create_langchain_documents
                 [remote_work; team_section])
              (created_documents_keyed [remote_work; team_section]))
    as (groups & Hrun & Hall).
  apply Forall2_cons_inv_l in Hall as (g1 & groups1 & [H1 _] & Hall & ->).
  apply Forall2_cons_inv_l in Hall as (g2 & groups2 & [H2 Hsection] & Hall & ->).
  apply Forall2_nil_inv_l in Hall as ->.
  vm_compute in H1, H2. injection H1 as <-. injection H2 as <-.
  do 3 eexists. split; [exact Hrun|]. repeat (split; [reflexivity|]).
  destruct (Hsection _ _ _ _ (created_document_is_section team_section))
    as [Hstep Hlong].
  destruct (Hstep 0%nat _ 32 190 eq_refl eq_refl eq_refl) as [_ Hnext].
  assert (Hpieces : Forall (fun piece => 50 <= Py.len piece)
                           (split_text window_splitter team_text))
    by (repeat constructor; vm_compute; discriminate).
  destruct (Hlong Hpieces 0%nat _ 32 190 eq_refl eq_refl eq_refl)
    as (_ & Hmono & _).
  destruct (Hlong Hpieces 1%nat _ 140 253 eq_refl eq_refl eq_refl)
    as (_ & _ & Hup).
  split; [exact (Hmono _ 140 eq_refl eq_refl)|].
  split; [exact (Hnext _ 140 eq_refl eq_refl)|].
  apply (Hup [0; 119]). vm_compute. repeat split; discriminate.
Defined.

(** C2 as stated fails. For the section of 3539 characters cut into four
    pieces, the first chunk is [0, 8) and the second starts at
    [8 - 50 = -42]: below the start of the first chunk and below the start
    of the section. The third chunk ends at 3676 and the fourth is
    [3626, 4019): past the end of the section. *)
Lemma split_offsets_leave_section :
  exists c0 c1 c2 c3,
    VectorStore._split_with_metadata_preservation token_splitter
      [team_document decisions_text] = Some [c0; c1; c2; c3] /\
    md_original_start (metadata c1) = Some 0 /\
    md_original_end (metadata c1) = Some 3539 /\
    md_start_char (metadata c0) = Some 0 /\
    md_start_char (metadata c1) = Some (-42) /\
    md_end_char (metadata c2) = Some 3676 /\
    md_start_char (metadata c3) = Some 3626 /\
    md_end_char (metadata c3) = Some 4019.
Proof.
  do 4 eexists. split; [vm_compute; reflexivity|]. repeat split.
Qed.

(* ===================================================================== *)
(** * Section extractor: offsets of the sections of a page *)
(* ===================================================================== *)

Section ExtractorFacts.

Import Scraper.

Lemma laid_from_snoc (from : Z) (cs : list Chunk) (c : Chunk) :
  laid_from from cs ->
  start_char c = end_of from cs ->
  end_char c = start_char c + Py.len (content c) ->
  laid_from from (cs ++ [c]) /\ end_of from (cs ++ [c]) = end_char c.
Proof.
  revert from. induction cs as [|d rest IH]; simpl; intros from Hcs Hs He.
  - rewrite <- Hs. auto.
  - destruct Hcs as (Hd & Hde & Hrest).
    destruct (IH _ Hrest Hs He) as [Hl Hend]. auto.
Qed.

Lemma laid_from_lengths (from : Z) (cs : list Chunk) :
  laid_from from cs ->
  forall c, c ∈ cs -> end_char c - start_char c = Py.len (content c).
Proof.
  revert from. induction cs as [|d rest IH]; simpl; intros from Hcs c Hc.
  - inversion Hc.
  - destruct Hcs as (Hd & Hde & Hrest).
    apply elem_of_cons in Hc as [->|Hc]; [lia|eauto].
Qed.

Lemma laid_from_adjacent (from : Z) (cs : list Chunk) :
  laid_from from cs ->
  forall i c c', cs !! i = Some c -> cs !! S i = Some c' ->
    start_char c' = end_char c.
Proof.
  revert from. induction cs as [|d rest IH]; simpl; intros from Hcs i c c' Hc Hc'.
  - discriminate.
  - destruct Hcs as (Hd & Hde & Hrest). destruct i as [|i]; simpl in Hc, Hc'.
    + injection Hc as <-. destruct rest as [|d' rest']; [discriminate|].
      injection Hc' as <-. simpl in Hrest. tauto.
    + eapply IH; eassumption.
Qed.

(** What [save_section] returns starts at the running offset and spans its
    content. *)
Lemma save_section_offsets (url : string) (w : Walk) (c : Chunk) :
  save_section url w = Some c ->
  start_char c = char_offset w /\
  end_char c = start_char c + Py.len (content c).
Proof.
  unfold save_section. destruct (current_section_content w); [discriminate|].
  destruct (50 <? _); [|discriminate]. intros [= <-]. simpl. auto.
Qed.

Lemma walk_step_ok (url : string) (w : Walk) (element : Element) :
  walk_ok w -> walk_ok (walk_step url w element).
Proof.
  intros [Hl Ho]. unfold walk_step.
  destruct (has_landmark_parent element); [split; assumption|].
  destruct (_ || _); [split; assumption|].
  destruct (Py.mem _ _); [|split; assumption].
  destruct (save_section url w) as [c|] eqn:Hsave; [|split; assumption].
  apply save_section_offsets in Hsave as [Hs He].
  destruct (laid_from_snoc 0 (chunks w) c Hl) as [Hl' Hend]; [congruence|assumption|].
  split; simpl; congruence.
Qed.

Lemma walk_ok_fold (url : string) (elements : list Element) (w : Walk) :
  walk_ok w -> walk_ok (fold_left (walk_step url) elements w).
Proof.
  revert w. induction elements as [|e rest IH]; simpl; intros w Hw; [assumption|].
  apply IH, walk_step_ok, Hw.
Qed.

(** The sections [extract_sections] returns lie end to end from offset 0. *)
Lemma extract_sections_laid (soup : Soup) (url : string) (cs : list Chunk) :
  extract_sections soup url = Some cs -> laid_from 0 cs.
Proof.
  unfold extract_sections. destruct (main_content soup) as [root|]; [|discriminate].
  set (w := fold_left _ _ _).
  assert (Hw : walk_ok w) by (apply walk_ok_fold; split; reflexivity).
  destruct Hw as [Hl Ho].
  assert (Hall : laid_from 0 (match save_section url w with
                              | Some c => chunks w ++ [c]
                              | None => chunks w end)).
  { destruct (save_section url w) as [c|] eqn:Hsave; [|assumption].
    apply save_section_offsets in Hsave as [Hs He].
    apply laid_from_snoc; congruence. }
  destruct (match save_section url w with
            | Some c => chunks w ++ [c] | None => chunks w end) as [|c1 rest].
  - destruct (50 <? _); intros [= <-]; simpl; auto.
  - intros [= <-]. assumption.
Qed.

End ExtractorFacts.

(** C3. Every section the extractor returns for a page satisfies
    [end_char - start_char = len(content)], and in document order each
    section starts at or after the end of the one before it. *)
Theorem extract_sections_offsets (soup : Soup) (url : string) (cs : list Chunk) :
  Scraper.extract_sections soup url = Some cs ->
  (forall c, c ∈ cs -> end_char c - start_char c = Py.len (content c)) /\
  (forall i c c', cs !! i = Some c -> cs !! S i = Some c' ->
     start_char c <= start_char c' /\ end_char c <= start_char c').
Proof.
  intros Hrun. apply extract_sections_laid in Hrun.
  split; [exact (laid_from_lengths 0 cs Hrun)|].
  intros i c c' Hc Hc'.
  pose proof (laid_from_adjacent 0 cs Hrun i c c' Hc Hc') as Hadj.
  pose proof (laid_from_lengths 0 cs Hrun c (list_elem_of_lookup_2 _ _ _ Hc)) as Hlen.
  unfold Py.len in Hlen. lia.
Qed.

Lemma extract_sections_offsets_witness :
  exists c1 c2,
    Scraper.extract_sections values_page "https://handbook.gitlab.com/values"
      = Some [c1; c2] /\
    section_title c1 = "Introduction" /\
    section_title c2 = "Our six core values" /\
    end_char c1 - start_char c1 = Py.len (content c1) /\
    end_char c2 - start_char c2 = Py.len (content c2) /\
    end_char c1 <= start_char c2.
Proof.
  do 2 eexists. split; [vm_compute; reflexivity|].
  split; [reflexivity|]. split; [reflexivity|].
  destruct (extract_sections_offsets values_page
              "https://handbook.gitlab.com/values" _ eq_refl) as [Hlen Hord].
  split; [apply Hlen; vm_compute; left|].
  split; [apply Hlen; vm_compute; right; left|].
  apply (Hord 0%nat); reflexivity.
Defined.

(* ===================================================================== *)
(** * Section extractor: when a section is emitted *)
(* ===================================================================== *)

Lemma save_section_threshold (url : string) (w : Scraper.Walk) :
  Scraper.save_section url w =
    if 50 <? Py.len (content (pending_section url w))
    then Some (pending_section url w) else None.
Proof.
  unfold Scraper.save_section, pending_section. simpl.
  destruct (Scraper.current_section_content w); reflexivity.
Qed.

(** C4 (amended). The pending section is emitted exactly when its text is
    longer than 50 characters; a text of exactly 50 characters emits
    nothing. At a heading the walk acts on (one that is not under a
    landmark and has at least 10 characters of cleaned text) the chunk list
    grows by the pending section if its text has more than 50 characters
    and stays as it is otherwise. At the end of the walk the same test
    decides whether the pending section is added to the list returned. Only
    when that leaves the list empty (the walk emitted no section at all)
    the extractor falls back to the whole cleaned text of the content root
    and returns it as one [Main Content] section, again exactly when that
    text is longer than 50 characters. *)
Theorem section_emitted_iff_longer_than_50 (url : string) (w : Scraper.Walk) :
  let section_text := content (pending_section url w) in
  (forall element,
     has_landmark_parent element = false ->
     10 <= Py.len (Scraper.clean_text (get_text element)) ->
     Py.mem (name element) Scraper.heading_names = true ->
     (50 < Py.len section_text ->
      Scraper.chunks (Scraper.walk_step url w element)
        = Scraper.chunks w ++ [pending_section url w]) /\
     (Py.len section_text <= 50 ->
      Scraper.chunks (Scraper.walk_step url w element) = Scraper.chunks w)) /\
  (forall soup root,
     Scraper.main_content soup = Some root ->
     w = fold_left (Scraper.walk_step url)
           (Scraper.find_all Scraper.block_names root) Scraper.walk_init ->
     let all_text := Scraper.clean_text (root_text root) in
     (50 < Py.len section_text ->
      Scraper.extract_sections soup url
        = Some (Scraper.chunks w ++ [pending_section url w])) /\
     (Py.len section_text <= 50 -> Scraper.chunks w <> [] ->
      Scraper.extract_sections soup url = Some (Scraper.chunks w)) /\
     (Py.len section_text <= 50 -> Scraper.chunks w = [] ->
      (50 < Py.len all_text ->
       Scraper.extract_sections soup url
         = Some [ {| source_url := url;
                     section_title := "Main Content";
                     start_char := 0;
                     end_char := Py.len all_text;
                     content := all_text |} ]) /\
      (Py.len all_text <= 50 ->
       Scraper.extract_sections soup url = Some []))).
Proof.
  intros section_text. split.
  - intros element Hpar Hlen Hname. unfold Scraper.walk_step.
    rewrite Hpar, Hname.
    destruct (Scraper.clean_text (get_text element)) as [|ch rest] eqn:Htext.
    { unfold Py.len in Hlen. simpl in Hlen. lia. }
    replace (Py.len (String ch rest) <? 10) with false
      by (symmetry; apply Z.ltb_ge; exact Hlen).
    simpl. rewrite save_section_threshold. fold section_text. split.
    + intros Hlong.
      now replace (50 <? Py.len section_text) with true
        by (symmetry; apply Z.ltb_lt; exact Hlong).
    + intros Hshort.
      now replace (50 <? Py.len section_text) with false
        by (symmetry; apply Z.ltb_ge; exact Hshort).
  - intros soup root Hroot Hw all_text. unfold Scraper.extract_sections.
    rewrite Hroot, <- Hw, save_section_threshold. fold section_text.
    split; [|split].
    + intros Hlong.
      replace (50 <? Py.len section_text) with true
        by (symmetry; apply Z.ltb_lt; exact Hlong).
      destruct (Scraper.chunks w ++ _) eqn:Happ; [|reflexivity].
      now apply app_eq_nil in Happ as [_ ?].
    + intros Hshort Hne.
      replace (50 <? Py.len section_text) with false
        by (symmetry; apply Z.ltb_ge; exact Hshort).
      destruct (Scraper.chunks w); [contradiction|reflexivity].
    + intros Hshort Hnil.
      replace (50 <? Py.len section_text) with false
        by (symmetry; apply Z.ltb_ge; exact Hshort).
      rewrite Hnil. fold all_text. split.
      * intros Hlong.
        now replace (50 <? Py.len all_text) with true
          by (symmetry; apply Z.ltb_lt; exact Hlong).
      * intros Hsmall.
        now replace (50 <? Py.len all_text) with false
          by (symmetry; apply Z.ltb_ge; exact Hsmall).
Qed.

(** C4 as stated fails: a paragraph of exactly 50 characters is dropped at
    the end of the walk and at a heading alike, so the page yields no
    section at all; and a heading whose text is shorter than 10 characters
    closes nothing: the text before and after it ends up in one section. *)
Lemma fifty_chars_section_dropped :
  Py.len fifty_chars = 50 /\
  Scraper.extract_sections (page_of [para fifty_chars] fifty_chars)
    "https://handbook.gitlab.com/values" = Some [] /\
  Scraper.chunks
    (fold_left (Scraper.walk_step "https://handbook.gitlab.com/values")
       [para fifty_chars; heading "Our six core values"] Scraper.walk_init) = [] /\
  Scraper.extract_sections
    (page_of [para values_intro; heading "Values"; para values_body] "")
    "https://handbook.gitlab.com/values"
  = Some [ {| source_url := "https://handbook.gitlab.com/values";
              section_title := "Introduction";
              start_char := 0;
              end_char := 137;
              content := values_intro +:+ " " +:+ values_body |} ].
Proof. repeat split; vm_compute; reflexivity. Qed.

(** The fallback: the walk of a page whose only paragraph has 50 characters
    emits nothing, and the page's whole text, 77 characters with the inline
    remark, comes back as one [Main Content] section. *)
Example main_content_fallback :
  Scraper.extract_sections fifty_chars_page "https://handbook.gitlab.com/values"
  = Some [ {| source_url := "https://handbook.gitlab.com/values";
              section_title := "Main Content";
              start_char := 0;
              end_char := 77;
              content := fifty_chars +:+ " See the handbook for more." |} ].
Proof. vm_compute. reflexivity. Qed.

(* ===================================================================== *)
(** * Crawler: what a run fetches *)
(* ===================================================================== *)

Section LogFacts.

Variable max_pages : Z.

Lemma visited_after_app (v : gset string) (l1 l2 : list (string * bool)) :
  visited_after v (l1 ++ l2) = visited_after (visited_after v l1) l2.
Proof.
  revert v. induction l1 as [|[u ok] rest IH]; intros v; simpl; [reflexivity|].
  apply IH.
Qed.

Lemma successes_app (l1 l2 : list (string * bool)) :
  successes (l1 ++ l2) = successes l1 ++ successes l2.
Proof. unfold successes. now rewrite List.filter_app, map_app. Qed.

Lemma log_ok_app (v : gset string) (l1 l2 : list (string * bool)) :
  log_ok max_pages v (l1 ++ l2) <->
  log_ok max_pages v l1 /\ log_ok max_pages (visited_after v l1) l2.
Proof.
  revert v. induction l1 as [|[u ok] rest IH]; intros v; simpl; [tauto|].
  rewrite IH. tauto.
Qed.

Lemma visited_after_grows (v : gset string) (log : list (string * bool)) :
  v ⊆ visited_after v log.
Proof.
  revert v. induction log as [|[u ok] rest IH]; intros v; simpl; [set_solver|].
  specialize (IH (if ok then {[u]} ∪ v else v)). destruct ok; set_solver.
Qed.

Lemma visited_after_successes (v : gset string) (log : list (string * bool)) :
  visited_after v log = v ∪ list_to_set (successes log).
Proof.
  revert v. induction log as [|[u ok] rest IH]; intros v; simpl.
  - unfold successes; simpl. set_solver.
  - rewrite IH. unfold successes. destruct ok; simpl; set_solver.
Qed.

(** No request of a valid log asks for a URL of the set it started from. *)
Lemma log_ok_fresh (v : gset string) (log : list (string * bool)) (u : string) :
  log_ok max_pages v log -> u ∈ map fst log -> u ∉ v.
Proof.
  revert v. induction log as [|[u' ok] rest IH]; intros v Hok Hu; simpl in *.
  - inversion Hu.
  - destruct Hok as (Hfresh & _ & Hrest).
    apply elem_of_cons in Hu as [->|Hu]; [assumption|].
    specialize (IH _ Hrest Hu). destruct ok; set_solver.
Qed.

Lemma log_ok_size (v : gset string) (log : list (string * bool)) :
  log_ok max_pages v log ->
  size (visited_after v log) = (size v + length (successes log))%nat.
Proof.
  revert v. induction log as [|[u ok] rest IH]; intros v Hok; simpl in *.
  - unfold successes; simpl. lia.
  - destruct Hok as (Hfresh & _ & Hrest). rewrite (IH _ Hrest).
    unfold successes. destruct ok; simpl; [|reflexivity].
    rewrite size_union by set_solver. rewrite size_singleton. lia.
Qed.

Lemma log_ok_successes_NoDup (v : gset string) (log : list (string * bool)) :
  log_ok max_pages v log -> NoDup (successes log).
Proof.
  revert v. induction log as [|[u ok] rest IH]; intros v Hok; simpl in *.
  - constructor.
  - destruct Hok as (Hfresh & _ & Hrest). unfold successes.
    destruct ok; simpl; [|exact (IH _ Hrest)].
    constructor; [|exact (IH _ Hrest)].
    intros Hin. apply (log_ok_fresh _ rest u Hrest); [|set_solver].
    unfold successes in Hin. apply list_elem_of_fmap in Hin as ([u' b] & -> & Hin).
    apply list_elem_of_fmap. exists (u', b). split; [reflexivity|].
    apply list_elem_of_In. apply list_elem_of_In, filter_In in Hin. tauto.
Qed.

(** After a request for [u] succeeded, no later request asks for [u]. *)
Lemma log_ok_not_again (v : gset string) (l1 l2 : list (string * bool))
    (u : string) :
  log_ok max_pages v (l1 ++ (u, true) :: l2) -> u ∉ map fst l2.
Proof.
  intros Hok Hin. apply log_ok_app in Hok as [_ Hok]. simpl in Hok.
  destruct Hok as (_ & _ & Hrest).
  apply (log_ok_fresh _ l2 u Hrest Hin). set_solver.
Qed.

(** Every request is issued with the budget not yet spent: the set the run
    started from plus the successes so far is smaller than [max_pages]. *)
Lemma log_ok_budget (v : gset string) (l1 l2 : list (string * bool))
    (u : string) (ok : bool) :
  log_ok max_pages v (l1 ++ (u, ok) :: l2) ->
  (u ∉ v) /\
  Z.of_nat (size v) + Z.of_nat (length (successes l1)) < max_pages.
Proof.
  intros Hok. split.
  - apply (log_ok_fresh _ _ u Hok). rewrite map_app. set_solver.
  - apply log_ok_app in Hok as [Hok1 Hok]. simpl in Hok.
    destruct Hok as (_ & Hlt & _). rewrite (log_ok_size _ _ Hok1) in Hlt. lia.
Qed.

End LogFacts.

Section CrawlFacts.

Variable urlparse : string -> option Scraper.ParseResult.
Variable urljoin : string -> string -> option string.
Variable web : nat -> string -> option Soup.
Variable max_depth max_pages : Z.

Local Abbreviation budget_spent := (Scraper.budget_spent max_pages).
Local Abbreviation discover := (Scraper.discover urlparse urljoin web).
Local Abbreviation crawl_level :=
  (Scraper.crawl_level urlparse urljoin web max_pages).
Local Abbreviation crawl_levels :=
  (Scraper.crawl_levels urlparse urljoin web max_pages).
Local Abbreviation crawl_recursive :=
  (Scraper.crawl_recursive urlparse urljoin web max_depth max_pages).

(** The recursion of the source: [crawl_recursive] calls itself one level
    deeper when links were found, the depth is below [max_depth] and the
    budget is not spent. *)
Lemma crawl_recursive_unfold (start_urls : list string) (base_domain : string)
    (depth : Z) (st : Scraper.CrawlState) :
  crawl_recursive start_urls base_domain depth st =
    if (max_depth <? depth) || budget_spent st then ([], st)
    else
      let '(urls_to_scrape, next_level_urls, st') :=
        crawl_level start_urls base_domain st [] [] in
      if negb (bool_decide (next_level_urls = []))
         && (depth <? max_depth) && negb (budget_spent st')
      then
        let '(deeper_urls, st'') :=
          crawl_recursive next_level_urls base_domain (depth + 1) st' in
        (urls_to_scrape ++ deeper_urls, st'')
      else (urls_to_scrape, st').
Proof.
  unfold Scraper.crawl_recursive.
  destruct (max_depth <? depth) eqn:Hdepth; [reflexivity|]. simpl.
  apply Z.ltb_ge in Hdepth.
  destruct (Z.to_nat (max_depth - depth)) as [|k] eqn:Hk; simpl.
  - destruct (budget_spent st); [reflexivity|].
    destruct (crawl_level _ _ _ _ _) as [[uts next] st'].
    replace (depth <? max_depth) with false by (symmetry; apply Z.ltb_ge; lia).
    rewrite andb_false_r. simpl. now destruct next.
  - destruct (budget_spent st); [reflexivity|].
    destruct (crawl_level _ _ _ _ _) as [[uts next] st'].
    replace (depth <? max_depth) with true by (symmetry; apply Z.ltb_lt; lia).
    replace (max_depth <? depth + 1) with false by (symmetry; apply Z.ltb_ge; lia).
    replace (Z.to_nat (max_depth - (depth + 1))) with k by lia.
    destruct next as [|link rest]; simpl; [reflexivity|].
    now destruct (budget_spent st').
Qed.

(** A URL whose request or link extraction raises is skipped: the loop goes
    on with the rest of the frontier from the same visited set, the same
    list to scrape and the same next level; only the log grows. *)
Lemma crawl_level_failed_fetch (url : string) (rest : list string)
    (base_domain : string) (st : Scraper.CrawlState)
    (urls_to_scrape next_level_urls : list string) :
  url ∉ Scraper.visited_urls st ->
  budget_spent st = false ->
  discover st url base_domain = None ->
  crawl_level (url :: rest) base_domain st urls_to_scrape next_level_urls =
  crawl_level rest base_domain
    {| Scraper.visited_urls := Scraper.visited_urls st;
       Scraper.fetch_log := Scraper.fetch_log st ++ [(url, false)] |}
    urls_to_scrape next_level_urls.
Proof.
  intros Hfresh Hbudget Hfail. simpl.
  rewrite bool_decide_eq_false_2 by assumption.
  now rewrite Hbudget, Hfail.
Qed.

(** One level of the crawl appends a valid log; the URLs it adds to the
    list to scrape are the successes of that log, and so are the URLs it
    adds to the visited set. *)
Lemma crawl_level_run (start_urls : list string) (base_domain : string) :
  forall st uts next uts' next' st',
    crawl_level start_urls base_domain st uts next = (uts', next', st') ->
    exists new,
      Scraper.fetch_log st' = Scraper.fetch_log st ++ new /\
      log_ok max_pages (Scraper.visited_urls st) new /\
      Scraper.visited_urls st' = visited_after (Scraper.visited_urls st) new /\
      uts' = uts ++ successes new.
Proof.
  induction start_urls as [|url rest IH]; intros st uts next uts' next' st' Hrun;
    simpl in Hrun.
  - injection Hrun as <- <- <-. exists []. simpl.
    now rewrite !app_nil_r.
  - destruct (bool_decide (url ∈ Scraper.visited_urls st)) eqn:Hseen;
      [exact (IH _ _ _ _ _ _ Hrun)|].
    apply bool_decide_eq_false in Hseen.
    destruct (Scraper.budget_spent max_pages st) eqn:Hbudget.
    { injection Hrun as <- <- <-. exists []. simpl. now rewrite !app_nil_r. }
    unfold Scraper.budget_spent in Hbudget. apply Z.leb_gt in Hbudget.
    destruct (Scraper.discover urlparse urljoin web st url base_domain)
      as [found|].
    + apply IH in Hrun as (new & Hlog & Hok & Hvis & Huts). simpl in *.
      exists ((url, true) :: new). simpl.
      rewrite Hlog, <- app_assoc. split; [reflexivity|].
      split; [auto|]. split; [assumption|].
      rewrite Huts, <- app_assoc. reflexivity.
    + apply IH in Hrun as (new & Hlog & Hok & Hvis & Huts). simpl in *.
      exists ((url, false) :: new). simpl.
      rewrite Hlog, <- app_assoc. split; [reflexivity|]. auto.
Qed.

(** The same for the levels of a whole crawl. *)
Lemma crawl_levels_run (levels_left : nat) (base_domain : string) :
  forall start_urls st urls st',
    crawl_levels levels_left start_urls base_domain st = (urls, st') ->
    exists new,
      Scraper.fetch_log st' = Scraper.fetch_log st ++ new /\
      log_ok max_pages (Scraper.visited_urls st) new /\
      Scraper.visited_urls st' = visited_after (Scraper.visited_urls st) new /\
      urls = successes new.
Proof.
  induction levels_left as [|k IH]; intros start_urls st urls st' Hrun;
    simpl in Hrun.
  - destruct (Scraper.budget_spent max_pages st).
    { injection Hrun as <- <-. exists []. simpl. now rewrite app_nil_r. }
    destruct (Scraper.crawl_level _ _ _ _ _ _ _ _ _) as [[uts next] st1] eqn:Hlevel.
    injection Hrun as <- <-. apply crawl_level_run in Hlevel. exact Hlevel.
  - destruct (Scraper.budget_spent max_pages st).
    { injection Hrun as <- <-. exists []. simpl. now rewrite app_nil_r. }
    destruct (Scraper.crawl_level _ _ _ _ _ _ _ _ _) as [[uts next] st1] eqn:Hlevel.
    apply crawl_level_run in Hlevel as (new1 & Hlog1 & Hok1 & Hvis1 & Huts1).
    simpl in Huts1.
    destruct next as [|link next].
    { injection Hrun as <- <-. exists new1. auto. }
    destruct (Scraper.budget_spent max_pages st1).
    { injection Hrun as <- <-. exists new1. auto. }
    destruct (Scraper.crawl_levels _ _ _ _ k _ _ _) as [deeper st2] eqn:Hdeep.
    injection Hrun as <- <-.
    apply IH in Hdeep as (new2 & Hlog2 & Hok2 & Hvis2 & Hdeeper).
    exists (new1 ++ new2).
    rewrite Hlog2, Hlog1, <- app_assoc. split; [reflexivity|].
    split; [apply log_ok_app; split; [assumption|congruence]|].
    split; [rewrite visited_after_app; congruence|].
    rewrite successes_app. congruence.
Qed.

Lemma crawl_recursive_run (start_urls : list string) (base_domain : string)
    (depth : Z) (st : Scraper.CrawlState) (urls : list string)
    (st' : Scraper.CrawlState) :
  crawl_recursive start_urls base_domain depth st = (urls, st') ->
  exists new,
    Scraper.fetch_log st' = Scraper.fetch_log st ++ new /\
    log_ok max_pages (Scraper.visited_urls st) new /\
    Scraper.visited_urls st' = visited_after (Scraper.visited_urls st) new /\
    urls = successes new.
Proof.
  unfold Scraper.crawl_recursive. destruct (max_depth <? depth).
  - intros [= <- <-]. exists []. simpl. now rewrite app_nil_r.
  - apply crawl_levels_run.
Qed.

End CrawlFacts.

Section OutcomeFacts.

Variable urlparse : string -> option Scraper.ParseResult.
Variable urljoin : string -> string -> option string.
Variable web : nat -> string -> option Soup.
Variable max_depth max_pages : Z.

Local Abbreviation completes := (discovery_completes urlparse urljoin web).
Local Abbreviation outcomes := (log_outcomes urlparse urljoin web).

Lemma log_outcomes_app (base_domain : string) (l1 l2 : list (string * bool)) :
  forall v n,
    outcomes base_domain v n (l1 ++ l2) <->
    outcomes base_domain v n l1 /\
    outcomes base_domain (visited_after v l1) (n + length l1) l2.
Proof.
  induction l1 as [|[u ok] rest IH]; intros v n; cbn [app log_outcomes
    visited_after length].
  - rewrite Nat.add_0_r. tauto.
  - rewrite IH. replace (S n + length rest)%nat with (n + S (length rest))%nat
      by lia. tauto.
Qed.

Lemma discover_completes (st : Scraper.CrawlState) (u base_domain : string) :
  is_Some (Scraper.discover urlparse urljoin web st u base_domain) <->
  completes base_domain (Scraper.visited_urls st)
            (length (Scraper.fetch_log st)) u.
Proof.
  unfold Scraper.discover, discovery_completes. split.
  - intros [links Hlinks].
    destruct (web (length (Scraper.fetch_log st)) u) as [soup|];
      [|discriminate].
    exists soup, links. auto.
  - intros (soup & links & -> & Hlinks). eauto.
Qed.

Lemma crawl_level_outcomes (start_urls : list string) (base_domain : string) :
  forall st uts next uts' next' st',
    Scraper.crawl_level urlparse urljoin web max_pages start_urls base_domain
      st uts next = (uts', next', st') ->
    exists new,
      Scraper.fetch_log st' = Scraper.fetch_log st ++ new /\
      Scraper.visited_urls st' = visited_after (Scraper.visited_urls st) new /\
      outcomes base_domain (Scraper.visited_urls st)
               (length (Scraper.fetch_log st)) new.
Proof.
  induction start_urls as [|url rest IH]; intros st uts next uts' next' st' Hrun;
    cbn [Scraper.crawl_level] in Hrun.
  - injection Hrun as <- <- <-. exists []. rewrite app_nil_r. cbn. auto.
  - destruct (bool_decide (url ∈ Scraper.visited_urls st));
      [exact (IH _ _ _ _ _ _ Hrun)|].
    destruct (Scraper.budget_spent max_pages st).
    { injection Hrun as <- <- <-. exists []. rewrite app_nil_r. cbn. auto. }
    destruct (Scraper.discover urlparse urljoin web st url base_domain)
      as [found|] eqn:Hfound.
    + apply IH in Hrun as (new & Hlog & Hvis & Hout).
      cbn [Scraper.fetch_log Scraper.visited_urls] in Hlog, Hvis, Hout.
      rewrite length_app in Hout. cbn [length] in Hout.
      rewrite Nat.add_1_r in Hout.
      exists ((url, true) :: new). rewrite <- app_assoc in Hlog.
      split; [exact Hlog|]. split; [exact Hvis|].
      cbn [log_outcomes]. split; [|exact Hout].
      split; [intros _|reflexivity].
      apply discover_completes. rewrite Hfound. eauto.
    + apply IH in Hrun as (new & Hlog & Hvis & Hout).
      cbn [Scraper.fetch_log Scraper.visited_urls] in Hlog, Hvis, Hout.
      rewrite length_app in Hout. cbn [length] in Hout.
      rewrite Nat.add_1_r in Hout.
      exists ((url, false) :: new). rewrite <- app_assoc in Hlog.
      split; [exact Hlog|]. split; [exact Hvis|].
      cbn [log_outcomes]. split; [|exact Hout].
      split; [discriminate|]. intros Hdone.
      apply discover_completes in Hdone. rewrite Hfound in Hdone.
      now destruct Hdone.
Qed.

Lemma crawl_levels_outcomes (levels_left : nat) (base_domain : string) :
  forall start_urls st urls st',
    Scraper.crawl_levels urlparse urljoin web max_pages levels_left
      start_urls base_domain st = (urls, st') ->
    exists new,
      Scraper.fetch_log st' = Scraper.fetch_log st ++ new /\
      Scraper.visited_urls st' = visited_after (Scraper.visited_urls st) new /\
      outcomes base_domain (Scraper.visited_urls st)
               (length (Scraper.fetch_log st)) new.
Proof.
  induction levels_left as [|k IH]; intros start_urls st urls st' Hrun;
    cbn [Scraper.crawl_levels] in Hrun.
  - destruct (Scraper.budget_spent max_pages st).
    { injection Hrun as <- <-. exists []. rewrite app_nil_r. cbn. auto. }
    destruct (Scraper.crawl_level _ _ _ _ _ _ _ _ _) as [[uts next] st1] eqn:Hlevel.
    injection Hrun as <- <-. now apply crawl_level_outcomes in Hlevel.
  - destruct (Scraper.budget_spent max_pages st).
    { injection Hrun as <- <-. exists []. rewrite app_nil_r. cbn. auto. }
    destruct (Scraper.crawl_level _ _ _ _ _ _ _ _ _) as [[uts next] st1] eqn:Hlevel.
    apply crawl_level_outcomes in Hlevel as (new1 & Hlog1 & Hvis1 & Hout1).
    destruct next as [|link next].
    { injection Hrun as <- <-. exists new1. auto. }
    destruct (Scraper.budget_spent max_pages st1).
    { injection Hrun as <- <-. exists new1. auto. }
    destruct (Scraper.crawl_levels _ _ _ _ k _ _ _) as [deeper st2] eqn:Hdeep.
    injection Hrun as <- <-.
    apply IH in Hdeep as (new2 & Hlog2 & Hvis2 & Hout2).
    exists (new1 ++ new2). rewrite Hlog2, Hlog1, <- app_assoc.
    split; [reflexivity|].
    split; [rewrite visited_after_app; congruence|].
    apply log_outcomes_app. split; [exact Hout1|].
    rewrite Hvis1, Hlog1, length_app in Hout2. exact Hout2.
Qed.

(** What the entries of the log of a crawl mean. *)
Lemma crawl_recursive_outcomes (start_urls : list string)
    (base_domain : string) (depth : Z) (st : Scraper.CrawlState)
    (urls : list string) (st' : Scraper.CrawlState) (new : list (string * bool)) :
  Scraper.crawl_recursive urlparse urljoin web max_depth max_pages
    start_urls base_domain depth st = (urls, st') ->
  Scraper.fetch_log st' = Scraper.fetch_log st ++ new ->
  forall l1 u ok l2, new = l1 ++ (u, ok) :: l2 ->
    (ok = true <->
     completes base_domain (visited_after (Scraper.visited_urls st) l1)
               (length (Scraper.fetch_log st ++ l1)) u).
Proof.
  intros Hrun Hlog l1 u ok l2 ->.
  assert (Hout : outcomes base_domain (Scraper.visited_urls st)
                          (length (Scraper.fetch_log st))
                          (l1 ++ (u, ok) :: l2)).
  { unfold Scraper.crawl_recursive in Hrun.
    destruct (max_depth <? depth).
    - injection Hrun as <- <-.
      rewrite <- (app_nil_r (Scraper.fetch_log st)) in Hlog at 1.
      apply app_inv_head in Hlog. now destruct l1.
    - apply crawl_levels_outcomes in Hrun as (new & Hlog' & _ & Hout).
      rewrite Hlog in Hlog'. apply app_inv_head in Hlog'. now rewrite Hlog'. }
  apply log_outcomes_app in Hout as [_ Hout]. cbn [log_outcomes] in Hout.
  rewrite length_app. exact (proj1 Hout).
Qed.

End OutcomeFacts.

(** C5 (amended). In every crawl run, once the discovery step of a URL has
    completed (its page was fetched and parsed and its links were
    extracted, none of these raising: the entry of the request in the log
    is [true], and the URL is marked visited) no later request asks for
    that URL again, and no request asks for a URL that was already visited
    when the run started, however many pages link to it; the list returned
    has no duplicate. Every request is issued while the visited set holds
    fewer than [max_pages] URLs, so once its size reaches [max_pages]
    nothing more is requested, whatever remains of the frontier. *)
Theorem crawl_dedup_and_budget
    (urlparse : string -> option Scraper.ParseResult)
    (urljoin : string -> string -> option string)
    (web : nat -> string -> option Soup) (max_depth max_pages : Z)
    (start_urls : list string) (base_domain : string) (depth : Z)
    (st : Scraper.CrawlState) (urls : list string) (st' : Scraper.CrawlState) :
  Scraper.crawl_recursive urlparse urljoin web max_depth max_pages
    start_urls base_domain depth st = (urls, st') ->
  exists new,
    Scraper.fetch_log st' = Scraper.fetch_log st ++ new /\
    (forall l1 u l2, new = l1 ++ (u, true) :: l2 -> u ∉ map fst l2) /\
    (forall l1 u ok l2, new = l1 ++ (u, ok) :: l2 ->
       (u ∉ Scraper.visited_urls st) /\
       Z.of_nat (size (Scraper.visited_urls st))
         + Z.of_nat (length (successes l1)) < max_pages) /\
    NoDup urls /\
    (max_pages <= Z.of_nat (size (Scraper.visited_urls st)) ->
     new = [] /\ urls = []) /\
    (forall l1 u ok l2, new = l1 ++ (u, ok) :: l2 ->
       (ok = true <->
        discovery_completes urlparse urljoin web base_domain
          (visited_after (Scraper.visited_urls st) l1)
          (length (Scraper.fetch_log st ++ l1)) u)).
Proof.
  intros Hrun.
  pose proof (crawl_recursive_run _ _ _ _ _ _ _ _ _ _ _ Hrun)
    as (new & Hlog & Hok & Hvis & Hurls).
  exists new. split; [assumption|].
  split; [intros l1 u l2 ->; exact (log_ok_not_again _ _ _ _ _ Hok)|].
  split; [intros l1 u ok l2 ->; exact (log_ok_budget _ _ _ _ _ _ Hok)|].
  split; [subst urls; exact (log_ok_successes_NoDup _ _ _ Hok)|].
  split; [|exact (crawl_recursive_outcomes _ _ _ _ _ _ _ _ _ _ _ _ Hrun Hlog)].
  intros Hspent. destruct new as [|[u ok] rest]; [now subst urls|].
  simpl in Hok. lia.
Qed.

Lemma crawl_dedup_and_budget_witness :
  exists st',
    Scraper.crawl_recursive handbook_urlparse no_urljoin values_flaky_web 3 2
      [handbook_url] "handbook" 0 fresh_crawl
    = ([handbook_url; hiring_url], st') /\
    Scraper.fetch_log st' =
      [(handbook_url, true); (values_url, false); (hiring_url, true)] /\
    NoDup [handbook_url; hiring_url].
Proof.
  eexists. split; [vm_compute; reflexivity|]. split; [reflexivity|].
  destruct (crawl_dedup_and_budget handbook_urlparse no_urljoin
              values_flaky_web 3 2 [handbook_url] "handbook" 0 fresh_crawl
              _ _ eq_refl) as (new & _ & _ & _ & Hnodup & _).
  exact Hnodup.
Defined.

(** C5 as stated fails: with [/values] down, the run asks for it at depth 1
    (linked from the base page) and again at depth 2 (linked from
    [/hiring]). The same happens when [/values] answers every request but
    holds a link on which [urljoin] raises: the page is downloaded twice,
    its discovery step completes neither time, and it is not returned. *)
Lemma failed_url_fetched_twice :
  crawl_report values_down_web 3 100 =
    Some ([handbook_url; hiring_url],
          [(handbook_url, true); (values_url, false);
           (hiring_url, true); (values_url, false)]) /\
  crawl_report values_bad_href_web 3 100 =
    Some ([handbook_url; hiring_url],
          [(handbook_url, true); (values_url, false);
           (hiring_url, true); (values_url, false)]) /\
  values_bad_href_web 1 values_url = Some (links_page ["//["]) /\
  values_bad_href_web 3 values_url = Some (links_page ["//["]).
Proof. repeat split; vm_compute; reflexivity. Qed.

(** C6 (amended). A URL whose discovery step raises (at the request, at the
    parse or during the link extraction) is skipped without effect on the
    crawl: the loop continues with the remaining frontier from the same
    visited set, the same list to scrape and the same next level (it
    contributes no links and is not marked visited), and [crawl_recursive]
    still returns its list. The list returned holds exactly the URLs whose
    discovery step completed at some request of the run (the entries
    [true] of the log), and these are the URLs the run added to the
    visited set: a URL whose discovery step raised every time is in
    neither, even when its page was downloaded each time. *)
Theorem failed_fetch_contributes_nothing
    (urlparse : string -> option Scraper.ParseResult)
    (urljoin : string -> string -> option string)
    (web : nat -> string -> option Soup) (max_depth max_pages : Z)
    (base_domain : string) :
  (forall url rest st urls_to_scrape next_level_urls,
     url ∉ Scraper.visited_urls st ->
     Scraper.budget_spent max_pages st = false ->
     Scraper.discover urlparse urljoin web st url base_domain = None ->
     Scraper.crawl_level urlparse urljoin web max_pages (url :: rest)
       base_domain st urls_to_scrape next_level_urls =
     Scraper.crawl_level urlparse urljoin web max_pages rest base_domain
       {| Scraper.visited_urls := Scraper.visited_urls st;
          Scraper.fetch_log := Scraper.fetch_log st ++ [(url, false)] |}
       urls_to_scrape next_level_urls) /\
  (forall start_urls depth st,
     exists urls st' new,
       Scraper.crawl_recursive urlparse urljoin web max_depth max_pages
         start_urls base_domain depth st = (urls, st') /\
       Scraper.fetch_log st' = Scraper.fetch_log st ++ new /\
       (forall u, u ∈ urls <-> (u, true) ∈ new) /\
       Scraper.visited_urls st' = Scraper.visited_urls st ∪ list_to_set urls /\
       (forall l1 u ok l2, new = l1 ++ (u, ok) :: l2 ->
          (ok = true <->
           discovery_completes urlparse urljoin web base_domain
             (visited_after (Scraper.visited_urls st) l1)
             (length (Scraper.fetch_log st ++ l1)) u))).
Proof.
  split; [intros; now apply crawl_level_failed_fetch|].
  intros start_urls depth st.
  destruct (Scraper.crawl_recursive _ _ _ _ _ start_urls base_domain depth st)
    as [urls st'] eqn:Hrun.
  pose proof (crawl_recursive_run _ _ _ _ _ _ _ _ _ _ _ Hrun)
    as (new & Hlog & Hok & Hvis & Hurls).
  exists urls, st', new. split; [reflexivity|]. split; [assumption|].
  split; [|split; [rewrite Hvis, Hurls; apply visited_after_successes|
                   exact (crawl_recursive_outcomes _ _ _ _ _ _ _ _ _ _ _ _
                            Hrun Hlog)]].
  intros u. subst urls. unfold successes. rewrite list_elem_of_fmap. split.
  - intros ([u' ok] & -> & Hin). apply list_elem_of_In, filter_In in Hin.
    destruct Hin as [Hin Htrue]. simpl in Htrue. subst ok.
    now apply list_elem_of_In.
  - intros Hin. exists (u, true). split; [reflexivity|].
    apply list_elem_of_In, filter_In. split; [|reflexivity].
    now apply list_elem_of_In.
Qed.

(** C6 as stated fails: [/values] fails when the run first asks for it, is
    asked for again one level deeper, answers then, and is part of the
    list returned. *)
Lemma failed_url_retried_and_returned :
  crawl_report values_flaky_web 3 100 =
    Some ([handbook_url; hiring_url; values_url],
          [(handbook_url, true); (values_url, false);
           (hiring_url, true); (values_url, true)]).
Proof. vm_compute. reflexivity. Qed.

(* ===================================================================== *)
(** * Index: ingestion into a populated store *)
(* ===================================================================== *)

(** C7. Bulk ingestion into an index whose document count is already
    greater than zero is a no-op: [add_chunks] returns normally and leaves
    the store exactly as it was, whatever the chunks and the chunking
    flag. The store is only ever changed, and texts are only ever embedded,
    by [add_documents]; an unchanged store means it was never called: the
    count is the same, nothing was inserted, nothing was embedded. Running
    it again changes nothing either. *)
Theorem add_chunks_populated_noop {Store : Type} `{VectorIndex Store}
    (text_splitter : TextSplitter) (chunks : list Chunk)
    (apply_token_chunking : bool) (store : Store) (n : Z) :
  count store = Some n -> 0 < n ->
  VectorStore.add_chunks text_splitter chunks apply_token_chunking store
    = (store, true) /\
  count (fst (VectorStore.add_chunks text_splitter chunks
                apply_token_chunking store)) = Some n /\
  VectorStore.add_chunks text_splitter chunks apply_token_chunking
    (fst (VectorStore.add_chunks text_splitter chunks
            apply_token_chunking store)) = (store, true).
Proof.
  intros Hcount Hpos.
  assert (Hnoop : VectorStore.add_chunks text_splitter chunks
                    apply_token_chunking store = (store, true)).
  { unfold VectorStore.add_chunks. destruct chunks as [|chunk rest]; [reflexivity|].
    destruct apply_token_chunking.
    - destruct (split_created_documents_total text_splitter (chunk :: rest))
        as [documents ->].
      rewrite Hcount. now replace (0 <? n) with true by (symmetry; apply Z.ltb_lt; lia).
    - rewrite Hcount. now replace (0 <? n) with true by (symmetry; apply Z.ltb_lt; lia). }
  rewrite Hnoop. simpl. auto.
Qed.

Lemma add_chunks_populated_noop_witness :
  VectorStore.add_chunks whole_splitter
    [remote_work; mkChunk "https://handbook.gitlab.com/values" "Values" 0 62
                          values_intro]
    true populated_index
  = (populated_index, true).
Proof.
  apply (add_chunks_populated_noop whole_splitter _ true populated_index 1);
    [reflexivity|lia].
Defined.

(** Into an empty index the same call embeds and inserts the chunks. *)
Example add_chunks_into_empty_index :
  VectorStore.add_chunks whole_splitter [remote_work] true (mkListIndex [] [])
  = (populated_index, true).
Proof. vm_compute. reflexivity. Qed.

(* ===================================================================== *)
(** * Confidence scoring *)
(* ===================================================================== *)

Lemma SFcompare_antisym (x y : spec_float) :
  SFcompare y x = option_map CompOpp (SFcompare x y).
Proof.
  destruct x as [sx|sx| |sx mx ex], y as [sy|sy| |sy my ey]; simpl;
    try reflexivity;
    try (destruct sx; reflexivity); try (destruct sy; reflexivity);
    try (destruct sx, sy; reflexivity).
  destruct sx, sy; simpl; try reflexivity;
    rewrite (Z.compare_antisym ey ex); destruct (Z.compare ey ex) eqn:He; simpl;
    try reflexivity; rewrite !Pos.compare_cont_spec; simpl;
    rewrite (Pos.compare_antisym my mx); destruct (Pos.compare my mx); reflexivity.
Qed.

(** On binary64 values, [x <= y] excludes [y < x]. *)
Lemma float_leb_not_ltb (x y : float) :
  (x <=? y)%float = true -> (y <? x)%float = false.
Proof.
  rewrite FloatAxioms.leb_spec, FloatAxioms.ltb_spec. unfold SFleb, SFltb.
  rewrite (SFcompare_antisym (Prim2SF x) (Prim2SF y)).
  destruct (SFcompare (Prim2SF x) (Prim2SF y)) as [[]|]; simpl; congruence.
Qed.

(** A value at or above 0.5 is not below 0.3. *)
Lemma float_half_le_not_below_three_tenths (x : float) :
  (0.5 <=? x)%float = true -> (x <? 0.3)%float = false.
Proof.
  rewrite FloatAxioms.leb_spec, FloatAxioms.ltb_spec. unfold SFleb, SFltb.
  replace (Prim2SF 0.5) with (S754_finite false 4503599627370496 (-53))
    by (vm_compute; reflexivity).
  replace (Prim2SF 0.3) with (S754_finite false 5404319552844595 (-54))
    by (vm_compute; reflexivity).
  destruct (Prim2SF x) as [s|s| |s m e]; cbn [SFcompare]; try discriminate.
  - destruct s; [discriminate|reflexivity].
  - destruct s; [discriminate|].
    destruct (Z.compare_spec (-53) e) as [He|He|He]; try discriminate;
      intros _; destruct (Z.compare_spec e (-54)) as [He'|He'|He'];
      try lia; reflexivity.
Qed.

(** C8. With no match the confidence is low. With at least one match, the
    average the code compares is the sum of the matches' distances (a match
    without a distance counting 1) divided by the number of matches, and
    the confidence is high when that average is below 0.3, medium when it
    is at least 0.3 and below 0.5, and low when it is at least 0.5; an
    average that is exactly 0.3 gives medium and one that is exactly 0.5
    gives low. The sum is the built-in [sum]; the division and the
    comparisons are those of binary64. *)
Theorem confidence_thresholds (float_sum : list float -> float)
    (r : SearchResult) (rest : list SearchResult) :
  let matches := r :: rest in
  let distances := map (fun m => default 1%float (sr_distance m)) matches in
  let avg :=
    (float_sum distances
     / PrimFloat.of_uint63 (Uint63.of_Z (Z.of_nat (length matches))))%float in
  Chatbot.avg_distance float_sum matches = avg /\
  Chatbot.score_confidence float_sum [] = low /\
  ((avg <? 0.3)%float = true ->
   Chatbot.score_confidence float_sum matches = high) /\
  ((0.3 <=? avg)%float = true -> (avg <? 0.5)%float = true ->
   Chatbot.score_confidence float_sum matches = medium) /\
  ((0.5 <=? avg)%float = true ->
   Chatbot.score_confidence float_sum matches = low) /\
  (avg = 0.3%float -> Chatbot.score_confidence float_sum matches = medium) /\
  (avg = 0.5%float -> Chatbot.score_confidence float_sum matches = low).
Proof.
  intros matches distances avg. split; [reflexivity|].
  unfold Chatbot.score_confidence.
  change (Chatbot.avg_distance float_sum matches) with avg.
  cbv beta iota zeta. split; [reflexivity|]. repeat split.
  - intros ->. reflexivity.
  - intros Hge Hlt. now rewrite (float_leb_not_ltb _ _ Hge), Hlt.
  - intros Hge.
    now rewrite (float_half_le_not_below_three_tenths _ Hge),
                (float_leb_not_ltb _ _ Hge).
  - intros ->. reflexivity.
  - intros ->. reflexivity.
Qed.

(** Means of two distances: 0.1 and 0.5 average exactly 0.3, which gives
    medium; 0.25 and 0.75 average exactly 0.5, which gives low; 0.1 and 0.3
    average 0.2, which gives high. *)
Lemma confidence_thresholds_witness :
  Chatbot.avg_distance plain_sum [match_at 0.1; match_at 0.5] = 0.3%float /\
  Chatbot.score_confidence plain_sum [match_at 0.1; match_at 0.5] = medium /\
  Chatbot.avg_distance plain_sum [match_at 0.25; match_at 0.75] = 0.5%float /\
  Chatbot.score_confidence plain_sum [match_at 0.25; match_at 0.75] = low /\
  Chatbot.avg_distance plain_sum [match_at 0.1; match_at 0.3] = 0.2%float /\
  Chatbot.score_confidence plain_sum [match_at 0.1; match_at 0.3] = high.
Proof.
  destruct (confidence_thresholds plain_sum (match_at 0.1) [match_at 0.5])
    as (Havg1 & _ & _ & _ & _ & Hmedium & _).
  destruct (confidence_thresholds plain_sum (match_at 0.25) [match_at 0.75])
    as (Havg2 & _ & _ & _ & _ & _ & Hlow).
  destruct (confidence_thresholds plain_sum (match_at 0.1) [match_at 0.3])
    as (Havg3 & _ & Hhigh & _).
  assert (H1 : (plain_sum [0.1; 0.5] / 2 = 0.3)%float)
    by (vm_compute; reflexivity).
  assert (H2 : (plain_sum [0.25; 0.75] / 2 = 0.5)%float)
    by (vm_compute; reflexivity).
  assert (H3 : (plain_sum [0.1; 0.3] / 2 = 0.2)%float)
    by (vm_compute; reflexivity).
  split; [rewrite Havg1; exact H1|]. split; [apply Hmedium; exact H1|].
  split; [rewrite Havg2; exact H2|]. split; [apply Hlow; exact H2|].
  split; [rewrite Havg3; exact H3|].
  apply Hhigh. vm_compute. reflexivity.
Defined.

Example confidence_examples :
  Chatbot.score_confidence plain_sum [] = low /\
  Chatbot.score_confidence plain_sum [match_at 0.1] = high /\
  Chatbot.score_confidence plain_sum [match_at 0.6] = low /\
  Chatbot.avg_distance plain_sum [match_at 0.1; match_at 0.5] = 0.3%float /\
  Chatbot.score_confidence plain_sum [match_at 0.1; match_at 0.5] = medium /\
  Chatbot.avg_distance plain_sum [match_at 0.25; match_at 0.75] = 0.5%float /\
  Chatbot.score_confidence plain_sum [match_at 0.25; match_at 0.75] = low.
Proof. repeat split; vm_compute; reflexivity. Qed.

(* ===================================================================== *)
(** * Strings: substrings, case and stripping *)
(* ===================================================================== *)

Section StringFacts.

Lemma append_cons (ch : ascii) (a b : string) :
  String ch a +:+ b = String ch (a +:+ b).
Proof. reflexivity. Qed.

Lemma append_empty_l (a : string) : EmptyString +:+ a = a.
Proof. reflexivity. Qed.


Lemma append_empty_r (a : string) : a +:+ EmptyString = a.
Proof.
  induction a as [|ch a IH]; [reflexivity|]. now rewrite append_cons, IH.
Qed.

Lemma prefix_append (p t : string) : String.prefix p (p +:+ t) = true.
Proof.
  induction p as [|ch p IH]; [now destruct t|].
  rewrite append_cons. simpl.
  destruct (ascii_dec ch ch); [assumption|contradiction].
Qed.

Lemma prefix_inv (p s : string) :
  String.prefix p s = true -> exists t, s = p +:+ t.
Proof.
  revert s. induction p as [|ch p IH]; intros s Hp.
  - exists s. reflexivity.
  - destruct s as [|ch' s]; simpl in Hp; [discriminate|].
    destruct (ascii_dec ch ch') as [<-|]; [|discriminate].
    destruct (IH s Hp) as [t ->]. exists t. reflexivity.
Qed.

Lemma contains_prefix (p s : string) :
  String.prefix p s = true -> Py.contains p s = true.
Proof. intros Hp. destruct s; simpl in *; now rewrite Hp. Qed.

(** [p in s] holds as soon as [p] occurs somewhere in [s]. *)
Lemma contains_infix (p a b : string) : Py.contains p (a +:+ p +:+ b) = true.
Proof.
  induction a as [|ch a IH].
  - rewrite append_empty_l. apply contains_prefix, prefix_append.
  - rewrite append_cons. simpl. rewrite IH. apply orb_true_r.
Qed.

Lemma lower_append (a b : string) :
  Py.lower (a +:+ b) = Py.lower a +:+ Py.lower b.
Proof.
  induction a as [|ch a IH]; [reflexivity|].
  rewrite append_cons. simpl. now rewrite append_cons, IH.
Qed.













End StringFacts.

(* ===================================================================== *)
(** * Answer composer: citations *)
(* ===================================================================== *)

Section SourceFacts.

Lemma sources_of_documents_cons (doc : Document) (rest : list Document)
    (acc : list Source) (seen : gset string) :
  Chatbot.sources_of_documents (doc :: rest) acc seen =
    if has_url (doc_source doc)
       && negb (bool_decide (url (doc_source doc) ∈ seen))
    then Chatbot.sources_of_documents rest (acc ++ [doc_source doc])
           ({[url (doc_source doc)]} ∪ seen)
    else Chatbot.sources_of_documents rest acc seen.
Proof. reflexivity. Qed.

Lemma sources_of_results_cons (result : SearchResult)
    (rest : list SearchResult) (acc : list Source) (seen : gset string) :
  Chatbot.sources_of_results (result :: rest) acc seen =
    if negb (bool_decide (url (result_source result) ∈ seen))
    then Chatbot.sources_of_results rest (acc ++ [result_source result])
           ({[url (result_source result)]} ∪ seen)
    else Chatbot.sources_of_results rest acc seen.
Proof. reflexivity. Qed.

Lemma sources_of_documents_keep_first (docs : list Document) :
  forall acc seen,
    Chatbot.sources_of_documents docs acc seen =
      (acc ++ keep_first seen (List.filter has_url (map doc_source docs)),
       seen ∪ list_to_set
                (map url (keep_first seen
                            (List.filter has_url (map doc_source docs))))).
Proof.
  induction docs as [|doc rest IH]; intros acc seen.
  - simpl. rewrite app_nil_r. f_equal. set_solver.
  - rewrite sources_of_documents_cons. cbn [map List.filter].
    destruct (has_url (doc_source doc)); cbn [andb keep_first]; [|apply IH].
    destruct (bool_decide (url (doc_source doc) ∈ seen));
      cbn [negb]; [apply IH|].
    rewrite IH. rewrite <- app_assoc. cbn [app map list_to_set].
    f_equal. set_solver.
Qed.

Lemma sources_of_results_keep_first (results : list SearchResult) :
  forall acc seen,
    Chatbot.sources_of_results results acc seen =
      (acc ++ keep_first seen (map result_source results),
       seen ∪ list_to_set
                (map url (keep_first seen (map result_source results)))).
Proof.
  induction results as [|result rest IH]; intros acc seen.
  - simpl. rewrite app_nil_r. f_equal. set_solver.
  - rewrite sources_of_results_cons. cbn [map keep_first].
    destruct (bool_decide (url (result_source result) ∈ seen));
      cbn [negb]; [apply IH|].
    rewrite IH. rewrite <- app_assoc. cbn [app map list_to_set].
    f_equal. set_solver.
Qed.

Lemma keep_first_app (l1 l2 : list Source) :
  forall seen,
    keep_first seen (l1 ++ l2) =
      keep_first seen l1
      ++ keep_first (seen ∪ list_to_set (map url (keep_first seen l1))) l2.
Proof.
  induction l1 as [|c rest IH]; intros seen; simpl.
  - f_equal. set_solver.
  - destruct (bool_decide _); simpl; [apply IH|].
    rewrite IH.
    replace (seen ∪ ({[url c]} ∪ list_to_set
                       (map url (keep_first ({[url c]} ∪ seen) rest))))
      with ({[url c]} ∪ seen ∪ list_to_set
              (map url (keep_first ({[url c]} ∪ seen) rest)))
      by set_solver.
    reflexivity.
Qed.

(** [extract_sources] keeps the first candidate of every URL. *)
Lemma extract_sources_keep_first (docs : list Document)
    (results : list SearchResult) :
  Chatbot.extract_sources docs results = keep_first ∅ (candidates docs results).
Proof.
  unfold Chatbot.extract_sources, candidates.
  rewrite sources_of_documents_keep_first, sources_of_results_keep_first.
  cbn [fst app]. rewrite keep_first_app. f_equal.
Qed.

Lemma keep_first_fresh (cands : list Source) :
  forall seen s, s ∈ keep_first seen cands -> url s ∉ seen.
Proof.
  induction cands as [|c rest IH]; intros seen s Hin; simpl in Hin.
  - inversion Hin.
  - destruct (bool_decide _) eqn:Hseen; [eauto|].
    apply bool_decide_eq_false in Hseen.
    apply elem_of_cons in Hin as [->|Hin]; [assumption|].
    specialize (IH _ _ Hin). set_solver.
Qed.

(** A citation kept is the first candidate with its URL. *)
Lemma keep_first_is_first (cands : list Source) :
  forall seen s, s ∈ keep_first seen cands ->
    exists before after,
      cands = before ++ s :: after /\ url s ∉ map url before.
Proof.
  induction cands as [|c rest IH]; intros seen s Hin; simpl in Hin.
  - inversion Hin.
  - destruct (bool_decide _) eqn:Hseen.
    + apply bool_decide_eq_true in Hseen.
      pose proof (keep_first_fresh _ _ _ Hin) as Hfresh.
      destruct (IH _ _ Hin) as (before & after & -> & Hnot).
      exists (c :: before), after. split; [reflexivity|].
      simpl. intros Hc. apply elem_of_cons in Hc as [Hc|Hc]; [|contradiction].
      congruence.
    + apply elem_of_cons in Hin as [->|Hin].
      * exists [], rest. split; [reflexivity|]. simpl. apply not_elem_of_nil.
      * pose proof (keep_first_fresh _ _ _ Hin) as Hfresh.
        destruct (IH _ _ Hin) as (before & after & -> & Hnot).
        exists (c :: before), after. split; [reflexivity|].
        simpl. intros Hc. apply elem_of_cons in Hc as [Hc|Hc]; [|contradiction].
        set_solver.
Qed.





End SourceFacts.

(* ===================================================================== *)
(** * Answer composer: the paths of [generate_response] *)
(* ===================================================================== *)

Section ComposeFacts.

Context {Store : Type} `{VectorIndex Store}.
Variable retriever_invoke : Store -> string -> Result (list Document).
Variable prompt_format : string -> string -> string -> string.
Variable llm_invoke : string -> Result string.
Variable float_sum : list float -> float.

Local Abbreviation generate_response :=
  (Chatbot.generate_response retriever_invoke prompt_format llm_invoke float_sum).
Local Abbreviation compose :=
  (Chatbot.compose retriever_invoke prompt_format llm_invoke float_sum).

(** The [try] block either raises, or returns an answer built from the
    retrieval results and the cleaned text of the model, with the history
    extended by the query and that text. *)
Lemma compose_success (store : Store) (query : string) (include_history : bool)
    (additional_context : option string) (search_results : list SearchResult)
    (context_used : bool) (history : list Message)
    (answer : AnswerResult) (history' : list Message) :
  compose store query include_history additional_context search_results
          context_used history = Ok (answer, history') ->
  exists source_documents prompt raw,
    retriever_invoke store query = Ok source_documents /\
    llm_invoke prompt = Ok raw /\
    response answer = Chatbot.clean_response raw /\
    sources answer =
      Chatbot.validated_sources
        (Chatbot.extract_sources source_documents search_results) /\
    confidence answer = Chatbot.score_confidence float_sum search_results /\
    guardrail_triggered answer = Some false /\
    error answer = None /\
    history' = history ++ [ mkMessage "user" query;
                            mkMessage "assistant" (response answer) ].
Proof.
  unfold Chatbot.compose.
  destruct (retriever_invoke store query) as [docs|e]; [|discriminate].
  match goal with |- context [llm_invoke ?p] =>
    destruct (llm_invoke p) as [raw|e] eqn:Hllm; [|discriminate];
    intros [= <- <-]; exists docs, p, raw
  end.
  repeat split; assumption || reflexivity.
Qed.

(** The outcomes of [generate_response], path by path. *)
Lemma generate_response_paths (store : Store) (query : string)
    (include_history : bool) (max_context_chunks : Z)
    (additional_context : option string) (history : list Message) :
  let out := generate_response store query include_history max_context_chunks
               additional_context history in
  (* blocked by the guardrail *)
  (fst (Chatbot.check_query_appropriateness query) = false /\
   snd out = history /\
   exists answer, fst out = Ok answer /\
     guardrail_triggered answer = Some true /\ sources answer = []) \/
  (* the search raises: the exception escapes *)
  (fst (Chatbot.check_query_appropriateness query) = true /\
   snd out = history /\
   exists e, VectorStore.search store query max_context_chunks = Raise e /\
     fst out = Raise e) \/
  (* the retriever or the model raises: an error result *)
  (fst (Chatbot.check_query_appropriateness query) = true /\
   snd out = history /\
   exists answer e, fst out = Ok answer /\
     error answer = Some e /\ guardrail_triggered answer = None /\
     sources answer = [] /\
     (retriever_invoke store query = Raise e \/
      exists prompt, llm_invoke prompt = Raise e)) \/
  (* success *)
  (fst (Chatbot.check_query_appropriateness query) = true /\
   exists search_results answer,
     VectorStore.search store query max_context_chunks = Ok search_results /\
     compose store query include_history additional_context search_results
       (0 <? length search_results)%nat history = Ok (answer, snd out) /\
     fst out = Ok answer).
Proof.
  intros out. subst out. unfold Chatbot.generate_response.
  destruct (Chatbot.check_query_appropriateness query) as [[|] msg]; simpl.
  - destruct (VectorStore.search store query max_context_chunks)
      as [results|e] eqn:Hsearch; simpl.
    + destruct (Chatbot.compose _ _ _ _ _ _ _ _ _ _ _) as [[answer h']|e]
        eqn:Hcompose; simpl.
      * do 3 right. split; [reflexivity|]. exists results, answer. auto.
      * right. right. left. split; [reflexivity|]. split; [reflexivity|].
        eexists _, e. split; [reflexivity|]. simpl.
        repeat (split; [reflexivity|]).
        unfold Chatbot.compose in Hcompose.
        destruct (retriever_invoke store query) as [docs|e'];
          [|injection Hcompose as ->; now left].
        right.
        match type of Hcompose with context [llm_invoke ?p] =>
          exists p; destruct (llm_invoke p) as [raw|e'];
          [discriminate|now injection Hcompose as ->]
        end.
    + right. left. split; [reflexivity|]. split; [reflexivity|].
      exists e. auto.
  - left. split; [reflexivity|]. split; [reflexivity|].
    eexists. split; [reflexivity|]. auto.
Qed.

End ComposeFacts.



Section CitationFacts.





End CitationFacts.



(* ===================================================================== *)
(** * Answer composer: the conversation history *)
(* ===================================================================== *)

(** C10. [generate_response] changes the conversation history only when it
    succeeds: then the history is the old one followed by exactly two
    entries, the user's query and the assistant's answer. When the
    guardrail blocks the query, when the retriever or the model raises
    (the call returns an error result), and when the search raises (the
    exception escapes), the history is left as it was. *)
Theorem history_appended_only_on_success {Store : Type} `{VectorIndex Store}
    (retriever_invoke : Store -> string -> Result (list Document))
    (prompt_format : string -> string -> string -> string)
    (llm_invoke : string -> Result string)
    (float_sum : list float -> float)
    (store : Store) (query : string) (include_history : bool)
    (max_context_chunks : Z) (additional_context : option string)
    (history : list Message) :
  let out := Chatbot.generate_response retriever_invoke prompt_format
               llm_invoke float_sum store query include_history
               max_context_chunks additional_context history in
  match fst out with
  | Ok answer =>
      match guardrail_triggered answer, error answer with
      | Some false, None =>
          snd out = history ++ [ mkMessage "user" query;
                                 mkMessage "assistant" (response answer) ]
      | _, _ => snd out = history
      end
  | Raise _ => snd out = history
  end /\
  (fst (Chatbot.check_query_appropriateness query) = false ->
   snd out = history /\
   exists answer, fst out = Ok answer /\ guardrail_triggered answer = Some true) /\
  (forall e, (forall prompt, llm_invoke prompt = Raise e) ->
   snd out = history) /\
  (forall e, retriever_invoke store query = Raise e -> snd out = history) /\
  (fst (Chatbot.check_query_appropriateness query) = true ->
   forall search_results source_documents,
     VectorStore.search store query max_context_chunks = Ok search_results ->
     retriever_invoke store query = Ok source_documents ->
     (forall prompt, exists raw, llm_invoke prompt = Ok raw) ->
     exists answer,
       fst out = Ok answer /\
       guardrail_triggered answer = Some false /\ error answer = None /\
       snd out = history ++ [ mkMessage "user" query;
                              mkMessage "assistant" (response answer) ]).
Proof.
  intros out.
  pose proof (generate_response_paths retriever_invoke prompt_format llm_invoke
                float_sum store query include_history max_context_chunks
                additional_context history) as Hpaths.
  cbv zeta in Hpaths. fold out in Hpaths.
  destruct Hpaths as [(Hcheck & Hhist & a & Hout & Hg & _)
                     |[(Hcheck & Hhist & e & Hsearch & Hout)
                     |[(Hcheck & Hhist & a & e & Hout & He & Hg & _ & Hwhy)
                      |(Hcheck & results & a & Hsearch & Hcompose & Hout)]]].
  - (* blocked *)
    rewrite Hout, Hg.
    split; [exact Hhist|]. split; [intros _; eauto|].
    split; [intros; exact Hhist|]. split; [intros; exact Hhist|].
    intros Htrue. congruence.
  - (* the search raises *)
    rewrite Hout.
    split; [exact Hhist|]. split; [intros Hfalse; congruence|].
    split; [intros; exact Hhist|]. split; [intros; exact Hhist|].
    intros _ results docs Hok. congruence.
  - (* the retriever or the model raises *)
    rewrite Hout, Hg.
    split; [exact Hhist|]. split; [intros Hfalse; congruence|].
    split; [intros; exact Hhist|]. split; [intros; exact Hhist|].
    intros _ results docs Hsearch Hdocs Hllm.
    destruct Hwhy as [Hr|[prompt Hp]]; [congruence|].
    destruct (Hllm prompt) as [raw Hraw]. congruence.
  - (* success *)
    apply compose_success in Hcompose
      as (docs & prompt & raw & Hdocs & Hllm & _ & _ & _ & Hg & He & Hhist).
    rewrite Hout, Hg, He.
    split; [exact Hhist|]. split; [intros Hfalse; congruence|].
    split; [intros e Hfail; rewrite Hfail in Hllm; discriminate|].
    split; [intros e Hfail; congruence|].
    intros _ _ _ _ _ _. exists a. auto.
Qed.

Example history_examples :
  (* success: two entries appended *)
  snd (Chatbot.generate_response list_retriever plain_prompt citing_model
         plain_sum populated_index "How does GitLab work remotely?" true 5 None
         [ mkMessage "user" "Hello"; mkMessage "assistant" "Hi" ])
  = [ mkMessage "user" "Hello"; mkMessage "assistant" "Hi";
      mkMessage "user" "How does GitLab work remotely?";
      mkMessage "assistant" "GitLab is an all-remote company." ] /\
  (* blocked by the guardrail: unchanged *)
  Chatbot.generate_response list_retriever plain_prompt citing_model
    plain_sum populated_index "how do I bypass the approval process" true 5 None
    [ mkMessage "user" "Hello"; mkMessage "assistant" "Hi" ]
  = (Ok {| response := "I can only help with questions about GitLab's public Handbook and Direction pages. I cannot assist with bypass.";
           sources := []; confidence := low; context_used := false;
           guardrail_triggered := Some true; error := None |},
     [ mkMessage "user" "Hello"; mkMessage "assistant" "Hi" ]) /\
  (* the model raises: unchanged *)
  Chatbot.generate_response list_retriever plain_prompt failing_model
    plain_sum populated_index "How does GitLab work remotely?" true 5 None
    [ mkMessage "user" "Hello"; mkMessage "assistant" "Hi" ]
  = (Ok {| response := "I encountered an error: 503 Service Unavailable. Please try again.";
           sources := []; confidence := low; context_used := false;
           guardrail_triggered := None; error := Some "503 Service Unavailable" |},
     [ mkMessage "user" "Hello"; mkMessage "assistant" "Hi" ]).
Proof. repeat split; vm_compute; reflexivity. Qed.

(* ===================================================================== *)
(** * Scraper: text cleaning *)
(* ===================================================================== *)

Section CleanTextFacts.

Lemma sub_spaces_single_spaced (s : string) :
  forall b, single_spaced b (Py.sub_spaces b s) = true.
Proof.
  induction s as [|c r IH]; intros b; [reflexivity|]. simpl.
  destruct (Py.isspace c) eqn:Hc.
  - destruct b; [apply IH|]. simpl. now rewrite IH.
  - simpl. rewrite Hc. apply IH.
Qed.

Lemma sub_spaces_fixed (s : string) :
  forall b, single_spaced b s = true -> Py.sub_spaces b s = s.
Proof.
  induction s as [|c r IH]; intros b Hs; [reflexivity|]. simpl in *.
  destruct (Py.isspace c).
  - apply andb_true_iff in Hs as [Hs Hr]. apply andb_true_iff in Hs as [Hc Hb].
    apply negb_true_iff in Hb. subst b. apply Ascii.eqb_eq in Hc. subst c.
    now rewrite (IH true Hr).
  - now rewrite (IH false Hs).
Qed.

Lemma single_spaced_weaken (s : string) :
  single_spaced true s = true -> single_spaced false s = true.
Proof.
  destruct s as [|c r]; [reflexivity|]. simpl.
  destruct (Py.isspace c); [|auto]. rewrite andb_false_r. discriminate.
Qed.

Lemma rstrip_single_spaced (s : string) :
  forall b, single_spaced b s = true -> single_spaced b (Py.rstrip s) = true.
Proof.
  induction s as [|c r IH]; intros b Hs; [reflexivity|]. simpl in *.
  destruct (Py.isspace c) eqn:Hc.
  - apply andb_true_iff in Hs as [Hs Hr]. specialize (IH true Hr).
    destruct (Py.rstrip r) as [|c' r'] eqn:Hrs; [reflexivity|].
    simpl in *. rewrite Hc, Hs. exact IH.
  - specialize (IH false Hs).
    destruct (Py.rstrip r) as [|c' r'] eqn:Hrs; simpl; rewrite Hc; [reflexivity|].
    exact IH.
Qed.

Lemma rstrip_no_trailing_space (s : string) :
  no_trailing_space (Py.rstrip s) = true.
Proof.
  induction s as [|c r IH]; [reflexivity|]. simpl.
  destruct (Py.rstrip r) as [|c' r'] eqn:Hrs.
  - destruct (Py.isspace c) eqn:Hc; [reflexivity|]. simpl. now rewrite Hc.
  - exact IH.
Qed.

Lemma rstrip_fixed (s : string) :
  no_trailing_space s = true -> Py.rstrip s = s.
Proof.
  induction s as [|c r IH]; intros Hs; [reflexivity|]. simpl.
  destruct r as [|c' r'].
  - simpl in *. apply negb_true_iff in Hs. now rewrite Hs.
  - rewrite IH by exact Hs. reflexivity.
Qed.

Lemma lstrip_single_spaced (s : string) :
  forall b, single_spaced b s = true -> single_spaced true (Py.lstrip s) = true.
Proof.
  induction s as [|c r IH]; intros b Hs; [reflexivity|]. simpl in *.
  destruct (Py.isspace c) eqn:Hc.
  - apply andb_true_iff in Hs as [_ Hr]. exact (IH true Hr).
  - simpl. now rewrite Hc.
Qed.

Lemma lstrip_no_trailing_space (s : string) :
  no_trailing_space s = true -> no_trailing_space (Py.lstrip s) = true.
Proof.
  induction s as [|c r IH]; intros Hs; [reflexivity|]. simpl.
  destruct (Py.isspace c) eqn:Hc; [|exact Hs].
  destruct r as [|c' r']; [reflexivity|]. apply IH. exact Hs.
Qed.

Lemma lstrip_fixed (s : string) :
  single_spaced true s = true -> Py.lstrip s = s.
Proof.
  destruct s as [|c r]; [reflexivity|]. simpl.
  destruct (Py.isspace c); [|reflexivity]. rewrite andb_false_r. discriminate.
Qed.

Lemma strip_normalized (s : string) :
  forall b, single_spaced b s = true -> normalized (Py.strip s) = true.
Proof.
  intros b Hs. unfold normalized, Py.strip. apply andb_true_iff. split.
  - apply (lstrip_single_spaced _ b), rstrip_single_spaced, Hs.
  - apply lstrip_no_trailing_space, rstrip_no_trailing_space.
Qed.

Lemma strip_fixed (s : string) : normalized s = true -> Py.strip s = s.
Proof.
  unfold normalized, Py.strip. intros Hs. apply andb_true_iff in Hs as [H1 H2].
  rewrite (rstrip_fixed s H2). apply lstrip_fixed, H1.
Qed.

Lemma clean_text_normalized (text : string) :
  normalized (Scraper.clean_text text) = true.
Proof.
  destruct text as [|c r]; [reflexivity|]. unfold Scraper.clean_text.
  apply (strip_normalized _ false), sub_spaces_single_spaced.
Qed.

Lemma clean_text_fixed (text : string) :
  normalized text = true -> Scraper.clean_text text = text.
Proof.
  intros Hn. destruct text as [|c r]; [reflexivity|]. unfold Scraper.clean_text.
  pose proof Hn as Hs. unfold normalized in Hs.
  apply andb_true_iff in Hs as [Hs _].
  rewrite (sub_spaces_fixed _ false (single_spaced_weaken _ Hs)).
  apply strip_fixed, Hn.
Qed.

Lemma sub_spaces_length (s : string) :
  forall b, (String.length (Py.sub_spaces b s) <= String.length s)%nat.
Proof.
  induction s as [|c r IH]; intros b; simpl; [lia|].
  destruct (Py.isspace c); [destruct b|]; simpl;
    [specialize (IH true)|specialize (IH true)|specialize (IH false)]; lia.
Qed.

Lemma lstrip_length (s : string) :
  (String.length (Py.lstrip s) <= String.length s)%nat.
Proof.
  induction s as [|c r IH]; simpl; [lia|]. destruct (Py.isspace c); simpl; lia.
Qed.

Lemma rstrip_length (s : string) :
  (String.length (Py.rstrip s) <= String.length s)%nat.
Proof.
  induction s as [|c r IH]; simpl; [lia|].
  destruct (Py.rstrip r); [destruct (Py.isspace c)|]; simpl in *; lia.
Qed.

End CleanTextFacts.

(** X1. [clean_text] returns whitespace-normalized text: no whitespace at
    either end and, inside, only single spaces. It leaves normalized text
    as it is, so cleaning twice is cleaning once, and it never makes the
    text longer. *)
Theorem clean_text_normal_form (text : string) :
  normalized (Scraper.clean_text text) = true /\
  (normalized text = true -> Scraper.clean_text text = text) /\
  Scraper.clean_text (Scraper.clean_text text) = Scraper.clean_text text /\
  Py.len (Scraper.clean_text text) <= Py.len text.
Proof.
  split; [apply clean_text_normalized|].
  split; [apply clean_text_fixed|].
  split; [apply clean_text_fixed, clean_text_normalized|].
  unfold Py.len. destruct text as [|c r]; [simpl; lia|].
  unfold Scraper.clean_text, Py.strip.
  pose proof (sub_spaces_length (String c r) false).
  pose proof (rstrip_length (Py.sub_spaces false (String c r))).
  pose proof (lstrip_length (Py.rstrip (Py.sub_spaces false (String c r)))).
  lia.
Qed.

Example clean_text_examples :
  Scraper.clean_text "  Remote	 work
  at   GitLab " = "Remote work at GitLab" /\
  Scraper.clean_text " 	
 " = "".
Proof. split; reflexivity. Qed.

(* ===================================================================== *)
(** * Section extractor: what the sections are made from *)
(* ===================================================================== *)

Section SectionFacts.

Import Scraper.

Lemma walk_step_skipped (url : string) (w : Walk) (e : Element) :
  kept e = false -> walk_step url w e = w.
Proof.
  unfold kept, walk_step. destruct (has_landmark_parent e); [reflexivity|].
  simpl. intros Hshort. apply Z.leb_gt in Hshort.
  replace (Py.len (clean_text (get_text e)) <? 10) with true
    by (symmetry; apply Z.ltb_lt; exact Hshort).
  now rewrite orb_true_r.
Qed.

Lemma walk_fold_kept (url : string) (elements : list Element) :
  forall w, fold_left (walk_step url) elements w
            = fold_left (walk_step url) (List.filter kept elements) w.
Proof.
  induction elements as [|e rest IH]; intros w; [reflexivity|].
  cbn [fold_left List.filter]. destruct (kept e) eqn:He.
  - cbn [fold_left]. apply IH.
  - rewrite (walk_step_skipped url w e He). apply IH.
Qed.

Lemma extract_sections_walked (soup : Soup) (url : string) (root : Root) :
  main_content soup = Some root ->
  extract_sections soup url =
    let w := fold_left (walk_step url) (walked root) walk_init in
    let chunks1 := match save_section url w with
                   | Some c => chunks w ++ [c]
                   | None => chunks w
                   end in
    match chunks1 with
    | [] =>
        if 50 <? Py.len (clean_text (root_text root))
        then Some [ mkChunk url "Main Content" 0
                      (Py.len (clean_text (root_text root)))
                      (clean_text (root_text root)) ]
        else Some []
    | _ => Some chunks1
    end.
Proof.
  intros Hroot. unfold extract_sections, walked. rewrite Hroot.
  rewrite (walk_fold_kept url (find_all block_names root)). reflexivity.
Qed.

Lemma single_spaced_append (a t : string) :
  a <> EmptyString -> no_trailing_space a = true ->
  forall b, single_spaced b (a +:+ t)
            = single_spaced b a && single_spaced false t.
Proof.
  induction a as [|c r IH]; intros Hne Hend b; [contradiction|].
  rewrite append_cons. destruct r as [|c' r'].
  - rewrite append_empty_l. simpl in Hend |- *.
    apply negb_true_iff in Hend. now rewrite Hend.
  - assert (Hr : forall b', single_spaced b' (String c' r' +:+ t)
                   = single_spaced b' (String c' r') && single_spaced false t)
      by (apply IH; [discriminate|exact Hend]).
    cbn [single_spaced]. destruct (Py.isspace c).
    + rewrite (Hr true). cbn [single_spaced]. now rewrite !andb_assoc.
    + rewrite (Hr false). reflexivity.
Qed.

Lemma no_trailing_space_append (a t : string) :
  t <> EmptyString -> no_trailing_space (a +:+ t) = no_trailing_space t.
Proof.
  intros Hne. induction a as [|c r IH]; [reflexivity|].
  rewrite append_cons. cbn [no_trailing_space].
  destruct (r +:+ t) as [|c' s] eqn:Hrt; [|exact IH].
  destruct r; [|discriminate]. rewrite append_empty_l in Hrt. contradiction.
Qed.

Lemma join_cons2 (sep p q : string) (rest : list string) :
  Py.join sep (p :: q :: rest) = p +:+ sep +:+ Py.join sep (q :: rest).
Proof. reflexivity. Qed.

(** Cleaned texts joined by single spaces are whitespace-normalized. *)
Lemma join_normalized (parts : list string) :
  parts <> [] ->
  Forall (fun t => normalized t = true /\ t <> EmptyString) parts ->
  normalized (Py.join " " parts) = true /\ Py.join " " parts <> EmptyString.
Proof.
  induction parts as [|p rest IH]; intros Hne Hall; [contradiction|].
  apply Forall_cons in Hall as [[Hp Hpne] Hrest].
  destruct rest as [|q rest']; [split; assumption|].
  destruct (IH ltac:(discriminate) Hrest) as [Hj Hjne].
  rewrite join_cons2. set (J := Py.join " " (q :: rest')) in *.
  unfold normalized in Hp, Hj |- *.
  apply andb_true_iff in Hp as [Hp1 Hp2]. apply andb_true_iff in Hj as [Hj1 Hj2].
  split.
  - apply andb_true_iff. split.
    + rewrite (single_spaced_append p _ Hpne Hp2), Hp1.
      change (" " +:+ J) with (String " "%char J). cbn [single_spaced andb].
      exact Hj1.
    + rewrite no_trailing_space_append by discriminate.
      change (" " +:+ J) with (String " "%char J). cbn [no_trailing_space].
      destruct J; [contradiction|exact Hj2].
  - destruct p; [contradiction|discriminate].
Qed.

Variables (url : string) (root : Root).

(** The invariant of the walk over the elements of [root]: the sections
    emitted are well formed, the running title is [Introduction] or the
    text of a heading, and the texts gathered are cleaned and not empty. *)
Let title_ok (t : string) : Prop :=
  t = "Introduction" \/
  exists e, e ∈ descendants root /\ Py.mem (name e) heading_names = true /\
            kept e = true /\ t = clean_text (get_text e).

Let walk_sections (w : Walk) : Prop :=
  Forall (section_of url root) (chunks w) /\
  title_ok (current_section_title w) /\
  Forall (fun t => normalized t = true /\ t <> EmptyString)
         (current_section_content w).

Lemma save_section_of (w : Walk) (c : Chunk) :
  walk_sections w -> save_section url w = Some c -> section_of url root c.
Proof.
  intros (_ & Htitle & Htexts). unfold save_section.
  destruct (current_section_content w) as [|t ts] eqn:Hcontent; [discriminate|].
  destruct (50 <? _) eqn:Hlong; [|discriminate]. intros [= <-].
  apply Z.ltb_lt in Hlong.
  destruct (join_normalized (t :: ts) ltac:(discriminate) Htexts) as [Hnorm _].
  split; [reflexivity|]. split; [exact Hlong|]. split; [exact Hnorm|].
  destruct Htitle as [->|Hhead]; [now left|right; right; exact Hhead].
Qed.

Lemma walk_step_sections (w : Walk) (e : Element) :
  e ∈ descendants root -> walk_sections w -> walk_sections (walk_step url w e).
Proof.
  intros He Hw. destruct (kept e) eqn:Hkept;
    [|now rewrite walk_step_skipped].
  pose proof Hkept as Hk. unfold kept in Hk.
  apply andb_true_iff in Hk as [Hpar Hlen].
  apply negb_true_iff in Hpar. apply Z.leb_le in Hlen.
  unfold walk_step. rewrite Hpar.
  destruct (clean_text (get_text e)) as [|ch text] eqn:Htext.
  { unfold Py.len in Hlen. simpl in Hlen. lia. }
  replace (Py.len (String ch text) <? 10) with false
    by (symmetry; apply Z.ltb_ge; exact Hlen).
  cbn [String.eqb orb].
  destruct (Py.mem (name e) heading_names) eqn:Hname.
  - assert (Hnew : title_ok (String ch text))
      by (right; exists e; rewrite Htext; auto).
    destruct (save_section url w) as [c|] eqn:Hsave.
    + pose proof (save_section_of w c Hw Hsave) as Hc.
      destruct Hw as (Hcs & _ & _). repeat split; cbn; auto.
      apply Forall_app. split; [exact Hcs|]. constructor; [exact Hc|constructor].
    + destruct Hw as (Hcs & _ & _). repeat split; cbn; auto.
  - destruct Hw as (Hcs & Htitle & Htexts). repeat split; cbn; auto.
    apply Forall_app. split; [exact Htexts|]. constructor; [|constructor].
    split; [|discriminate]. rewrite <- Htext. apply clean_text_normalized.
Qed.

Lemma walk_fold_sections (elements : list Element) :
  (forall e, e ∈ elements -> e ∈ descendants root) ->
  forall w, walk_sections w ->
            walk_sections (fold_left (walk_step url) elements w).
Proof.
  induction elements as [|e rest IH]; intros Hsub w Hw; [exact Hw|].
  cbn [fold_left]. apply IH.
  - intros e' He'. apply Hsub. now right.
  - apply walk_step_sections; [apply Hsub; left|exact Hw].
Qed.

Lemma extract_sections_sections (soup : Soup) (cs : list Chunk) :
  main_content soup = Some root ->
  extract_sections soup url = Some cs ->
  Forall (section_of url root) cs.
Proof.
  intros Hroot. unfold extract_sections. rewrite Hroot.
  set (w := fold_left _ _ _).
  assert (Hw : walk_sections w).
  { apply walk_fold_sections.
    - intros e He. unfold find_all in He.
      apply list_elem_of_filter in He. tauto.
    - repeat split; cbn; [constructor|now left|constructor]. }
  assert (Hall : Forall (section_of url root)
                   (match save_section url w with
                    | Some c => chunks w ++ [c]
                    | None => chunks w end)).
  { destruct (save_section url w) as [c|] eqn:Hsave; [|apply Hw].
    apply Forall_app. split; [apply Hw|].
    constructor; [exact (save_section_of w c Hw Hsave)|constructor]. }
  destruct (match save_section url w with
            | Some c => chunks w ++ [c] | None => chunks w end) as [|c1 rest].
  - destruct (50 <? _) eqn:Hlong; intros [= <-]; [|constructor].
    constructor; [|constructor]. apply Z.ltb_lt in Hlong.
    split; [reflexivity|]. split; [exact Hlong|].
    split; [apply clean_text_normalized|]. right. now left.
  - intros [= <-]. exact Hall.
Qed.

End SectionFacts.

(** X2. The walk of [extract_sections] reads only the block elements that
    are not under a [nav], [header], [footer] or [aside] and have at least
    10 characters of cleaned text. Two pages that agree on these give the
    same sections whenever their walk emits a section; when it emits none,
    the sections come from the cleaned text of the content root (the
    [Main Content] fallback) and the two pages give the same sections if
    that text agrees too. So navigation items, short fragments and tags
    that are not blocks reach a section through the fallback text only. *)
Theorem extract_sections_ignores_skipped (soup soup' : Soup)
    (root root' : Root) (url : string) :
  Scraper.main_content soup = Some root ->
  Scraper.main_content soup' = Some root' ->
  walked root = walked root' ->
  (sections_of_walk url (walked root) <> [] ->
   Scraper.extract_sections soup url
     = Some (sections_of_walk url (walked root)) /\
   Scraper.extract_sections soup' url
     = Some (sections_of_walk url (walked root))) /\
  (Scraper.clean_text (root_text root) = Scraper.clean_text (root_text root') ->
   Scraper.extract_sections soup url = Scraper.extract_sections soup' url).
Proof.
  intros Hroot Hroot' Hwalked.
  rewrite (extract_sections_walked soup url root Hroot).
  rewrite (extract_sections_walked soup' url root' Hroot').
  rewrite <- Hwalked. cbv zeta. fold (sections_of_walk url (walked root)).
  split.
  - intros Hne. destruct (sections_of_walk url (walked root));
      [contradiction|split; reflexivity].
  - intros Htext. now rewrite Htext.
Qed.

Lemma extract_sections_ignores_skipped_witness :
  walked (mkRoot [para values_intro; heading "Our six core values";
                  para values_body] "")
    = [para values_intro; heading "Our six core values"; para values_body] /\
  Scraper.extract_sections values_page_with_nav
    "https://handbook.gitlab.com/values"
  = Scraper.extract_sections values_page "https://handbook.gitlab.com/values".
Proof.
  split; [vm_compute; reflexivity|].
  destruct (extract_sections_ignores_skipped values_page_with_nav values_page
              _ _ "https://handbook.gitlab.com/values" eq_refl eq_refl)
    as [Hwalk _]; [vm_compute; reflexivity|].
  destruct Hwalk as [-> ->]; [vm_compute; discriminate|reflexivity].
Defined.

(** The fallback reads the whole text of the content root: a page that
    holds a navigation item only comes back as one [Main Content] section
    made of its text. *)
Example navigation_only_page :
  Scraper.extract_sections navigation_page "https://handbook.gitlab.com"
  = Some [ {| source_url := "https://handbook.gitlab.com";
              section_title := "Main Content";
              start_char := 0;
              end_char := 55;
              content := "Handbook home, values, hiring, direction and more pages" |} ].
Proof. vm_compute. reflexivity. Qed.

(** X3. Every section [extract_sections] returns for a page carries the
    page's URL, has a whitespace-normalized content of more than 50
    characters, and is titled [Introduction], [Main Content] or the cleaned
    text of a heading of the content root that is not under a landmark and
    has at least 10 characters; the first section starts at offset 0. *)
Theorem extract_sections_well_formed (soup : Soup) (root : Root)
    (url : string) (cs : list Chunk) :
  Scraper.main_content soup = Some root ->
  Scraper.extract_sections soup url = Some cs ->
  Forall (section_of url root) cs /\
  (forall c, head cs = Some c -> start_char c = 0).
Proof.
  intros Hroot Hrun.
  split; [exact (extract_sections_sections url root soup cs Hroot Hrun)|].
  intros c Hc. apply extract_sections_laid in Hrun.
  destruct cs as [|c' rest]; [discriminate|]. injection Hc as ->.
  simpl in Hrun. tauto.
Qed.

Lemma extract_sections_well_formed_witness :
  exists c1 c2,
    Scraper.extract_sections values_page "https://handbook.gitlab.com/values"
      = Some [c1; c2] /\
    source_url c1 = "https://handbook.gitlab.com/values" /\
    source_url c2 = "https://handbook.gitlab.com/values" /\
    50 < Py.len (content c2) /\
    start_char c1 = 0.
Proof.
  do 2 eexists. split; [vm_compute; reflexivity|].
  destruct (extract_sections_well_formed values_page _
              "https://handbook.gitlab.com/values" _ eq_refl eq_refl)
    as [Hall Hfirst].
  apply Forall_cons in Hall as [(Hu1 & _) Hall].
  apply Forall_cons in Hall as [(Hu2 & Hl2 & _) _].
  split; [exact Hu1|]. split; [exact Hu2|]. split; [exact Hl2|].
  apply Hfirst. reflexivity.
Defined.

(* ===================================================================== *)
(** * Crawler: the links it follows *)
(* ===================================================================== *)

Section NormalizeFacts.

Lemma split_hd_no_sep (x : ascii) (s : string) :
  all_chars (fun c => negb (Ascii.eqb c x)) (hd EmptyString (Py.split x s))
  = true.
Proof.
  induction s as [|c r IH]; [reflexivity|]. cbn [Py.split].
  destruct (Ascii.eqb c x) eqn:Hc; [reflexivity|].
  destruct (Py.split x r) as [|h t]; cbn [hd all_chars] in *;
    rewrite Hc; [reflexivity|exact IH].
Qed.

Lemma split_no_sep (x : ascii) (s : string) :
  all_chars (fun c => negb (Ascii.eqb c x)) s = true -> Py.split x s = [s].
Proof.
  induction s as [|c r IH]; [reflexivity|]. cbn [all_chars Py.split].
  intros H. apply andb_true_iff in H as [Hc Hr]. apply negb_true_iff in Hc.
  now rewrite Hc, (IH Hr).
Qed.

Lemma rstrip_char_all_chars (f : ascii -> bool) (x : ascii) (s : string) :
  all_chars f s = true -> all_chars f (Py.rstrip_char x s) = true.
Proof.
  induction s as [|c r IH]; [reflexivity|]. cbn [all_chars Py.rstrip_char].
  intros H. apply andb_true_iff in H as [Hc Hr]. specialize (IH Hr).
  destruct (Py.rstrip_char x r) as [|c' r'].
  - destruct (Ascii.eqb c x); [reflexivity|]. cbn [all_chars]. now rewrite Hc.
  - cbn [all_chars] in *. now rewrite Hc.
Qed.

Lemma rstrip_char_idem (x : ascii) (s : string) :
  Py.rstrip_char x (Py.rstrip_char x s) = Py.rstrip_char x s.
Proof.
  induction s as [|c r IH]; [reflexivity|]. cbn [Py.rstrip_char].
  destruct (Py.rstrip_char x r) as [|c' r'] eqn:Hr.
  - destruct (Ascii.eqb c x) eqn:Hc; [reflexivity|].
    cbn [Py.rstrip_char]. now rewrite Hc.
  - change (Py.rstrip_char x (String c (String c' r')))
      with (match Py.rstrip_char x (String c' r') with
            | EmptyString =>
                if Ascii.eqb c x then EmptyString else String c EmptyString
            | r'' => String c r''
            end).
    now rewrite IH.
Qed.

(** A normalized URL has no fragment and no trailing slash: normalizing it
    again changes nothing. *)
Lemma normalize_idem (full_url : string) :
  Scraper.normalize (Scraper.normalize full_url) = Scraper.normalize full_url /\
  Py.rstrip_char "/" (Scraper.normalize full_url) = Scraper.normalize full_url.
Proof.
  unfold Scraper.normalize. split; [|apply rstrip_char_idem].
  rewrite split_no_sep
    by (apply rstrip_char_all_chars, split_hd_no_sep).
  cbn [hd]. apply rstrip_char_idem.
Qed.

End NormalizeFacts.

Section LinkFacts.

Variable urlparse : string -> option Scraper.ParseResult.
Variable urljoin : string -> string -> option string.
Variable web : nat -> string -> option Soup.
Variable max_depth max_pages : Z.

Local Abbreviation is_valid_url := (Scraper.is_valid_url urlparse).
Local Abbreviation absolute_url := (Scraper.absolute_url urljoin).
Local Abbreviation collect_links := (Scraper.collect_links urlparse urljoin).
Local Abbreviation extract_links := (Scraper.extract_links urlparse urljoin).

Lemma existsb_false_Forall {A : Type} (f : A -> bool) (l : list A) :
  existsb f l = false -> Forall (fun x => f x = false) l.
Proof.
  induction l as [|x rest IH]; cbn [existsb]; intros H; [constructor|].
  apply orb_false_iff in H as [Hx Hrest]. constructor; auto.
Qed.

(** What [is_valid_url] accepts. *)
Lemma is_valid_url_on_site (u base_domain : string) :
  is_valid_url u base_domain = true -> on_site urlparse base_domain u.
Proof.
  unfold Scraper.is_valid_url, on_site.
  destruct (urlparse u) as [parsed|]; [|discriminate].
  destruct (if String.eqb base_domain "handbook" then _ else _) eqn:Hoff;
    [discriminate|].
  destruct (existsb _ _) eqn:Hskip; [discriminate|].
  destruct (Py.startswith u "http://") eqn:Hhttp;
    [|destruct (Py.startswith u "https://") eqn:Hhttps; [|discriminate]];
    intros _.
  all: split; [auto|]; split; [apply existsb_false_Forall, Hskip|].
  all: exists parsed; split; [reflexivity|].
  all: destruct (String.eqb base_domain "handbook") eqn:Hh.
  all: try (apply String.eqb_eq in Hh; subst base_domain).
  all: try (apply String.eqb_neq in Hh).
  all: try (split; [|discriminate]; intros _;
            apply andb_false_iff in Hoff as [Hoff|Hoff];
            apply negb_false_iff in Hoff;
            [now left|right; now apply String.eqb_eq]).
  all: split; [contradiction|].
  all: destruct (String.eqb base_domain "direction") eqn:Hd;
    [|apply String.eqb_neq in Hd; contradiction].
  all: intros _; apply orb_false_iff in Hoff as [Hnet Hpath];
    apply negb_false_iff in Hpath; split; [|exact Hpath];
    apply andb_false_iff in Hnet as [Hnet|Hnet];
    apply negb_false_iff in Hnet;
    [now left|right; now apply String.eqb_eq].
Qed.

(** What [extract_links] promises of a link found on the page [soup] at
    [current_url]. *)
Let link_of (visited : gset string) (hrefs : list string)
    (base_url current_url base_domain l : string) : Prop :=
  is_valid_url l base_domain = true /\
  (l ∉ visited) /\
  Scraper.normalize l = l /\
  Py.rstrip_char "/" l = l /\
  exists href full_url,
    href ∈ hrefs /\
    absolute_url base_url current_url href = Some full_url /\
    l = Scraper.normalize full_url.

Lemma collect_links_sound (visited : gset string)
    (base_url current_url base_domain : string) (all_hrefs : list string) :
  forall hrefs links out,
    (forall href, href ∈ hrefs -> href ∈ all_hrefs) ->
    Forall (link_of visited all_hrefs base_url current_url base_domain) links ->
    collect_links visited base_url current_url base_domain hrefs links
      = Some out ->
    Forall (link_of visited all_hrefs base_url current_url base_domain) out /\
    (length out <= length links + length hrefs)%nat.
Proof.
  induction hrefs as [|href rest IH]; intros links out Hsub Hlinks Hrun;
    cbn [Scraper.collect_links] in Hrun.
  - injection Hrun as <-. split; [exact Hlinks|simpl; lia].
  - destruct (absolute_url base_url current_url href) as [full_url|] eqn:Habs;
      [|discriminate].
    assert (Hrest : forall h, h ∈ rest -> h ∈ all_hrefs)
      by (intros h Hh; apply Hsub; now right).
    destruct (is_valid_url (Scraper.normalize full_url) base_domain
              && negb (bool_decide (Scraper.normalize full_url ∈ visited)))
      eqn:Htest.
    + apply andb_true_iff in Htest as [Hvalid Hfresh].
      apply negb_true_iff, bool_decide_eq_false in Hfresh.
      apply IH in Hrun as [Hout Hlen]; [| exact Hrest |].
      * split; [exact Hout|]. rewrite length_app in Hlen. simpl in *. lia.
      * apply Forall_app. split; [exact Hlinks|]. constructor; [|constructor].
        destruct (normalize_idem full_url) as [Hn Hs].
        split; [exact Hvalid|]. split; [exact Hfresh|].
        split; [exact Hn|]. split; [exact Hs|].
        exists href, full_url. split; [apply Hsub; left|]. auto.
    + apply IH in Hrun as [Hout Hlen]; [| exact Hrest | exact Hlinks].
      split; [exact Hout|]. simpl. lia.
Qed.

Lemma extract_links_links (visited : gset string) (soup : Soup)
    (current_url base_domain : string) (links : list string) :
  extract_links visited soup current_url base_domain = Some links ->
  exists base_url,
    Scraper.BASE_URLS base_domain = Some base_url /\
    Forall (link_of visited (anchors soup) base_url current_url base_domain)
           links /\
    (length links <= length (anchors soup))%nat.
Proof.
  unfold Scraper.extract_links.
  destruct (Scraper.BASE_URLS base_domain) as [base_url|]; [|discriminate].
  intros Hrun. exists base_url. split; [reflexivity|].
  apply collect_links_sound with (all_hrefs := anchors soup) in Hrun;
    [exact Hrun|auto|constructor].
Qed.

Lemma add_new_links_from (visited : gset string) (found : list string) :
  forall next l,
    l ∈ Scraper.add_new_links visited next found -> l ∈ next \/ l ∈ found.
Proof.
  unfold Scraper.add_new_links.
  induction found as [|link rest IH]; intros next l Hl; cbn [fold_left] in Hl;
    [now left|].
  apply IH in Hl as [Hl|Hl]; [|right; now right].
  destruct (_ && _); [|now left].
  apply elem_of_app in Hl as [Hl|Hl]; [now left|].
  apply list_elem_of_singleton in Hl as ->. right. now left.
Qed.

Lemma links_to_later (log more : list (string * bool))
    (base_domain v u : string) :
  links_to urlparse urljoin web log base_domain v u ->
  links_to urlparse urljoin web (log ++ more) base_domain v u.
Proof.
  intros (i & soup & base_url & href & full_url & Hi & Hrest).
  exists i, soup, base_url, href, full_url. split; [|exact Hrest].
  now apply lookup_app_l_Some.
Qed.

Lemma within_more (log : list (string * bool)) (base_domain : string)
    (start : list string) (k : nat) (u : string) :
  within urlparse urljoin web log base_domain start k u ->
  forall k', (k <= k')%nat ->
             within urlparse urljoin web log base_domain start k' u.
Proof.
  induction 1 as [k u Hu|k v u Hv IH Hlink]; intros k' Hk.
  - now apply within_start.
  - destruct k' as [|k']; [lia|].
    apply within_link with (v := v); [apply IH; lia|exact Hlink].
Qed.

Lemma within_later (log more : list (string * bool)) (base_domain : string)
    (start : list string) (k : nat) (u : string) :
  within urlparse urljoin web log base_domain start k u ->
  within urlparse urljoin web (log ++ more) base_domain start k u.
Proof.
  induction 1 as [k u Hu|k v u Hv IH Hlink].
  - now apply within_start.
  - apply within_link with (v := v); [exact IH|now apply links_to_later].
Qed.

(** One level deeper: what is within [k] links of the next level is within
    [k + 1] links of this one. *)
Lemma within_next_level (log : list (string * bool)) (base_domain : string)
    (start next : list string) (k : nat) (u : string) :
  (forall l, l ∈ next ->
     exists v, v ∈ start /\ links_to urlparse urljoin web log base_domain v l) ->
  within urlparse urljoin web log base_domain next k u ->
  within urlparse urljoin web log base_domain start (S k) u.
Proof.
  intros Hnext. induction 1 as [k u Hu|k v u Hv IH Hlink].
  - destruct (Hnext u Hu) as (v & Hv & Hlink).
    apply within_more with (k := 1%nat); [|lia].
    apply within_link with (v := v); [now apply within_start|exact Hlink].
  - apply within_link with (v := v); [exact IH|exact Hlink].
Qed.

(** A URL within reach of the start URLs is one of them or a normalized
    link valid for the domain. *)
Lemma within_valid (log : list (string * bool)) (base_domain : string)
    (start : list string) (k : nat) (u : string) :
  within urlparse urljoin web log base_domain start k u ->
  u ∈ start \/
  (is_valid_url u base_domain = true /\ Py.rstrip_char "/" u = u).
Proof.
  destruct 1 as [k u Hu|k v u _ Hlink]; [now left|right].
  destruct Hlink as (i & soup & base_url & href & full_url & _ & _ & _ & _ & _
                     & -> & Hvalid).
  split; [exact Hvalid|apply normalize_idem].
Qed.

Local Abbreviation crawl_level :=
  (Scraper.crawl_level urlparse urljoin web max_pages).
Local Abbreviation crawl_levels :=
  (Scraper.crawl_levels urlparse urljoin web max_pages).
Local Abbreviation crawl_recursive :=
  (Scraper.crawl_recursive urlparse urljoin web max_depth max_pages).

(** One level requests start URLs only, and every URL it puts on the next
    level is linked from a start URL it fetched. *)
Lemma crawl_level_links (start_urls : list string) (base_domain : string) :
  forall st uts next uts' next' st',
    crawl_level start_urls base_domain st uts next = (uts', next', st') ->
    exists new,
      Scraper.fetch_log st' = Scraper.fetch_log st ++ new /\
      (forall u, u ∈ map fst new -> u ∈ start_urls) /\
      (forall l, l ∈ next' ->
         l ∈ next \/
         exists v, v ∈ start_urls /\
           links_to urlparse urljoin web (Scraper.fetch_log st')
                    base_domain v l).
Proof.
  induction start_urls as [|url rest IH]; intros st uts next uts' next' st' Hrun;
    cbn [Scraper.crawl_level] in Hrun.
  - injection Hrun as <- <- <-. exists []. rewrite app_nil_r.
    split; [reflexivity|]. split; [intros u Hu; inversion Hu|now left].
  - destruct (bool_decide (url ∈ Scraper.visited_urls st)).
    { apply IH in Hrun as (new & Hlog & Hreq & Hnext). exists new.
      split; [exact Hlog|]. split; [intros u Hu; right; now apply Hreq|].
      intros l Hl. destruct (Hnext l Hl) as [?|(v & Hv & Hlink)]; [now left|].
      right. exists v. split; [now right|exact Hlink]. }
    destruct (Scraper.budget_spent max_pages st).
    { injection Hrun as <- <- <-. exists []. rewrite app_nil_r.
      split; [reflexivity|]. split; [intros u Hu; inversion Hu|now left]. }
    destruct (Scraper.discover urlparse urljoin web st url base_domain)
      as [found|] eqn:Hfound.
    + apply IH in Hrun as (new & Hlog & Hreq & Hnext). cbn in Hlog.
      exists ((url, true) :: new).
      rewrite <- app_assoc in Hlog. split; [exact Hlog|].
      split.
      { intros u Hu. cbn in Hu. apply elem_of_cons in Hu as [->|Hu];
          [left|right; now apply Hreq]. }
      intros l Hl. destruct (Hnext l Hl) as [Hl'|(v & Hv & Hlink)].
      * apply add_new_links_from in Hl' as [Hl'|Hl']; [now left|].
        right. exists url. split; [left|].
        unfold Scraper.discover in Hfound.
        destruct (web (length (Scraper.fetch_log st)) url) as [soup|] eqn:Hweb;
          [|discriminate].
        apply extract_links_links in Hfound as (base_url & Hbase & Hall & _).
        rewrite Forall_forall in Hall.
        destruct (Hall l Hl') as (Hvalid & _ & _ & _ & href & full_url & Hhref
                                  & Habs & ->).
        exists (length (Scraper.fetch_log st)), soup, base_url, href, full_url.
        split; [rewrite Hlog; now apply list_lookup_middle|]. auto 10.
      * right. exists v. split; [now right|exact Hlink].
    + apply IH in Hrun as (new & Hlog & Hreq & Hnext). cbn in Hlog.
      exists ((url, false) :: new).
      rewrite <- app_assoc in Hlog. split; [exact Hlog|].
      split.
      { intros u Hu. cbn in Hu. apply elem_of_cons in Hu as [->|Hu];
          [left|right; now apply Hreq]. }
      intros l Hl. destruct (Hnext l Hl) as [?|(v & Hv & Hlink)]; [now left|].
      right. exists v. split; [now right|exact Hlink].
Qed.

(** With [levels_left] levels below it, a crawl requests only URLs within
    [levels_left] links of its start URLs. *)
Lemma crawl_levels_within (levels_left : nat) (base_domain : string) :
  forall start_urls st urls st',
    crawl_levels levels_left start_urls base_domain st = (urls, st') ->
    exists new,
      Scraper.fetch_log st' = Scraper.fetch_log st ++ new /\
      forall u, u ∈ map fst new ->
        within urlparse urljoin web (Scraper.fetch_log st') base_domain
               start_urls levels_left u.
Proof.
  induction levels_left as [|k IH]; intros start_urls st urls st' Hrun;
    cbn [Scraper.crawl_levels] in Hrun.
  - destruct (Scraper.budget_spent max_pages st).
    { injection Hrun as <- <-. exists []. rewrite app_nil_r.
      split; [reflexivity|intros u Hu; inversion Hu]. }
    destruct (Scraper.crawl_level _ _ _ _ _ _ _ _ _) as [[uts next] st1] eqn:Hlevel.
    injection Hrun as <- <-.
    apply crawl_level_links in Hlevel as (new & Hlog & Hreq & _).
    exists new. split; [exact Hlog|].
    intros u Hu. apply within_start, Hreq, Hu.
  - destruct (Scraper.budget_spent max_pages st).
    { injection Hrun as <- <-. exists []. rewrite app_nil_r.
      split; [reflexivity|intros u Hu; inversion Hu]. }
    destruct (Scraper.crawl_level _ _ _ _ _ _ _ _ _) as [[uts next] st1] eqn:Hlevel.
    apply crawl_level_links in Hlevel as (new1 & Hlog1 & Hreq1 & Hnext1).
    assert (Hone : forall st2 : Scraper.CrawlState, st2 = st1 ->
              exists new, Scraper.fetch_log st2 = Scraper.fetch_log st ++ new /\
                forall u, u ∈ map fst new ->
                  within urlparse urljoin web (Scraper.fetch_log st2)
                         base_domain start_urls (S k) u).
    { intros st2 ->. exists new1. split; [exact Hlog1|].
      intros u Hu. apply within_start, Hreq1, Hu. }
    destruct next as [|link next].
    { injection Hrun as <- <-. now apply Hone. }
    destruct (Scraper.budget_spent max_pages st1).
    { injection Hrun as <- <-. now apply Hone. }
    destruct (Scraper.crawl_levels _ _ _ _ k _ _ _) as [deeper st2] eqn:Hdeep.
    injection Hrun as <- <-.
    apply IH in Hdeep as (new2 & Hlog2 & Hreq2).
    exists (new1 ++ new2). rewrite Hlog2, Hlog1, <- app_assoc.
    split; [reflexivity|].
    intros u Hu. rewrite map_app in Hu. apply elem_of_app in Hu as [Hu|Hu].
    + apply within_start, Hreq1, Hu.
    + rewrite app_assoc, <- Hlog1, <- Hlog2.
      apply within_next_level with (next := link :: next); [|apply Hreq2, Hu].
      intros l Hl. destruct (Hnext1 l Hl) as [Hnil|(v & Hv & Hlink)];
        [inversion Hnil|].
      exists v. split; [exact Hv|]. rewrite Hlog2. now apply links_to_later.
Qed.

Lemma crawl_recursive_within (start_urls : list string) (base_domain : string)
    (depth : Z) (st : Scraper.CrawlState) (urls : list string)
    (st' : Scraper.CrawlState) :
  crawl_recursive start_urls base_domain depth st = (urls, st') ->
  exists new,
    Scraper.fetch_log st' = Scraper.fetch_log st ++ new /\
    (max_depth < depth -> new = [] /\ urls = []) /\
    forall u, u ∈ map fst new ->
      within urlparse urljoin web (Scraper.fetch_log st') base_domain
             start_urls (Z.to_nat (max_depth - depth)) u.
Proof.
  unfold Scraper.crawl_recursive. destruct (max_depth <? depth) eqn:Hdepth.
  - intros [= <- <-]. exists []. rewrite app_nil_r.
    split; [reflexivity|]. split; [auto|intros u Hu; inversion Hu].
  - apply Z.ltb_ge in Hdepth. intros Hrun.
    apply crawl_levels_within in Hrun as (new & Hlog & Hreq).
    exists new. split; [exact Hlog|]. split; [lia|exact Hreq].
Qed.

(** The number of URLs a valid log fetches with success stays within the
    budget. *)
Lemma log_ok_count (v : gset string) (log : list (string * bool)) :
  log_ok max_pages v log ->
  Z.of_nat (size v) + Z.of_nat (length (successes log))
    <= Z.max (Z.of_nat (size v)) max_pages.
Proof.
  revert v. induction log as [|[u ok] rest IH]; intros v Hok.
  - unfold successes. simpl. lia.
  - cbn [log_ok] in Hok. destruct Hok as (Hfresh & Hlt & Hrest).
    specialize (IH _ Hrest). unfold successes in *. destruct ok; cbn in *.
    + rewrite size_union in IH by set_solver. rewrite size_singleton in IH. lia.
    + lia.
Qed.

End LinkFacts.

(** X4. Every link [extract_links] returns for a page is valid for the
    domain, is not in the visited set, is normalized (no fragment, no
    trailing slash: normalizing it again changes nothing) and is the
    normalized absolute URL of an anchor of the page; there are at most as
    many links as anchors. The call raises for a domain that is not in
    [BASE_URLS]. *)
Theorem extract_links_sound
    (urlparse : string -> option Scraper.ParseResult)
    (urljoin : string -> string -> option string)
    (visited : gset string) (soup : Soup)
    (current_url base_domain : string) (links : list string) :
  Scraper.extract_links urlparse urljoin visited soup current_url base_domain
    = Some links ->
  exists base_url,
    Scraper.BASE_URLS base_domain = Some base_url /\
    (length links <= length (anchors soup))%nat /\
    forall l, l ∈ links ->
      on_site urlparse base_domain l /\
      (l ∉ visited) /\
      Scraper.normalize l = l /\
      Py.rstrip_char "/" l = l /\
      exists href full_url,
        href ∈ anchors soup /\
        Scraper.absolute_url urljoin base_url current_url href = Some full_url /\
        l = Scraper.normalize full_url.
Proof.
  intros Hrun.
  apply extract_links_links in Hrun as (base_url & Hbase & Hall & Hlen).
  exists base_url. split; [exact Hbase|]. split; [exact Hlen|].
  intros l Hl. rewrite Forall_forall in Hall.
  destruct (Hall l Hl) as (Hvalid & Hfresh & Hn & Hs & Hhref).
  split; [now apply is_valid_url_on_site|]. auto.
Qed.

Lemma extract_links_sound_witness :
  Scraper.extract_links handbook_urlparse no_urljoin {[hiring_url]}
    (links_page ["https://handbook.gitlab.com/values/#top"; hiring_url;
                 "https://handbook.gitlab.com/login";
                 "https://about.gitlab.com/pricing"])
    handbook_url "handbook"
  = Some [values_url] /\
  on_site handbook_urlparse "handbook" values_url.
Proof.
  assert (Hrun : Scraper.extract_links handbook_urlparse no_urljoin
                   {[hiring_url]}
                   (links_page ["https://handbook.gitlab.com/values/#top";
                                hiring_url;
                                "https://handbook.gitlab.com/login";
                                "https://about.gitlab.com/pricing"])
                   handbook_url "handbook" = Some [values_url])
    by (vm_compute; reflexivity).
  split; [exact Hrun|].
  destruct (extract_links_sound _ _ _ _ _ _ _ Hrun) as (base & _ & _ & Hall).
  apply Hall. left.
Defined.

(** X5. A run of [find_all_pages] stays on the site: every URL it requests,
    and so every URL it returns, is the domain's base URL or a link that
    [is_valid_url] accepts for the domain (an [http] or [https] URL, free of
    the skip patterns in any letter case, that [urlparse] places on the
    domain's site) and that has no trailing slash. *)
Theorem crawl_stays_on_site
    (urlparse : string -> option Scraper.ParseResult)
    (urljoin : string -> string -> option string)
    (web : nat -> string -> option Soup) (max_depth max_pages : Z)
    (base_domain : string) (st : Scraper.CrawlState)
    (urls : list string) (st' : Scraper.CrawlState) :
  Scraper.find_all_pages urlparse urljoin web max_depth max_pages
    base_domain st = Some (urls, st') ->
  exists base_url new,
    Scraper.BASE_URLS base_domain = Some base_url /\
    Scraper.fetch_log st' = Scraper.fetch_log st ++ new /\
    (forall u, u ∈ map fst new \/ u ∈ urls ->
       u = base_url \/
       (on_site urlparse base_domain u /\ Py.rstrip_char "/" u = u)).
Proof.
  unfold Scraper.find_all_pages.
  destruct (Scraper.BASE_URLS base_domain) as [base_url|]; [|discriminate].
  intros [= Hrun]. exists base_url.
  pose proof (crawl_recursive_run _ _ _ _ _ _ _ _ _ _ _ Hrun)
    as (new' & Hlog' & _ & _ & Hurls).
  apply crawl_recursive_within in Hrun as (new & Hlog & _ & Hreq).
  cbn in Hlog, Hlog'. assert (new' = new) as ->
    by (rewrite Hlog in Hlog'; now apply app_inv_head in Hlog').
  exists new. split; [reflexivity|]. split; [exact Hlog|].
  assert (Hin : forall u, u ∈ map fst new ->
            u = base_url \/
            (on_site urlparse base_domain u /\ Py.rstrip_char "/" u = u)).
  { intros u Hu. apply Hreq, within_valid in Hu as [Hu|[Hvalid Hslash]].
    - left. now apply list_elem_of_singleton in Hu.
    - right. split; [now apply is_valid_url_on_site|exact Hslash]. }
  intros u [Hu|Hu]; [now apply Hin|]. apply Hin. subst urls.
  unfold successes in Hu. apply list_elem_of_fmap in Hu as (p & -> & Hp).
  apply list_elem_of_fmap. exists p. split; [reflexivity|].
  apply list_elem_of_In. apply list_elem_of_In, filter_In in Hp. tauto.
Qed.

Lemma crawl_stays_on_site_witness :
  exists st',
    Scraper.find_all_pages handbook_urlparse no_urljoin values_flaky_web 3 100
      "handbook" fresh_crawl
    = Some ([handbook_url; hiring_url; values_url], st') /\
    (values_url = handbook_url \/
     (on_site handbook_urlparse "handbook" values_url /\
      Py.rstrip_char "/" values_url = values_url)).
Proof.
  eexists. split; [vm_compute; reflexivity|].
  destruct (crawl_stays_on_site handbook_urlparse no_urljoin values_flaky_web
              3 100 "handbook" fresh_crawl _ _ eq_refl)
    as (base_url & new & Hbase & _ & Hall).
  injection Hbase as <-. apply Hall. right. right. right. left.
Defined.

(** X6. [max_depth] bounds how far the crawl goes: called at [depth], it
    requests only URLs that are at most [max_depth - depth] links away from
    its start URLs, following pages it fetched; at [depth = max_depth] it
    requests start URLs only, and beyond [max_depth] it requests nothing
    and returns the empty list. *)
Theorem crawl_depth_bound
    (urlparse : string -> option Scraper.ParseResult)
    (urljoin : string -> string -> option string)
    (web : nat -> string -> option Soup) (max_depth max_pages : Z)
    (start_urls : list string) (base_domain : string) (depth : Z)
    (st : Scraper.CrawlState) (urls : list string) (st' : Scraper.CrawlState) :
  Scraper.crawl_recursive urlparse urljoin web max_depth max_pages
    start_urls base_domain depth st = (urls, st') ->
  exists new,
    Scraper.fetch_log st' = Scraper.fetch_log st ++ new /\
    (forall u, u ∈ map fst new ->
       within urlparse urljoin web (Scraper.fetch_log st') base_domain
              start_urls (Z.to_nat (max_depth - depth)) u) /\
    (depth = max_depth -> forall u, u ∈ map fst new -> u ∈ start_urls) /\
    (max_depth < depth -> new = [] /\ urls = []).
Proof.
  intros Hrun.
  apply crawl_recursive_within in Hrun as (new & Hlog & Hdeep & Hreq).
  exists new. split; [exact Hlog|]. split; [exact Hreq|].
  split; [|exact Hdeep].
  intros -> u Hu. specialize (Hreq u Hu).
  replace (Z.to_nat (max_depth - max_depth)) with 0%nat in Hreq by lia.
  inversion Hreq. assumption.
Qed.

Lemma crawl_depth_bound_witness :
  exists st',
    Scraper.crawl_recursive handbook_urlparse no_urljoin chain_web 2 100
      [handbook_url] "handbook" 0 fresh_crawl
    = ([handbook_url; "https://handbook.gitlab.com/a";
        "https://handbook.gitlab.com/a/b"], st') /\
    Scraper.fetch_log st' =
      [(handbook_url, true); ("https://handbook.gitlab.com/a", true);
       ("https://handbook.gitlab.com/a/b", true)] /\
    within handbook_urlparse no_urljoin chain_web (Scraper.fetch_log st')
      "handbook" [handbook_url] 2 "https://handbook.gitlab.com/a/b".
Proof.
  eexists. split; [vm_compute; reflexivity|]. split; [reflexivity|].
  destruct (crawl_depth_bound handbook_urlparse no_urljoin chain_web 2 100
              [handbook_url] "handbook" 0 fresh_crawl _ _ eq_refl)
    as (new & Hlog & Hreq & _).
  apply Hreq. cbn in Hlog. subst new. cbn. right. right. left.
Defined.

(** X7. [find_all_pages] returns at most [max_pages] URLs (none when
    [max_pages] is not positive), and leaves the visited set holding
    exactly the URLs it returns: the set is reset at the start, so what was
    visited before the call makes no difference. *)
Theorem find_all_pages_budget
    (urlparse : string -> option Scraper.ParseResult)
    (urljoin : string -> string -> option string)
    (web : nat -> string -> option Soup) (max_depth max_pages : Z)
    (base_domain : string) (st : Scraper.CrawlState)
    (urls : list string) (st' : Scraper.CrawlState) :
  Scraper.find_all_pages urlparse urljoin web max_depth max_pages
    base_domain st = Some (urls, st') ->
  Z.of_nat (length urls) <= Z.max 0 max_pages /\
  Scraper.visited_urls st' = list_to_set urls /\
  forall visited,
    Scraper.find_all_pages urlparse urljoin web max_depth max_pages
      base_domain {| Scraper.visited_urls := visited;
                     Scraper.fetch_log := Scraper.fetch_log st |}
    = Some (urls, st').
Proof.
  unfold Scraper.find_all_pages.
  destruct (Scraper.BASE_URLS base_domain) as [base_url|]; [|discriminate].
  intros [= Hrun]. split; [|split].
  - apply crawl_recursive_run in Hrun as (new & _ & Hok & _ & ->).
    apply log_ok_count in Hok. cbn in Hok. rewrite size_empty in Hok. lia.
  - apply crawl_recursive_run in Hrun as (new & _ & _ & Hvis & ->).
    rewrite Hvis, visited_after_successes. cbn. set_solver.
  - intros visited. cbn. now rewrite Hrun.
Qed.

Lemma find_all_pages_budget_witness :
  exists st',
    Scraper.find_all_pages handbook_urlparse no_urljoin values_flaky_web 3 2
      "handbook" {| Scraper.visited_urls := {[handbook_url]};
                    Scraper.fetch_log := [] |}
    = Some ([handbook_url; hiring_url], st') /\
    Z.of_nat (length [handbook_url; hiring_url]) <= Z.max 0 2 /\
    Scraper.visited_urls st' = list_to_set [handbook_url; hiring_url].
Proof.
  eexists. split; [vm_compute; reflexivity|].
  destruct (find_all_pages_budget handbook_urlparse no_urljoin
              values_flaky_web 3 2 "handbook"
              {| Scraper.visited_urls := {[handbook_url]};
                 Scraper.fetch_log := [] |} _ _ eq_refl)
    as (Hlen & Hvis & _).
  split; [exact Hlen|exact Hvis].
Defined.

(* ===================================================================== *)
(** * Scraper: the chunks of a run *)
(* ===================================================================== *)

Section ScrapeFacts.

Variable urlparse : string -> option Scraper.ParseResult.
Variable urljoin : string -> string -> option string.
Variable web : nat -> string -> option Soup.
Variable max_depth max_pages : Z.
Variable decompose : Soup -> Soup.

Local Abbreviation scrape_page := (Scraper.scrape_page web decompose).
Local Abbreviation scrape_pages := (Scraper.scrape_pages web decompose).




End ScrapeFacts.


(** A run over the two-page handbook: four chunks, returned when the
    write succeeds; when the write raises, the same five requests have
    been made and nothing is returned. *)
Example scrape_all_example :
  let run dump_chunks :=
    Scraper.scrape_all
      (fun u => if String.prefix handbook_url u
                then handbook_urlparse u
                else Some {| Scraper.netloc := "about.gitlab.com";
                             Scraper.path := "/direction" |})
      no_urljoin values_site 3 100 (fun soup => soup) dump_chunks
      fresh_crawl in
  let requests :=
    [ (handbook_url, true); (values_url, true);
      (handbook_url, true); (values_url, true);
      ("https://about.gitlab.com/direction", false) ] in
  fst (run (fun _ => Some tt))
    = Some [ mkChunk handbook_url "Introduction" 0 62 values_intro;
             mkChunk handbook_url "Our six core values" 62 136 values_body;
             mkChunk values_url "Introduction" 0 62 values_intro;
             mkChunk values_url "Our six core values" 62 136 values_body ] /\
  Scraper.fetch_log (snd (run (fun _ => Some tt))) = requests /\
  fst (run (fun _ => None)) = None /\
  Scraper.fetch_log (snd (run (fun _ => None))) = requests.
Proof. repeat split; vm_compute; reflexivity. Qed.

(* ===================================================================== *)
(** * Index: what ingestion stores *)
(* ===================================================================== *)

Section ProvenanceFacts.

Import VectorStore.

Lemma split_pieces_provenance (overlap_chars : Z) (src title : string)
    (original_start original_end total : Z) (splits : list string) :
  forall i current_char,
    map page_content
        (split_pieces overlap_chars src title original_start original_end
           total i current_char splits) = splits /\
    Forall (fun d =>
              md_source_url (metadata d) = Some src /\
              md_section_title (metadata d) = Some title /\
              md_original_start (metadata d) = Some original_start /\
              md_original_end (metadata d) = Some original_end /\
              md_original_content (metadata d) = None)
           (split_pieces overlap_chars src title original_start original_end
              total i current_char splits).
Proof.
  induction splits as [|piece rest IH]; intros i cur; cbn [split_pieces map].
  - split; [reflexivity|constructor].
  - destruct (IH (i + 1) (cur + Py.len piece - overlap_chars)) as [Hmap Hall].
    split; [now rewrite Hmap|]. constructor; [cbn; auto|exact Hall].
Qed.

Lemma create_langchain_documents_cons (chunk : Chunk) (rest : list Chunk) :
  _create_langchain_documents (chunk :: rest) =
    mkDocument (content chunk)
      (mkMetadata (Some (source_url chunk)) (Some (section_title chunk))
         (Some (start_char chunk)) (Some (end_char chunk))
         (Some (content chunk)) None None None None)
    :: _create_langchain_documents rest.
Proof. reflexivity. Qed.

Lemma split_created_documents (ts : TextSplitter) (chunks : list Chunk) :
  exists docs,
    _split_with_metadata_preservation ts (_create_langchain_documents chunks)
      = Some docs /\
    map page_content docs
      = concat (map (fun c => split_text ts (content c)) chunks) /\
    Forall (fun d => exists c,
              c ∈ chunks /\
              page_content d ∈ split_text ts (content c) /\
              md_source_url (metadata d) = Some (source_url c) /\
              md_section_title (metadata d) = Some (section_title c) /\
              md_original_start (metadata d) = Some (start_char c) /\
              md_original_end (metadata d) = Some (end_char c) /\
              md_original_content (metadata d) = None)
           docs.
Proof.
  induction chunks as [|chunk rest (more & IH & Hmap & Hall)].
  - exists []. repeat split. constructor.
  - rewrite create_langchain_documents_cons.
    cbn [_split_with_metadata_preservation].
    erewrite split_document_pieces by apply created_document_is_section.
    rewrite IH. eexists. split; [reflexivity|].
    cbn [page_content map concat].
    destruct (split_pieces_provenance (_chunk_overlap ts) (source_url chunk)
                (section_title chunk) (start_char chunk) (end_char chunk)
                (Z.of_nat (length (split_text ts (content chunk)))) 
                (split_text ts (content chunk)) 0 (start_char chunk))
      as [Hpieces Hprov].
    split; [now rewrite map_app, Hpieces, Hmap|].
    apply Forall_app. split.
    + rewrite Forall_forall in Hprov |- *. intros d Hd.
      exists chunk. split; [left|].
      split; [|exact (Hprov d Hd)].
      rewrite <- Hpieces. apply list_elem_of_fmap. exists d. auto.
    + eapply Forall_impl; [exact Hall|]. intros d (c & Hc & Hd).
      exists c. split; [now right|exact Hd].
Qed.

End ProvenanceFacts.

(** X9. Token chunking of the corpus documents never raises, and keeps
    the provenance of every chunk: the texts of the chunks are the
    splitter's pieces, section by section and in order, and every chunk
    carries its section's URL and title and records the section's own
    [start_char] and [end_char] as [original_start] and [original_end]. The
    [original_content] key of the section's document is not carried
    over. *)
Theorem split_keeps_provenance (ts : TextSplitter) (chunks : list Chunk) :
  exists docs,
    VectorStore._split_with_metadata_preservation ts
      (VectorStore._create_langchain_documents chunks) = Some docs /\
    map page_content docs
      = concat (map (fun c => split_text ts (content c)) chunks) /\
    forall d, d ∈ docs ->
      exists c,
        c ∈ chunks /\
        page_content d ∈ split_text ts (content c) /\
        md_source_url (metadata d) = Some (source_url c) /\
        md_section_title (metadata d) = Some (section_title c) /\
        md_original_start (metadata d) = Some (start_char c) /\
        md_original_end (metadata d) = Some (end_char c) /\
        md_original_content (metadata d) = None.
Proof.
  destruct (split_created_documents ts chunks) as (docs & Hrun & Hmap & Hall).
  exists docs. split; [exact Hrun|]. split; [exact Hmap|].
  now apply Forall_forall.
Qed.

Section BatchFacts.

Import VectorStore.

Variable batch_size : nat.
Hypothesis batch_size_pos : (0 < batch_size)%nat.

Lemma batch_count_nil : ((0 + batch_size - 1) / batch_size = 0)%nat.
Proof. apply Nat.div_small. lia. Qed.

Lemma batch_count_step (len : nat) :
  (0 < len)%nat ->
  ((len + batch_size - 1) / batch_size
   = S ((len - batch_size + batch_size - 1) / batch_size))%nat.
Proof.
  intros Hlen. destruct (Nat.le_gt_cases len batch_size) as [Hle|Hgt].
  - replace (len - batch_size)%nat with 0%nat by lia.
    rewrite batch_count_nil. symmetry.
    apply Nat.div_unique with (r := (len - 1)%nat); lia.
  - replace (len + batch_size - 1)%nat
      with ((len - batch_size + batch_size - 1) + 1 * batch_size)%nat by lia.
    rewrite Nat.div_add by lia. lia.
Qed.

(** The batches, one after the other: the first [batch_size] documents,
    then the batches of the rest. *)
Lemma batches_unfold (documents : list Document) :
  batches batch_size documents =
    match documents with
    | [] => []
    | _ => take batch_size documents
           :: batches batch_size (drop batch_size documents)
    end.
Proof.
  unfold batches. destruct documents as [|doc rest].
  - cbn [length]. now rewrite batch_count_nil.
  - rewrite batch_count_step by (cbn; lia).
    rewrite length_drop. cbn [seq map]. f_equal.
    rewrite <- seq_shift, map_map. apply map_ext. intros k.
    rewrite drop_drop. reflexivity.
Qed.

Lemma batches_partition_upto (m : nat) :
  forall documents, (length documents <= m)%nat ->
    concat (batches batch_size documents) = documents /\
    Forall (fun b => (0 < length b <= batch_size)%nat)
           (batches batch_size documents) /\
    (forall i b, batches batch_size documents !! i = Some b ->
       (S i < length (batches batch_size documents))%nat ->
       length b = batch_size).
Proof.
  induction m as [|m IH]; intros documents Hlen; rewrite batches_unfold.
  - destruct documents; [|cbn in Hlen; lia].
    split; [reflexivity|]. split; [constructor|]. intros i b Hb. discriminate.
  - destruct documents as [|doc rest] eqn:Hdocs.
    { split; [reflexivity|]. split; [constructor|]. intros i b Hb. discriminate. }
    rewrite <- Hdocs in *.
    assert (Hfirst : (0 < length documents)%nat) by (subst; cbn; lia).
    destruct (IH (drop batch_size documents)) as (Hcat & Hsize & Hfull).
    { rewrite length_drop. lia. }
    split; [cbn [concat]; rewrite Hcat; apply take_drop|].
    split; [constructor; [rewrite length_take; lia|exact Hsize]|].
    intros [|i] b Hb Hlater; cbn in Hb, Hlater.
    + injection Hb as <-. rewrite length_take.
      destruct (Nat.le_gt_cases (length documents) batch_size) as [Hle|Hgt];
        [|lia].
      rewrite (drop_ge documents) in Hlater by lia.
      rewrite batches_unfold in Hlater. cbn in Hlater. lia.
    + apply (Hfull i b Hb). lia.
Qed.

End BatchFacts.

(** X10. The batches [add_chunks] hands to the index cut the documents
    without loss: put end to end they give back the documents in order,
    no batch is empty or longer than the batch size, every batch but the
    last is full, and their number is the document count divided by the
    batch size, rounded up. *)
Theorem batches_partition (batch_size : nat) (documents : list Document) :
  (0 < batch_size)%nat ->
  concat (VectorStore.batches batch_size documents) = documents /\
  Forall (fun b => (0 < length b <= batch_size)%nat)
         (VectorStore.batches batch_size documents) /\
  (forall i b, VectorStore.batches batch_size documents !! i = Some b ->
     (S i < length (VectorStore.batches batch_size documents))%nat ->
     length b = batch_size) /\
  length (VectorStore.batches batch_size documents)
    = ((length documents + batch_size - 1) / batch_size)%nat.
Proof.
  intros Hpos.
  destruct (batches_partition_upto batch_size Hpos (length documents)
              documents (Nat.le_refl _)) as (Hcat & Hsize & Hfull).
  repeat (split; [assumption|]).
  unfold VectorStore.batches. now rewrite length_map, length_seq.
Qed.

Lemma batches_partition_witness :
  map (map page_content)
      (VectorStore.batches 2
         (map team_document ["one"; "two"; "three"; "four"; "five"]))
    = [["one"; "two"]; ["three"; "four"]; ["five"]] /\
  concat (VectorStore.batches 2
            (map team_document ["one"; "two"; "three"; "four"; "five"]))
    = map team_document ["one"; "two"; "three"; "four"; "five"].
Proof.
  split; [vm_compute; reflexivity|].
  apply (batches_partition 2
           (map team_document ["one"; "two"; "three"; "four"; "five"])).
  lia.
Defined.

Section IngestFacts.

Import VectorStore.

Context {Store : Type} `{VectorIndex Store}.

(** The documents [add_chunks] hands to the index. *)
Lemma add_chunks_documents (text_splitter : TextSplitter)
    (chunks : list Chunk) (apply_token_chunking : bool) :
  exists documents,
    (if apply_token_chunking
     then _split_with_metadata_preservation text_splitter
            (_create_langchain_documents chunks)
     else Some (_create_langchain_documents chunks)) = Some documents /\
    map page_content documents =
      if apply_token_chunking
      then concat (map (fun c => split_text text_splitter (content c)) chunks)
      else map content chunks.
Proof.
  destruct apply_token_chunking.
  - destruct (split_created_documents text_splitter chunks)
      as (docs & Hrun & Hmap & _). eauto.
  - eexists. split; [reflexivity|].
    unfold _create_langchain_documents. rewrite map_map. reflexivity.
Qed.

Lemma add_chunks_unfold (text_splitter : TextSplitter) (chunks : list Chunk)
    (apply_token_chunking : bool) (store : Store) (documents : list Document) :
  chunks <> [] ->
  (if apply_token_chunking
   then _split_with_metadata_preservation text_splitter
          (_create_langchain_documents chunks)
   else Some (_create_langchain_documents chunks)) = Some documents ->
  add_chunks text_splitter chunks apply_token_chunking store =
    if 0 <? match count store with Some n => n | None => 0 end
    then (store, true)
    else match add_batches store (batches 100 documents) with
         | (store', false) => (store', false)
         | (store', true) =>
             match count store' with
             | Some final_count => (store', true)
             | None => (store', false)
             end
         end.
Proof.
  intros Hne Hdocs. unfold add_chunks.
  destruct chunks as [|chunk rest]; [contradiction|]. now rewrite Hdocs.
Qed.

(** The batch loop stops at the first batch the index refuses. *)
Lemma add_batches_stops (before after : list (list Document))
    (batch : list Document) :
  forall store store1 store2,
    add_batches store before = (store1, true) ->
    add_documents store1 batch = (store2, false) ->
    add_batches store (before ++ batch :: after) = (store2, false).
Proof.
  induction before as [|b rest IH]; intros store store1 store2 Hbefore Hfail;
    cbn [add_batches app] in *.
  - injection Hbefore as ->. now rewrite Hfail.
  - destruct (add_documents store b) as [s [|]]; [|discriminate].
    now apply (IH s store1).
Qed.

(** An index that already holds documents is left as it is. *)
Lemma add_chunks_skips_populated (text_splitter : TextSplitter)
    (chunks : list Chunk) (apply_token_chunking : bool) (store : Store)
    (n : Z) :
  count store = Some n -> 0 < n ->
  add_chunks text_splitter chunks apply_token_chunking store = (store, true).
Proof.
  intros Hcount Hpos. destruct chunks as [|chunk rest]; [reflexivity|].
  destruct (add_chunks_documents text_splitter (chunk :: rest)
              apply_token_chunking) as (documents & Hdocs & _).
  rewrite (add_chunks_unfold _ _ _ _ documents) by (discriminate || exact Hdocs).
  rewrite Hcount. now replace (0 <? n) with true by (symmetry; apply Z.ltb_lt; lia).
Qed.

Variable add : Store -> list Document -> Store.

Hypothesis add_documents_add :
  forall store batch, add_documents store batch = (add store batch, true).
Hypothesis add_nil : forall store, add store [] = store.
Hypothesis add_app :
  forall store b1 b2, add (add store b1) b2 = add store (b1 ++ b2).

Lemma add_batches_all (bs : list (list Document)) :
  forall store, add_batches store bs = (add store (concat bs), true).
Proof.
  induction bs as [|b rest IH]; intros store; cbn [add_batches concat].
  - now rewrite add_nil.
  - now rewrite add_documents_add, IH, add_app.
Qed.

End IngestFacts.

(** Into an empty index that accepts every batch, [add_chunks] adds the
    documents made from the chunks, in order. *)
Lemma add_chunks_accepting_index {Store : Type} `{VectorIndex Store}
    (add : Store -> list Document -> Store)
    (text_splitter : TextSplitter) (chunks : list Chunk)
    (apply_token_chunking : bool) (store : Store) :
  (forall store batch, add_documents store batch = (add store batch, true)) ->
  (forall store, add store [] = store) ->
  (forall store b1 b2, add (add store b1) b2 = add store (b1 ++ b2)) ->
  (forall store, is_Some (count store) -> forall docs,
     is_Some (count (add store docs))) ->
  count store = Some 0 ->
  exists documents,
    VectorStore.add_chunks text_splitter chunks apply_token_chunking store
      = (add store documents, true) /\
    map page_content documents =
      if apply_token_chunking
      then concat (map (fun c => split_text text_splitter (content c)) chunks)
      else map content chunks.
Proof.
  intros Hadd Hnil Happ Hcount Hempty.
  destruct (add_chunks_documents text_splitter chunks apply_token_chunking)
    as (documents & Hdocs & Htexts).
  exists documents. split; [|exact Htexts].
  destruct chunks as [|chunk rest].
  { assert (documents = []) as ->
      by (destruct apply_token_chunking; now injection Hdocs as <-).
    now rewrite Hnil. }
  rewrite (add_chunks_unfold _ _ _ _ documents) by (discriminate || exact Hdocs).
  rewrite Hempty. cbn [Z.ltb Z.compare].
  rewrite (add_batches_all add Hadd Hnil Happ).
  destruct (batches_partition_upto 100 ltac:(lia) (length documents)
              documents (Nat.le_refl _)) as (-> & _).
  destruct (Hcount store ltac:(now rewrite Hempty) documents) as [n ->].
  reflexivity.
Qed.

(** X11. Ingestion into an empty index loses nothing to the batching: when
    the index reports no document and accepts every batch (its count
    staying readable), [add_chunks] leaves it holding exactly the documents made
    from the chunks, added in order, and returns normally; with token
    chunking their texts are the splitter's pieces section by section,
    without it the sections' contents. An empty chunk list changes
    nothing. *)
Theorem add_chunks_fills_empty_index {Store : Type} `{VectorIndex Store}
    (add : Store -> list Document -> Store)
    (text_splitter : TextSplitter) (chunks : list Chunk)
    (apply_token_chunking : bool) (store : Store) :
  (forall store batch, add_documents store batch = (add store batch, true)) ->
  (forall store, add store [] = store) ->
  (forall store b1 b2, add (add store b1) b2 = add store (b1 ++ b2)) ->
  (forall store, is_Some (count store) -> forall docs,
     is_Some (count (add store docs))) ->
  count store = Some 0 ->
  exists documents,
    VectorStore.add_chunks text_splitter chunks apply_token_chunking store
      = (add store documents, true) /\
    map page_content documents =
      if apply_token_chunking
      then concat (map (fun c => split_text text_splitter (content c)) chunks)
      else map content chunks.
Proof.
  intros Hadd Hnil Happ Hcount Hempty.
  now apply add_chunks_accepting_index.
Qed.

Lemma add_chunks_fills_empty_index_witness :
  VectorStore.add_chunks whole_splitter
    [remote_work; mkChunk "https://handbook.gitlab.com/values" "Values" 0 62
                          values_intro]
    true (mkListIndex [] [])
  = (mkListIndex
       [ remote_document;
         mkDocument values_intro
           (mkMetadata (Some "https://handbook.gitlab.com/values")
              (Some "Values") (Some 0) (Some 62) None (Some 0) (Some 1)
              (Some 0) (Some 62)) ]
       [ "GitLab is an all-remote company."; values_intro ], true).
Proof.
  destruct (add_chunks_fills_empty_index
              (fun store docs =>
                 mkListIndex (stored store ++ docs)
                             (embedded store ++ map page_content docs))
              whole_splitter
              [remote_work;
               mkChunk "https://handbook.gitlab.com/values" "Values" 0 62
                       values_intro]
              true (mkListIndex [] []))
    as (documents & Hrun & _).
  - reflexivity.
  - intros [s e]. cbn. now rewrite !app_nil_r.
  - intros [s e] b1 b2. cbn. now rewrite map_app, !app_assoc.
  - intros store _ docs. eexists. reflexivity.
  - reflexivity.
  - vm_compute. reflexivity.
Defined.

(** X12. A batch the index refuses aborts the ingestion: [add_chunks]
    raises and leaves the index as the refused call left it, after the
    batches before it were added; no later batch is handed to the index.
    If the index then holds at least one document, calling [add_chunks]
    again returns at once and adds nothing, so the rest of the corpus is
    never ingested. *)
Theorem add_chunks_stops_at_refused_batch {Store : Type} `{VectorIndex Store}
    (text_splitter : TextSplitter) (chunks : list Chunk)
    (apply_token_chunking : bool) (store store1 store2 : Store)
    (documents : list Document) (before after : list (list Document))
    (batch : list Document) :
  count store = Some 0 ->
  (if apply_token_chunking
   then VectorStore._split_with_metadata_preservation text_splitter
          (VectorStore._create_langchain_documents chunks)
   else Some (VectorStore._create_langchain_documents chunks))
    = Some documents ->
  VectorStore.batches 100 documents = before ++ batch :: after ->
  VectorStore.add_batches store before = (store1, true) ->
  add_documents store1 batch = (store2, false) ->
  VectorStore.add_chunks text_splitter chunks apply_token_chunking store
    = (store2, false) /\
  (forall n, count store2 = Some n -> 0 < n ->
     VectorStore.add_chunks text_splitter chunks apply_token_chunking store2
       = (store2, true)).
Proof.
  intros Hempty Hdocs Hbatches Hbefore Hrefused. split.
  - assert (Hne : chunks <> []).
    { intros ->. assert (documents = []) as ->
        by (destruct apply_token_chunking; now injection Hdocs as <-).
      destruct before; discriminate Hbatches. }
    rewrite (add_chunks_unfold _ _ _ _ documents Hne Hdocs).
    rewrite Hempty. cbn [Z.ltb Z.compare].
    now rewrite Hbatches, (add_batches_stops _ _ _ _ _ _ Hbefore Hrefused).
  - intros n Hcount Hpos. now apply add_chunks_skips_populated with (n := n).
Qed.

Lemma add_chunks_stops_at_refused_batch_witness :
  exists store2,
    VectorStore.add_chunks whole_splitter remote_corpus true
      (mkQuotaIndex 150 []) = (store2, false) /\
    length (held store2) = 100%nat /\
    VectorStore.add_chunks whole_splitter remote_corpus true store2
      = (store2, true).
Proof.
  exists (mkQuotaIndex 150 (repeat remote_document 100)).
  destruct (add_chunks_stops_at_refused_batch whole_splitter remote_corpus
              true (mkQuotaIndex 150 [])
              (mkQuotaIndex 150 (repeat remote_document 100))
              (mkQuotaIndex 150 (repeat remote_document 100))
              (repeat remote_document 250)
              [repeat remote_document 100]
              [repeat remote_document 50]
              (repeat remote_document 100))
    as [Hrun Hagain]; try (vm_compute; reflexivity).
  split; [exact Hrun|]. split; [vm_compute; reflexivity|].
  apply (Hagain 100); [vm_compute; reflexivity|lia].
Defined.

(* ===================================================================== *)
(** * Index: search *)
(* ===================================================================== *)

Section SearchFacts.

Context {Store : Type} `{VectorIndex Store}.

Lemma search_empty (store : Store) (query : string) (n_results : Z) :
  VectorStore.get_stats store = 0 ->
  VectorStore.search store query n_results = Ok [].
Proof.
  unfold VectorStore.get_stats, VectorStore.search. intros ->. reflexivity.
Qed.

Lemma search_populated (store : Store) (query : string) (n_results : Z) :
  VectorStore.get_stats store <> 0 ->
  VectorStore.search store query n_results =
    match similarity_search_with_score store query n_results with
    | Raise e => Raise e
    | Ok results =>
        Ok (map (fun p =>
                   {| sr_content := page_content (fst p);
                      sr_source_url :=
                        default EmptyString (md_source_url (metadata (fst p)));
                      sr_section_title :=
                        default EmptyString (md_section_title (metadata (fst p)));
                      sr_start_char := default 0 (md_start_char (metadata (fst p)));
                      sr_end_char := default 0 (md_end_char (metadata (fst p)));
                      sr_distance := Some (snd p) |})
                results)
    end.
Proof.
  unfold VectorStore.get_stats, VectorStore.search. intros Hne.
  replace (_ =? 0) with false by (symmetry; apply Z.eqb_neq; exact Hne).
  destruct (similarity_search_with_score store query n_results) as [results|e];
    [|reflexivity].
  f_equal. apply map_ext. intros [doc score]. reflexivity.
Qed.

End SearchFacts.

(** X13. [search] on an index that [get_stats] reports as holding no chunk
    (a count of 0, or a count that cannot be read) returns the empty list
    without querying the index, even when a query would raise. Otherwise an
    error of the index escapes [search], and the matches the index returns
    come back one for one in the index's order: each result carries the
    text of its document, the index's score as its distance (so every
    result has a distance), and the document's metadata with [''] and [0]
    for missing keys. *)
Theorem search_results_of_index {Store : Type} `{VectorIndex Store}
    (store : Store) (query : string) (n_results : Z) :
  (VectorStore.get_stats store = 0 ->
   VectorStore.search store query n_results = Ok []) /\
  (VectorStore.get_stats store <> 0 ->
   (forall e, similarity_search_with_score store query n_results = Raise e ->
      VectorStore.search store query n_results = Raise e) /\
   (forall matches,
      similarity_search_with_score store query n_results = Ok matches ->
      exists results,
        VectorStore.search store query n_results = Ok results /\
        length results = length matches /\
        Forall (fun r => is_Some (sr_distance r)) results /\
        forall i doc score, matches !! i = Some (doc, score) ->
          exists r,
            results !! i = Some r /\
            sr_content r = page_content doc /\
            sr_distance r = Some score /\
            sr_source_url r = default EmptyString (md_source_url (metadata doc)) /\
            sr_section_title r
              = default EmptyString (md_section_title (metadata doc)) /\
            sr_start_char r = default 0 (md_start_char (metadata doc)) /\
            sr_end_char r = default 0 (md_end_char (metadata doc)))).
Proof.
  split; [apply search_empty|]. intros Hne.
  rewrite (search_populated store query n_results Hne). split.
  - intros e ->. reflexivity.
  - intros matches ->. eexists. split; [reflexivity|].
    split; [apply length_map|]. split.
    + apply Forall_forall. intros r Hr.
      apply list_elem_of_fmap in Hr as (p & -> & _). eexists. reflexivity.
    + intros i doc score Hi. eexists. rewrite list_lookup_fmap, Hi.
      split; [reflexivity|]. cbn. auto 10.
Qed.

Example search_examples :
  VectorStore.search (mkDownIndex (Some 0)) "remote work" 5 = Ok [] /\
  VectorStore.search (mkDownIndex None) "remote work" 5 = Ok [] /\
  VectorStore.search (mkDownIndex (Some 3)) "remote work" 5
    = Raise "index unavailable" /\
  VectorStore.search populated_index "remote work" 5 = Ok [match_at 0.25].
Proof. repeat split; vm_compute; reflexivity. Qed.

(* ===================================================================== *)
(** * Answer composer: the context preview *)
(* ===================================================================== *)

Section PreviewFacts.

Lemma length_append (a b : string) :
  String.length (a +:+ b) = (String.length a + String.length b)%nat.
Proof.
  induction a as [|c a IH]; [reflexivity|].
  rewrite append_cons. cbn [String.length]. now rewrite IH.
Qed.

Lemma substring_prefix (n : nat) (s : string) :
  String.length (String.substring 0 n s) = Nat.min n (String.length s) /\
  String.prefix (String.substring 0 n s) s = true.
Proof.
  revert n. induction s as [|c s IH]; intros [|n]; cbn; try (split; reflexivity).
  destruct (IH n) as [Hlen Hpre]. rewrite Hlen.
  split; [reflexivity|]. destruct (ascii_dec c c); [exact Hpre|contradiction].
Qed.

Lemma preview_text_spec (content : string) :
  Py.len (Chatbot.preview_text content) <= 203 /\
  (Py.len content <= 200 -> Chatbot.preview_text content = content) /\
  (200 < Py.len content ->
   exists first,
     Chatbot.preview_text content = first +:+ "..." /\
     Py.len first = 200 /\
     String.prefix first content = true).
Proof.
  unfold Chatbot.preview_text, Py.len.
  destruct (substring_prefix 200 content) as [Hlen Hpre].
  destruct (200 <? _) eqn:Hlong;
    [apply Z.ltb_lt in Hlong|apply Z.ltb_ge in Hlong].
  - split; [rewrite length_append, Hlen; cbn [String.length]; lia|].
    split; [lia|]. intros _. eexists. split; [reflexivity|].
    split; [rewrite Hlen; lia|exact Hpre].
  - split; [lia|]. split; [reflexivity|lia].
Qed.

End PreviewFacts.

(** X14. [get_context_preview] returns one entry per search result, in
    order, with the result's URL and section title; a preview is never
    longer than 203 characters: a content of at most 200 characters is shown
    whole, a longer one as its first 200 characters followed by three
    dots. An error of the search escapes. *)
Theorem context_preview_truncates {Store : Type} `{VectorIndex Store}
    (store : Store) (query : string) (max_chunks : Z) :
  match VectorStore.search store query max_chunks with
  | Raise e => Chatbot.get_context_preview store query max_chunks = Raise e
  | Ok results =>
      exists previews,
        Chatbot.get_context_preview store query max_chunks = Ok previews /\
        length previews = length results /\
        forall i r, results !! i = Some r ->
          exists p,
            previews !! i = Some p /\
            Chatbot.cp_url p = sr_source_url r /\
            Chatbot.cp_section_title p = sr_section_title r /\
            Py.len (Chatbot.preview p) <= 203 /\
            (Py.len (sr_content r) <= 200 ->
             Chatbot.preview p = sr_content r) /\
            (200 < Py.len (sr_content r) ->
             exists first,
               Chatbot.preview p = first +:+ "..." /\
               Py.len first = 200 /\
               String.prefix first (sr_content r) = true)
  end.
Proof.
  unfold Chatbot.get_context_preview.
  destruct (VectorStore.search store query max_chunks) as [results|e];
    [|reflexivity].
  eexists. split; [reflexivity|]. split; [apply length_map|].
  intros i r Hi. eexists. rewrite list_lookup_fmap, Hi.
  split; [reflexivity|]. cbn. split; [reflexivity|]. split; [reflexivity|].
  apply preview_text_spec.
Qed.

Example context_preview_examples :
  Py.len long_content = 230 /\
  Chatbot.get_context_preview
    (mkListIndex [team_document long_content; remote_document] [])
    "decisions" 3
  = Ok [ Chatbot.mkContextPreview "TeamOps"
           "https://handbook.gitlab.com/teamops"
           (String.substring 0 200 long_content +:+ "...");
         Chatbot.mkContextPreview "Remote Work"
           "https://handbook.gitlab.com/remote"
           "GitLab is an all-remote company." ].
Proof. split; vm_compute; reflexivity. Qed.

(* ===================================================================== *)
(** * Answer composer: the guardrail *)
(* ===================================================================== *)

Section GuardrailFacts.

Lemma contains_inv (p s : string) :
  Py.contains p s = true -> exists a b, s = a +:+ p +:+ b.
Proof.
  induction s as [|c s IH]; cbn [Py.contains]; intros Hc.
  - rewrite orb_false_r in Hc. apply prefix_inv in Hc as [t ->].
    exists EmptyString, t. reflexivity.
  - apply orb_true_iff in Hc as [Hc|Hc].
    + apply prefix_inv in Hc as [t ->]. exists EmptyString, t. reflexivity.
    + destruct (IH Hc) as (a & b & ->). exists (String c a), b. reflexivity.
Qed.

Lemma lower_split (x y : string) :
  forall s, Py.lower s = x +:+ y ->
    exists s1 s2, s = s1 +:+ s2 /\ Py.lower s1 = x /\ Py.lower s2 = y.
Proof.
  induction x as [|c x IH]; intros s Hs.
  - exists EmptyString, s. repeat split. exact Hs.
  - destruct s as [|c0 s]; [discriminate|].
    rewrite append_cons in Hs. cbn [Py.lower] in Hs. injection Hs as Hc Hs.
    destruct (IH s Hs) as (s1 & s2 & -> & H1 & H2).
    exists (String c0 s1), s2. rewrite append_cons. cbn [Py.lower].
    now rewrite Hc, H1.
Qed.

(** A query holds a keyword exactly when some stretch of it, lower-cased,
    is the keyword. *)
Lemma contains_lower_iff (keyword query : string) :
  Py.contains keyword (Py.lower query) = true <->
  exists before word after,
    query = before +:+ word +:+ after /\ Py.lower word = keyword.
Proof.
  split.
  - intros Hc. apply contains_inv in Hc as (a & b & Hq).
    apply lower_split in Hq as (before & rest & -> & _ & Hrest).
    apply lower_split in Hrest as (word & after & -> & Hword & _).
    exists before, word, after. auto.
  - intros (before & word & after & -> & <-).
    rewrite !lower_append. apply contains_infix.
Qed.

Lemma check_query_blocked (query : string) :
  fst (Chatbot.check_query_appropriateness query) = false <->
  exists keyword, keyword ∈ Chatbot.inappropriate_keywords /\
                  Py.contains keyword (Py.lower query) = true.
Proof.
  unfold Chatbot.check_query_appropriateness.
  destruct (List.find _ _) as [keyword|] eqn:Hfind; cbn [fst]; split.
  - intros _. apply find_some in Hfind as [Hin Hc].
    exists keyword. split; [now apply list_elem_of_In|exact Hc].
  - reflexivity.
  - discriminate.
  - intros (keyword & Hin & Hc). apply list_elem_of_In in Hin.
    now rewrite (find_none _ _ Hfind keyword Hin) in Hc.
Qed.

End GuardrailFacts.

(** X15. The guardrail refuses a query exactly when some stretch of it is
    one of the seven keywords in any letter case: inside a longer word as
    well as on its own. A refused query gets the fixed answer naming a
    keyword it holds, with no sources, confidence low and
    [guardrail_triggered] set, whatever the index, the retriever and the
    model would do, and the history stays as it was; a query that passes
    never gets an answer with [guardrail_triggered] set. *)
Theorem guardrail_refuses_keywords {Store : Type} `{VectorIndex Store}
    (retriever_invoke : Store -> string -> Result (list Document))
    (prompt_format : string -> string -> string -> string)
    (llm_invoke : string -> Result string)
    (float_sum : list float -> float)
    (store : Store) (query : string) (include_history : bool)
    (max_context_chunks : Z) (additional_context : option string)
    (history : list Message) :
  let out := Chatbot.generate_response retriever_invoke prompt_format
               llm_invoke float_sum store query include_history
               max_context_chunks additional_context history in
  let refused := fst (Chatbot.check_query_appropriateness query) = false in
  (refused <->
   exists before word after,
     query = before +:+ word +:+ after /\
     Py.lower word ∈ Chatbot.inappropriate_keywords) /\
  (refused ->
   exists keyword,
     keyword ∈ Chatbot.inappropriate_keywords /\
     Py.contains keyword (Py.lower query) = true /\
     out = (Ok {| response :=
                    "I can only help with questions about GitLab's public Handbook and Direction pages. I cannot assist with "
                    +:+ keyword +:+ ".";
                  sources := [];
                  confidence := low;
                  context_used := false;
                  guardrail_triggered := Some true;
                  error := None |},
            history)) /\
  (~ refused ->
   forall answer, fst out = Ok answer ->
     guardrail_triggered answer <> Some true).
Proof.
  intros out refused. subst refused. split; [|split].
  - rewrite check_query_blocked. split.
    + intros (keyword & Hin & Hc).
      apply contains_lower_iff in Hc as (before & word & after & -> & <-).
      exists before, word, after. auto.
    + intros (before & word & after & -> & Hin).
      exists (Py.lower word). split; [exact Hin|].
      apply contains_lower_iff. exists before, word, after. auto.
  - subst out. unfold Chatbot.generate_response, Chatbot.check_query_appropriateness.
    destruct (List.find _ _) as [keyword|] eqn:Hfind; [|discriminate].
    intros _. apply find_some in Hfind as [Hin Hc].
    exists keyword. split; [now apply list_elem_of_In|]. split; [exact Hc|].
    reflexivity.
  - intros Hpass answer Hout.
    pose proof (generate_response_paths retriever_invoke prompt_format
                  llm_invoke float_sum store query include_history
                  max_context_chunks additional_context history) as Hpaths.
    cbv zeta in Hpaths. fold out in Hpaths. rewrite Hout in Hpaths.
    destruct Hpaths as [(Hcheck & _)
                       |[(_ & _ & e & _ & [=])
                       |[(_ & _ & a & e & [= <-] & _ & Hg & _)
                        |(_ & results & a & _ & Hcompose & [= <-])]]].
    + contradiction.
    + rewrite Hg. discriminate.
    + apply compose_success in Hcompose
        as (_ & _ & _ & _ & _ & _ & _ & _ & Hg & _).
      rewrite Hg. discriminate.
Qed.

Example guardrail_examples :
  fst (Chatbot.check_query_appropriateness "How do I join the Hackathon?")
    = false /\
  snd (Chatbot.check_query_appropriateness
         "Is the CONFIDENTIAL label a way to bypass review?")
    = Some "I can only help with questions about GitLab's public Handbook and Direction pages. I cannot assist with bypass." /\
  Chatbot.check_query_appropriateness "How does GitLab work remotely?"
    = (true, None).
Proof. repeat split; vm_compute; reflexivity. Qed.

(* ===================================================================== *)
(** * Answer composer: failures *)
(* ===================================================================== *)

(** X16. The only exception that escapes [generate_response] is one raised
    by [search], for a query that passed the guardrail. When the retriever
    or the model raises, the call returns the error answer instead: the
    fixed apology holding the error text, no sources, confidence low,
    [context_used] False even when the search found matches, the error
    under ['error'], no ['guardrail_triggered'] key; an answer carries an
    ['error'] only in that case. *)
Theorem generate_response_failures {Store : Type} `{VectorIndex Store}
    (retriever_invoke : Store -> string -> Result (list Document))
    (prompt_format : string -> string -> string -> string)
    (llm_invoke : string -> Result string)
    (float_sum : list float -> float)
    (store : Store) (query : string) (include_history : bool)
    (max_context_chunks : Z) (additional_context : option string)
    (history : list Message) :
  let out := Chatbot.generate_response retriever_invoke prompt_format
               llm_invoke float_sum store query include_history
               max_context_chunks additional_context history in
  (forall e, fst out = Raise e <->
     fst (Chatbot.check_query_appropriateness query) = true /\
     VectorStore.search store query max_context_chunks = Raise e) /\
  (forall answer e, fst out = Ok answer -> error answer = Some e ->
     answer = error_answer e /\
     (retriever_invoke store query = Raise e \/
      exists prompt, llm_invoke prompt = Raise e)) /\
  (forall e search_results,
     fst (Chatbot.check_query_appropriateness query) = true ->
     VectorStore.search store query max_context_chunks = Ok search_results ->
     retriever_invoke store query = Raise e ->
     out = (Ok (error_answer e), history)) /\
  (forall e search_results source_documents,
     fst (Chatbot.check_query_appropriateness query) = true ->
     VectorStore.search store query max_context_chunks = Ok search_results ->
     retriever_invoke store query = Ok source_documents ->
     (forall prompt, llm_invoke prompt = Raise e) ->
     out = (Ok (error_answer e), history)).
Proof.
  intros out. subst out. unfold Chatbot.generate_response.
  destruct (Chatbot.check_query_appropriateness query) as [[|] msg];
    cbn [fst].
  - destruct (VectorStore.search store query max_context_chunks)
      as [results|e0].
    + destruct (Chatbot.compose _ _ _ _ _ _ _ _ _ _ _) as [[answer h']|e0]
        eqn:Hcompose; cbn [fst].
      * pose proof (compose_success _ _ _ _ _ _ _ _ _ _ _ _ _ Hcompose)
          as (docs & prompt & raw & Hdocs & Hllm & _ & _ & _ & _ & Herr & _).
        split; [|split; [|split]].
        -- intros e. split; [discriminate|intros [_ [=]]].
        -- intros a e [= <-] He. congruence.
        -- intros e rs _ _ Hfail. congruence.
        -- intros e rs ds _ _ Hds Hfail. rewrite Hfail in Hllm. discriminate.
      * assert (Hwhy : retriever_invoke store query = Raise e0 \/
                       exists prompt, llm_invoke prompt = Raise e0).
        { unfold Chatbot.compose in Hcompose.
          destruct (retriever_invoke store query) as [docs|e'];
            [|injection Hcompose as ->; now left].
          right.
          match type of Hcompose with context [llm_invoke ?p] =>
            exists p; destruct (llm_invoke p) as [raw|e'];
            [discriminate|now injection Hcompose as ->]
          end. }
        split; [|split; [|split]].
        -- intros e. split; [discriminate|intros [_ [=]]].
        -- intros a e [= <-] He. cbn in He. injection He as <-.
           split; [reflexivity|exact Hwhy].
        -- intros e rs _ _ Hfail. unfold Chatbot.compose in Hcompose.
           rewrite Hfail in Hcompose. now injection Hcompose as ->.
        -- intros e rs ds _ _ Hds Hfail. unfold Chatbot.compose in Hcompose.
           rewrite Hds, Hfail in Hcompose. now injection Hcompose as ->.
    + cbn [fst]. split; [|split; [|split]].
      * intros e. split; [intros [= ->]; auto|intros [_ [= ->]]; reflexivity].
      * intros a e [=].
      * intros e rs _ [=].
      * intros e rs ds _ [=].
  - split; [|split; [|split]].
    + intros e. split; [discriminate|intros [[=] _]].
    + intros a e [= <-] [=].
    + intros e rs [=].
    + intros e rs ds [=].
Qed.

Example generate_response_failure_examples :
  Chatbot.generate_response failing_retriever plain_prompt citing_model
    plain_sum populated_index "How does GitLab work remotely?" true 5 None []
  = (Ok (error_answer "retriever timeout"), []) /\
  fst (Chatbot.generate_response
         (fun (store : DownIndex) query => Ok []) plain_prompt citing_model
         plain_sum (mkDownIndex (Some 3)) "How does GitLab work remotely?"
         true 5 None [])
  = Raise "index unavailable".
Proof. split; vm_compute; reflexivity. Qed.

(* ===================================================================== *)
(** * Answer composer: the history the prompt sees *)
(* ===================================================================== *)

Section HistoryFacts.

Lemma last4_recent (older recent : list Message) :
  length recent = 4%nat -> Chatbot.last4 (older ++ recent) = recent.
Proof.
  intros Hlen. unfold Chatbot.last4. rewrite length_app, Hlen.
  replace (length older + 4 - 4)%nat with (length older) by lia.
  apply drop_app_length.
Qed.

Lemma last4_short (history : list Message) :
  (length history <= 4)%nat -> Chatbot.last4 history = history.
Proof.
  intros Hlen. unfold Chatbot.last4.
  now replace (length history - 4)%nat with 0%nat by lia.
Qed.

Lemma chat_history_str_recent (include_history : bool)
    (older recent : list Message) :
  length recent = 4%nat ->
  Chatbot.chat_history_str include_history (older ++ recent)
  = Chatbot.chat_history_str include_history recent.
Proof.
  intros Hlen. unfold Chatbot.chat_history_str.
  destruct include_history; [|reflexivity].
  rewrite (last4_recent older recent Hlen), last4_short by lia. reflexivity.
Qed.

Context {Store : Type} `{VectorIndex Store}.
Variable retriever_invoke : Store -> string -> Result (list Document).
Variable prompt_format : string -> string -> string -> string.
Variable llm_invoke : string -> Result string.
Variable float_sum : list float -> float.

Local Abbreviation generate_response :=
  (Chatbot.generate_response retriever_invoke prompt_format llm_invoke float_sum).

(** The answer depends on the history only through the chat history string
    of the prompt. *)
Lemma generate_response_history (store : Store) (query : string)
    (include_history : bool) (max_context_chunks : Z)
    (additional_context : option string) (h1 h2 : list Message) :
  Chatbot.chat_history_str include_history h1
  = Chatbot.chat_history_str include_history h2 ->
  fst (generate_response store query include_history max_context_chunks
         additional_context h1)
  = fst (generate_response store query include_history max_context_chunks
           additional_context h2).
Proof.
  intros Hstr. unfold Chatbot.generate_response.
  destruct (Chatbot.check_query_appropriateness query) as [[|] msg];
    [|reflexivity].
  destruct (VectorStore.search store query max_context_chunks) as [results|e];
    [|reflexivity].
  unfold Chatbot.compose.
  destruct (retriever_invoke store query) as [docs|e]; [|reflexivity].
  rewrite Hstr.
  match goal with |- context [llm_invoke ?p] =>
    destruct (llm_invoke p) as [raw|e]; reflexivity
  end.
Qed.

End HistoryFacts.

(** X17. The prompt sees at most the last four messages of the
    conversation: when a history ends in four messages [recent], whatever
    came before them changes neither the chat history string nor the
    answer [generate_response] returns; and with [include_history] off the
    answer is the same for any two histories, so it does not depend on the
    history at all. *)
Theorem prompt_sees_last_four_messages {Store : Type} `{VectorIndex Store}
    (retriever_invoke : Store -> string -> Result (list Document))
    (prompt_format : string -> string -> string -> string)
    (llm_invoke : string -> Result string)
    (float_sum : list float -> float)
    (store : Store) (query : string) (include_history : bool)
    (max_context_chunks : Z) (additional_context : option string) :
  (forall older recent : list Message,
     length recent = 4%nat ->
     Chatbot.chat_history_str true (older ++ recent)
       = Chatbot.chat_history_str true recent /\
     fst (Chatbot.generate_response retriever_invoke prompt_format llm_invoke
            float_sum store query include_history max_context_chunks
            additional_context (older ++ recent))
     = fst (Chatbot.generate_response retriever_invoke prompt_format
              llm_invoke float_sum store query include_history
              max_context_chunks additional_context recent)) /\
  (forall history history' : list Message,
     fst (Chatbot.generate_response retriever_invoke prompt_format llm_invoke
            float_sum store query false max_context_chunks
            additional_context history)
     = fst (Chatbot.generate_response retriever_invoke prompt_format
              llm_invoke float_sum store query false max_context_chunks
              additional_context history')).
Proof.
  split.
  - intros older recent Hlen. split; [now apply chat_history_str_recent|].
    apply generate_response_history. now apply chat_history_str_recent.
  - intros history history'. now apply generate_response_history.
Qed.

Lemma prompt_sees_last_four_messages_witness :
  Chatbot.chat_history_str true
    [ mkMessage "user" "Hello"; mkMessage "assistant" "Hi";
      mkMessage "user" "What is TeamOps?"; mkMessage "assistant" "A practice.";
      mkMessage "user" "Who owns it?"; mkMessage "system" "The people group." ]
  = "User: What is TeamOps?" +:+ Chatbot.NL
    +:+ "Assistant: A practice." +:+ Chatbot.NL
    +:+ "User: Who owns it?" +:+ Chatbot.NL
    +:+ "Assistant: The people group." +:+ Chatbot.NL /\
  fst (Chatbot.generate_response list_retriever plain_prompt citing_model
         plain_sum populated_index "What is TeamOps?" false 5 None
         [ mkMessage "user" "Hello" ])
  = fst (Chatbot.generate_response list_retriever plain_prompt citing_model
           plain_sum populated_index "What is TeamOps?" false 5 None []).
Proof.
  destruct (prompt_sees_last_four_messages list_retriever plain_prompt
              citing_model plain_sum populated_index "What is TeamOps?" true
              5 None) as [Hrecent Hoff].
  split.
  - etransitivity.
    + exact (proj1 (Hrecent
                      [ mkMessage "user" "Hello"; mkMessage "assistant" "Hi" ]
                      [ mkMessage "user" "What is TeamOps?";
                        mkMessage "assistant" "A practice.";
                        mkMessage "user" "Who owns it?";
                        mkMessage "system" "The people group." ]
                      eq_refl)).
    + vm_compute. reflexivity.
  - apply Hoff.
Defined.

(* ===================================================================== *)
(** * Answer composer: relevance scores *)
(* ===================================================================== *)

Section RelevanceFacts.

Lemma doc_candidate (docs : list Document) (s : Source) :
  s ∈ List.filter has_url (map doc_source docs) <->
  exists doc, doc ∈ docs /\ s = doc_source doc /\ url s <> EmptyString.
Proof.
  rewrite list_elem_of_In, filter_In, in_map_iff. unfold has_url. split.
  - intros [(doc & <- & Hdoc) Hurl]. exists doc.
    split; [now apply list_elem_of_In|]. split; [reflexivity|].
    apply negb_true_iff in Hurl. now apply String.eqb_neq.
  - intros (doc & Hdoc & -> & Hurl). split.
    + exists doc. split; [reflexivity|now apply list_elem_of_In].
    + apply negb_true_iff. now apply String.eqb_neq.
Qed.

Lemma result_candidate (results : list SearchResult) (s : Source) :
  s ∈ map result_source results <->
  exists result, result ∈ results /\ s = result_source result.
Proof.
  rewrite list_elem_of_In, in_map_iff. split.
  - intros (r & <- & Hr). exists r. split; [now apply list_elem_of_In|reflexivity].
  - intros (r & Hr & ->). exists r. split; [reflexivity|now apply list_elem_of_In].
Qed.

(** A citation comes from the retriever's documents when one of them
    carries its URL, and from the search results otherwise. *)
Lemma extract_sources_origin (docs : list Document)
    (results : list SearchResult) (s : Source) :
  s ∈ Chatbot.extract_sources docs results ->
  (url s ∈ map url (List.filter has_url (map doc_source docs)) ->
   s ∈ List.filter has_url (map doc_source docs)) /\
  (url s ∉ map url (List.filter has_url (map doc_source docs)) ->
   s ∈ map result_source results).
Proof.
  rewrite extract_sources_keep_first. intros Hin.
  destruct (keep_first_is_first _ _ _ Hin) as (before & after & Hc & Hfirst).
  unfold candidates in Hc. split.
  - intros Hurl. apply app_eq_app in Hc as [l [[HD HR]|[Hb HR]]].
    + destruct l as [|x l].
      * rewrite app_nil_r in HD. subst before. contradiction.
      * injection HR as <- _. rewrite HD.
        apply list_elem_of_In, in_or_app. right. now left.
    + exfalso. apply Hfirst. rewrite Hb, map_app.
      apply elem_of_app. now left.
  - intros Hurl.
    assert (Hs : s ∈ List.filter has_url (map doc_source docs)
                     ++ map result_source results).
    { rewrite Hc. apply list_elem_of_In, in_or_app. right. now left. }
    apply elem_of_app in Hs as [Hs|Hs]; [|exact Hs].
    exfalso. apply Hurl. apply list_elem_of_fmap. exists s. auto.
Qed.

End RelevanceFacts.

(** X18. A citation for a URL that one of the retriever's documents carries
    is built from the retriever's document and has no relevance score, even
    when the search results hold the same URL with a distance. Any other
    citation is built from a search result, and its relevance score is 1
    minus that result's distance, or none at all when the distance is 0. *)
Theorem retriever_sources_carry_no_score (source_documents : list Document)
    (search_results : list SearchResult) (s : Source) :
  s ∈ Chatbot.extract_sources source_documents search_results ->
  let cited_by_retriever :=
    exists doc, doc ∈ source_documents /\
                md_source_url (metadata doc) = Some (url s) /\
                url s <> EmptyString in
  (cited_by_retriever ->
   relevance_score s = None /\
   exists doc, doc ∈ source_documents /\ s = doc_source doc) /\
  (~ cited_by_retriever ->
   exists result distance,
     result ∈ search_results /\ s = result_source result /\
     distance = default 0%float (sr_distance result) /\
     relevance_score s =
       if (distance =? 0)%float then None else Some (1 - distance)%float).
Proof.
  intros Hin cited. subst cited.
  destruct (extract_sources_origin _ _ _ Hin) as [Hdocs Hresults]. split.
  - intros (doc & Hdoc & Hurl & Hne).
    assert (Hs : s ∈ List.filter has_url (map doc_source source_documents)).
    { apply Hdocs. apply list_elem_of_fmap. exists (doc_source doc).
      assert (Hu : url (doc_source doc) = url s) by (cbn; now rewrite Hurl).
      split; [now rewrite Hu|].
      apply doc_candidate. exists doc. rewrite Hu. auto. }
    apply doc_candidate in Hs as (doc' & Hdoc' & -> & _).
    split; [reflexivity|]. exists doc'. auto.
  - intros Hnot.
    assert (Hs : s ∈ map result_source search_results).
    { apply Hresults. intros Hurl.
      apply list_elem_of_fmap in Hurl as (s' & Hu & Hs').
      apply doc_candidate in Hs' as (doc & Hdoc & -> & Hne).
      apply Hnot. exists doc. split; [exact Hdoc|]. rewrite Hu.
      split; [|exact Hne]. cbn in Hne |- *.
      destruct (md_source_url (metadata doc)); [reflexivity|contradiction]. }
    apply result_candidate in Hs as (result & Hr & ->).
    exists result, (default 0%float (sr_distance result)).
    repeat split; assumption || reflexivity.
Qed.

Lemma retriever_sources_carry_no_score_witness :
  Chatbot.extract_sources [remote_document] [match_at 0.25; values_result]
  = [ doc_source remote_document; result_source values_result ] /\
  relevance_score (doc_source remote_document) = None /\
  relevance_score (result_source values_result) = Some (1 - 0.4)%float.
Proof.
  assert (Hrun : Chatbot.extract_sources [remote_document]
                   [match_at 0.25; values_result]
                 = [ doc_source remote_document; result_source values_result ])
    by (vm_compute; reflexivity).
  split; [exact Hrun|]. split.
  - apply (retriever_sources_carry_no_score [remote_document]
             [match_at 0.25; values_result] (doc_source remote_document)).
    + rewrite Hrun. left.
    + exists remote_document. split; [left|]. split; [reflexivity|discriminate].
  - reflexivity.
Defined.

(* ===================================================================== *)
(** * Analytics: the counters *)
(* ===================================================================== *)

Section AnalyticsFacts.

Import Analytics.

Lemma counter_get_incr (counter : gmap string Z) (key key' : string) :
  counter_get (counter_incr counter key) key' =
    if String.eqb key key' then counter_get counter key + 1
    else counter_get counter key'.
Proof.
  unfold counter_incr, counter_get at 1.
  destruct (String.eqb key key') eqn:Hk.
  - apply String.eqb_eq in Hk as <-. now rewrite lookup_insert_eq.
  - apply String.eqb_neq in Hk. now rewrite lookup_insert_ne.
Qed.

Lemma counter_get_sources (srcs : list Source) (key : string) :
  forall counter,
    counter_get
      (fold_left (fun counter source => counter_incr counter (url source))
                 srcs counter) key
    = counter_get counter key
      + count_of (fun source => String.eqb (url source) key) srcs.
Proof.
  unfold count_of.
  induction srcs as [|s rest IH]; intros counter; cbn [fold_left List.filter].
  - cbn. lia.
  - rewrite IH, counter_get_incr.
    destruct (String.eqb (url s) key) eqn:Hk; cbn [length]; [|lia].
    apply String.eqb_eq in Hk as <-. lia.
Qed.

Lemma last_1000_drop (entries : list QueryEntry) :
  last_1000 entries = drop (length entries - 1000) entries.
Proof.
  unfold last_1000. destruct (1000 <? length entries)%nat eqn:Hlen;
    [reflexivity|].
  apply Nat.ltb_ge in Hlen.
  now replace (length entries - 1000)%nat with 0%nat by lia.
Qed.

(** Keeping the last [n] entries at every step keeps the last [n] of
    all. *)
Lemma drop_last_app {A : Type} (n : nat) (xs ys : list A) :
  drop (length (drop (length xs - n) xs ++ ys) - n)
       (drop (length xs - n) xs ++ ys)
  = drop (length (xs ++ ys) - n) (xs ++ ys).
Proof.
  rewrite !length_app, length_drop, !drop_app, drop_drop, length_drop.
  f_equal; f_equal; lia.
Qed.

Lemma track_all_cons (event : string * string * AnswerResult)
    (rest : list (string * string * AnswerResult)) (data : AnalyticsData) :
  track_all (event :: rest) data =
    track_all rest (track_query (fst (fst event)) (snd (fst event))
                                (snd event) data).
Proof. destruct event as [[now query] response]. reflexivity. Qed.

Lemma confidence_key_eqb (c : Confidence) (response : AnswerResult) :
  String.eqb (confidence_key (confidence response)) (confidence_key c)
  = has_confidence c response.
Proof.
  unfold has_confidence. now destruct (confidence response), c.
Qed.

Lemma count_of_cons {A : Type} (f : A -> bool) (x : A) (xs : list A) :
  count_of f (x :: xs) = (if f x then 1 else 0) + count_of f xs.
Proof.
  unfold count_of. cbn [List.filter]. destruct (f x); cbn [length]; lia.
Qed.

Lemma count_of_app {A : Type} (f : A -> bool) (xs ys : list A) :
  count_of f (xs ++ ys) = count_of f xs + count_of f ys.
Proof.
  unfold count_of. rewrite List.filter_app, length_app. lia.
Qed.

Lemma count_of_bounds {A : Type} (f : A -> bool) (xs : list A) :
  0 <= count_of f xs <= Z.of_nat (length xs).
Proof.
  induction xs as [|x xs IH]; [unfold count_of; cbn; lia|].
  rewrite count_of_cons. cbn [length]. destruct (f x); lia.
Qed.

Lemma count_of_confidence (responses : list AnswerResult) :
  count_of (has_confidence high) responses
  + count_of (has_confidence medium) responses
  + count_of (has_confidence low) responses
  = Z.of_nat (length responses).
Proof.
  induction responses as [|r rest IH]; [reflexivity|].
  rewrite !count_of_cons. cbn [length]. unfold has_confidence at 1 3 5.
  destruct (confidence r); lia.
Qed.

(** The counters after a run of [track_query] calls, from any data. *)
Lemma track_all_counters (events : list (string * string * AnswerResult)) :
  forall data,
    total_queries (track_all events data)
      = total_queries data + Z.of_nat (length events) /\
    (forall c,
       counter_get (confidence_distribution (track_all events data))
                   (confidence_key c)
       = counter_get (confidence_distribution data) (confidence_key c)
         + count_of (has_confidence c) (map snd events)) /\
    guardrail_triggers (track_all events data)
      = guardrail_triggers data
        + count_of (fun r => default false (guardrail_triggered r))
                   (map snd events) /\
    errors (track_all events data)
      = errors data
        + count_of (fun r => bool_decide (is_Some (error r)))
                   (map snd events) /\
    (forall key,
       counter_get (sources_accessed (track_all events data)) key
       = counter_get (sources_accessed data) key
         + count_of (fun source => String.eqb (url source) key)
                    (concat (map sources (map snd events)))).
Proof.
  induction events as [|event rest IH]; intros data.
  - unfold count_of. cbn. repeat split; intros; lia.
  - rewrite track_all_cons.
    destruct (IH (track_query (fst (fst event)) (snd (fst event))
                              (snd event) data))
      as (Htotal & Hconf & Hguard & Herr & Hsrc).
    cbn [map concat length]. split; [|split; [|split; [|split]]].
    + rewrite Htotal. cbn [track_query total_queries]. lia.
    + intros c. rewrite Hconf, count_of_cons.
      cbn [track_query confidence_distribution].
      rewrite counter_get_incr, confidence_key_eqb.
      destruct (has_confidence c (snd event)) eqn:Hc; [|lia].
      rewrite <- confidence_key_eqb in Hc. apply String.eqb_eq in Hc.
      rewrite Hc. lia.
    + rewrite Hguard, count_of_cons. cbn [track_query guardrail_triggers].
      destruct (default false (guardrail_triggered (snd event))); lia.
    + rewrite Herr, count_of_cons. cbn [track_query errors].
      destruct (bool_decide (is_Some (error (snd event)))); lia.
    + intros key. rewrite Hsrc, count_of_app.
      cbn [track_query sources_accessed].
      rewrite counter_get_sources. lia.
Qed.

(** The entries kept after a run of [track_query] calls: the last 1000 of
    those ever appended. *)
Lemma track_all_queries (events : list (string * string * AnswerResult)) :
  forall data,
    (length (queries data) <= 1000)%nat ->
    let entries :=
      queries data
      ++ map (fun event => query_entry_of (fst (fst event)) (snd (fst event))
                                          (snd event)) events in
    queries (track_all events data) = drop (length entries - 1000) entries.
Proof.
  induction events as [|event rest IH]; intros data Hlen; cbv zeta.
  - cbn [map track_all fold_left]. rewrite app_nil_r.
    now replace (length (queries data) - 1000)%nat with 0%nat by lia.
  - rewrite track_all_cons. cbv zeta in IH. rewrite IH.
    + cbn [track_query queries map]. rewrite last_1000_drop.
      fold (query_entry_of (fst (fst event)) (snd (fst event)) (snd event)).
      rewrite drop_last_app, <- app_assoc. reflexivity.
    + cbn [track_query queries]. rewrite last_1000_drop, length_drop. lia.
Qed.

End AnalyticsFacts.

(** X19. After any run of [track_query] calls on fresh analytics data:
    [total_queries] is the number of calls; the confidence counters for
    high, medium and low count the answers of each confidence and add up
    to [total_queries]; [guardrail_triggers] and [errors] count the answers
    with the guardrail flag set and with an ['error'] key, and neither
    exceeds [total_queries]; the counter of each source URL is the number
    of times answers cited it; and [queries] holds the entries of the last
    1000 calls, in order. *)
Theorem track_query_counters (events : list (string * string * AnswerResult)) :
  let data := track_all events Analytics.fresh in
  let responses := map snd events in
  total_queries data = Z.of_nat (length events) /\
  (forall c,
     Analytics.counter_get (confidence_distribution data)
                           (Analytics.confidence_key c)
     = count_of (has_confidence c) responses) /\
  Analytics.counter_get (confidence_distribution data) "high"
  + Analytics.counter_get (confidence_distribution data) "medium"
  + Analytics.counter_get (confidence_distribution data) "low"
  = total_queries data /\
  guardrail_triggers data
    = count_of (fun r => default false (guardrail_triggered r)) responses /\
  errors data
    = count_of (fun r => bool_decide (is_Some (error r))) responses /\
  guardrail_triggers data <= total_queries data /\
  errors data <= total_queries data /\
  (forall key,
     Analytics.counter_get (sources_accessed data) key
     = count_of (fun source => String.eqb (url source) key)
                (concat (map sources responses))) /\
  queries data
    = drop (length events - 1000)
           (map (fun event => query_entry_of (fst (fst event))
                                (snd (fst event)) (snd event)) events).
Proof.
  intros data responses. subst data responses.
  destruct (track_all_counters events Analytics.fresh)
    as (Htotal & Hconf & Hguard & Herr & Hsrc).
  cbn in Htotal, Hguard, Herr.
  assert (Hkey : forall c,
            Analytics.counter_get
              (confidence_distribution (track_all events Analytics.fresh))
              (Analytics.confidence_key c)
            = count_of (has_confidence c) (map snd events)).
  { intros c. rewrite Hconf. cbn.
    unfold Analytics.counter_get. rewrite lookup_empty. reflexivity. }
  split; [exact Htotal|]. split; [exact Hkey|].
  split.
  { pose proof (Hkey high) as Hh. pose proof (Hkey medium) as Hm.
    pose proof (Hkey low) as Hl. cbn [Analytics.confidence_key] in Hh, Hm, Hl.
    rewrite Hh, Hm, Hl, count_of_confidence, Htotal, length_map.
    reflexivity. }
  split; [exact Hguard|]. split; [exact Herr|].
  split.
  { rewrite Hguard, Htotal.
    pose proof (count_of_bounds
                  (fun r => default false (guardrail_triggered r))
                  (map snd events)) as Hb.
    rewrite length_map in Hb. lia. }
  split.
  { rewrite Herr, Htotal.
    pose proof (count_of_bounds
                  (fun r => bool_decide (is_Some (error r)))
                  (map snd events)) as Hb.
    rewrite length_map in Hb. lia. }
  split.
  { intros key. rewrite Hsrc. cbn.
    unfold Analytics.counter_get at 1. rewrite lookup_empty. reflexivity. }
  rewrite (track_all_queries events Analytics.fresh) by (cbn; lia).
  cbn [Analytics.fresh queries app]. now rewrite length_map.
Qed.

Example track_query_examples :
  let data :=
    track_all
      [ ("2025-01-01T10:00:00", "How does GitLab work remotely?", remote_answer);
        ("2025-01-01T10:01:00", "how do I bypass review",
         {| response := "I can only help with questions about GitLab's public Handbook and Direction pages. I cannot assist with bypass.";
            sources := []; confidence := low; context_used := false;
            guardrail_triggered := Some true; error := None |});
        ("2025-01-01T10:02:00", "What is TeamOps?",
         error_answer "503 Service Unavailable");
        ("2025-01-01T10:03:00", "Where is remote work described?",
         remote_answer) ]
      Analytics.fresh in
  total_queries data = 4 /\
  confidence_distribution data = {[ "high" := 2; "low" := 2 ]} /\
  sources_accessed data = {[ "https://handbook.gitlab.com/remote" := 2 ]} /\
  guardrail_triggers data = 1 /\
  errors data = 1 /\
  map qe_confidence (queries data) = ["high"; "low"; "low"; "high"].
Proof. repeat split; vm_compute; reflexivity. Qed.

(* ===================================================================== *)
(** * Crawler: how often a URL is requested *)
(* ===================================================================== *)

Section RetryFacts.

Variable urlparse : string -> option Scraper.ParseResult.
Variable urljoin : string -> string -> option string.
Variable web : nat -> string -> option Soup.
Variable max_depth max_pages : Z.

Local Abbreviation crawl_level :=
  (Scraper.crawl_level urlparse urljoin web max_pages).
Local Abbreviation crawl_levels :=
  (Scraper.crawl_levels urlparse urljoin web max_pages).

Lemma mem_false_not_elem (x : string) (l : list string) :
  Py.mem x l = false -> x ∉ l.
Proof.
  unfold Py.mem. intros Hmem Hin. apply list_elem_of_In in Hin.
  assert (Hex : existsb (String.eqb x) l = true)
    by (apply existsb_exists; exists x; split; [exact Hin|apply String.eqb_refl]).
  congruence.
Qed.

(** The next level never holds a URL twice. *)
Lemma add_new_links_NoDup (visited : gset string) (found : list string) :
  forall next, NoDup next -> NoDup (Scraper.add_new_links visited next found).
Proof.
  unfold Scraper.add_new_links.
  induction found as [|link rest IH]; intros next Hnext; cbn [fold_left];
    [exact Hnext|].
  apply IH. destruct (negb (bool_decide (link ∈ visited))); cbn [andb];
    [|exact Hnext].
  destruct (Py.mem link next) eqn:Hmem; cbn [negb]; [exact Hnext|].
  apply NoDup_app. split; [exact Hnext|].
  split; [|apply NoDup_singleton].
  intros x Hx Hx'. apply list_elem_of_singleton in Hx' as ->.
  now apply (mem_false_not_elem link next).
Qed.

(** One level asks for each of its start URLs at most once. *)
Lemma crawl_level_once (start_urls : list string) (base_domain : string) :
  NoDup start_urls ->
  forall st uts next uts' next' st',
    crawl_level start_urls base_domain st uts next = (uts', next', st') ->
    NoDup next ->
    exists new,
      Scraper.fetch_log st' = Scraper.fetch_log st ++ new /\
      NoDup (map fst new) /\
      (forall u, u ∈ map fst new -> u ∈ start_urls) /\
      NoDup next'.
Proof.
  induction 1 as [|url rest Hfresh Hrest IH];
    intros st uts next uts' next' st' Hrun Hnext;
    cbn [Scraper.crawl_level] in Hrun.
  - injection Hrun as <- <- <-. exists []. rewrite app_nil_r.
    split; [reflexivity|]. split; [constructor|].
    split; [intros u Hu; inversion Hu|exact Hnext].
  - destruct (bool_decide (url ∈ Scraper.visited_urls st)).
    { apply IH in Hrun as (new & Hlog & Hnd & Hreq & Hnext'); [|exact Hnext].
      exists new. split; [exact Hlog|]. split; [exact Hnd|].
      split; [intros u Hu; right; now apply Hreq|exact Hnext']. }
    destruct (Scraper.budget_spent max_pages st).
    { injection Hrun as <- <- <-. exists []. rewrite app_nil_r.
      split; [reflexivity|]. split; [constructor|].
      split; [intros u Hu; inversion Hu|exact Hnext]. }
    destruct (Scraper.discover urlparse urljoin web st url base_domain)
      as [found|].
    + apply IH in Hrun as (new & Hlog & Hnd & Hreq & Hnext');
        [|now apply add_new_links_NoDup].
      cbn in Hlog. exists ((url, true) :: new).
      rewrite <- app_assoc in Hlog. split; [exact Hlog|]. cbn [map fst].
      split; [constructor; [intros Hu; apply Hfresh, Hreq, Hu|exact Hnd]|].
      split; [|exact Hnext'].
      intros u Hu. apply elem_of_cons in Hu as [->|Hu];
        [left|right; now apply Hreq].
    + apply IH in Hrun as (new & Hlog & Hnd & Hreq & Hnext'); [|exact Hnext].
      cbn in Hlog. exists ((url, false) :: new).
      rewrite <- app_assoc in Hlog. split; [exact Hlog|]. cbn [map fst].
      split; [constructor; [intros Hu; apply Hfresh, Hreq, Hu|exact Hnd]|].
      split; [|exact Hnext'].
      intros u Hu. apply elem_of_cons in Hu as [->|Hu];
        [left|right; now apply Hreq].
Qed.

Lemma count_of_NoDup (u : string) (new : list (string * bool)) :
  NoDup (map fst new) ->
  count_of (fun request => String.eqb (fst request) u) new <= 1.
Proof.
  induction new as [|[u' ok] rest IH]; intros Hnd;
    [unfold count_of; cbn; lia|].
  cbn [map fst] in Hnd. apply NoDup_cons in Hnd as [Hfresh Hrest].
  rewrite count_of_cons. cbn [fst].
  destruct (String.eqb u' u) eqn:Hu; [|specialize (IH Hrest); lia].
  apply String.eqb_eq in Hu as ->.
  assert (count_of (fun request => String.eqb (fst request) u) rest = 0);
    [|lia].
  unfold count_of. clear -Hfresh.
  induction rest as [|[u' ok] rest IH]; [reflexivity|].
  cbn [map fst List.filter] in *.
  destruct (String.eqb u' u) eqn:Hu.
  - apply String.eqb_eq in Hu as ->. exfalso. apply Hfresh. left.
  - apply IH. intros Hin. apply Hfresh. now right.
Qed.

(** With [levels_left] levels below it, a crawl asks for any one URL at
    most [levels_left + 1] times: once per level. *)
Lemma crawl_levels_requests (levels_left : nat) (base_domain : string) :
  forall start_urls st urls st',
    NoDup start_urls ->
    crawl_levels levels_left start_urls base_domain st = (urls, st') ->
    exists new,
      Scraper.fetch_log st' = Scraper.fetch_log st ++ new /\
      forall u, count_of (fun request => String.eqb (fst request) u) new
                <= Z.of_nat (S levels_left).
Proof.
  induction levels_left as [|k IH]; intros start_urls st urls st' Hstart Hrun;
    cbn [Scraper.crawl_levels] in Hrun.
  - destruct (Scraper.budget_spent max_pages st).
    { injection Hrun as <- <-. exists []. rewrite app_nil_r.
      split; [reflexivity|intros u; unfold count_of; cbn; lia]. }
    destruct (Scraper.crawl_level _ _ _ _ _ _ _ _ _) as [[uts next] st1] eqn:Hlevel.
    injection Hrun as <- <-.
    apply crawl_level_once in Hlevel as (new & Hlog & Hnd & _);
      [|exact Hstart|constructor].
    exists new. split; [exact Hlog|].
    intros u. pose proof (count_of_NoDup u new Hnd). lia.
  - destruct (Scraper.budget_spent max_pages st).
    { injection Hrun as <- <-. exists []. rewrite app_nil_r.
      split; [reflexivity|intros u; unfold count_of; cbn; lia]. }
    destruct (Scraper.crawl_level _ _ _ _ _ _ _ _ _) as [[uts next] st1] eqn:Hlevel.
    apply crawl_level_once in Hlevel as (new1 & Hlog1 & Hnd1 & _ & Hnext);
      [|exact Hstart|constructor].
    assert (Hone : forall st2 : Scraper.CrawlState, st2 = st1 ->
              exists new, Scraper.fetch_log st2 = Scraper.fetch_log st ++ new /\
                forall u, count_of (fun request => String.eqb (fst request) u)
                                   new <= Z.of_nat (S (S k))).
    { intros st2 ->. exists new1. split; [exact Hlog1|].
      intros u. pose proof (count_of_NoDup u new1 Hnd1). lia. }
    destruct next as [|link next].
    { injection Hrun as <- <-. now apply Hone. }
    destruct (Scraper.budget_spent max_pages st1).
    { injection Hrun as <- <-. now apply Hone. }
    destruct (Scraper.crawl_levels _ _ _ _ k _ _ _) as [deeper st2] eqn:Hdeep.
    injection Hrun as <- <-.
    apply IH in Hdeep as (new2 & Hlog2 & Hcount2); [|exact Hnext].
    exists (new1 ++ new2). rewrite Hlog2, Hlog1, <- app_assoc.
    split; [reflexivity|].
    intros u. rewrite count_of_app.
    pose proof (count_of_NoDup u new1 Hnd1). specialize (Hcount2 u). lia.
Qed.

End RetryFacts.

(** X20. A crawl started from a list of URLs without duplicates requests
    any one URL at most [max_depth - depth + 1] times, the number of levels
    it can walk, and not at all when [depth] exceeds [max_depth].
    [find_all_pages] starts the crawl from the base URL alone at depth 0:
    one discovery requests any one URL at most [max_depth + 1] times, so a
    URL whose request keeps failing is retried at most [max_depth] times. *)
Theorem crawl_requests_per_url
    (urlparse : string -> option Scraper.ParseResult)
    (urljoin : string -> string -> option string)
    (web : nat -> string -> option Soup) (max_depth max_pages : Z) :
  (forall (start_urls : list string) (base_domain : string) (depth : Z)
          (st : Scraper.CrawlState) (urls : list string)
          (st' : Scraper.CrawlState),
     NoDup start_urls ->
     Scraper.crawl_recursive urlparse urljoin web max_depth max_pages
       start_urls base_domain depth st = (urls, st') ->
     exists new,
       Scraper.fetch_log st' = Scraper.fetch_log st ++ new /\
       forall u, count_of (fun request => String.eqb (fst request) u) new
                 <= Z.max 0 (max_depth - depth + 1)) /\
  (forall (base_domain : string) (st : Scraper.CrawlState)
          (urls : list string) (st' : Scraper.CrawlState),
     Scraper.find_all_pages urlparse urljoin web max_depth max_pages
       base_domain st = Some (urls, st') ->
     exists new,
       Scraper.fetch_log st' = Scraper.fetch_log st ++ new /\
       forall u, count_of (fun request => String.eqb (fst request) u) new
                 <= Z.max 0 (max_depth + 1)).
Proof.
  assert (Hcrawl :
    forall start_urls base_domain depth st urls st',
      NoDup start_urls ->
      Scraper.crawl_recursive urlparse urljoin web max_depth max_pages
        start_urls base_domain depth st = (urls, st') ->
      exists new,
        Scraper.fetch_log st' = Scraper.fetch_log st ++ new /\
        forall u, count_of (fun request => String.eqb (fst request) u) new
                  <= Z.max 0 (max_depth - depth + 1)).
  { intros start_urls base_domain depth st urls st' Hstart.
    unfold Scraper.crawl_recursive.
    destruct (max_depth <? depth) eqn:Hdepth.
    - intros [= <- <-]. exists []. rewrite app_nil_r.
      split; [reflexivity|]. intros u. unfold count_of. cbn. lia.
    - apply Z.ltb_ge in Hdepth. intros Hrun.
      apply crawl_levels_requests in Hrun as (new & Hlog & Hcount);
        [|exact Hstart].
      exists new. split; [exact Hlog|]. intros u. specialize (Hcount u). lia. }
  split; [exact Hcrawl|].
  intros base_domain st urls st'. unfold Scraper.find_all_pages.
  destruct (Scraper.BASE_URLS base_domain) as [start_url|]; [|discriminate].
  intros [= Hrun].
  apply Hcrawl in Hrun as (new & Hlog & Hcount); [|apply NoDup_singleton].
  exists new. split; [exact Hlog|]. intros u. specialize (Hcount u). lia.
Qed.

Lemma crawl_requests_per_url_witness :
  exists st',
    Scraper.find_all_pages handbook_urlparse no_urljoin values_down_web 3 100
      "handbook" fresh_crawl
    = Some ([handbook_url; hiring_url], st') /\
    Scraper.fetch_log st' =
      [(handbook_url, true); (values_url, false);
       (hiring_url, true); (values_url, false)] /\
    count_of (fun request => String.eqb (fst request) values_url)
             (Scraper.fetch_log st') <= Z.max 0 (3 + 1).
Proof.
  eexists. split; [vm_compute; reflexivity|]. split; [reflexivity|].
  destruct (proj2 (crawl_requests_per_url handbook_urlparse no_urljoin
                     values_down_web 3 100)
              "handbook" fresh_crawl _ _ eq_refl)
    as (new & Hlog & Hcount).
  cbn in Hlog. subst new. apply Hcount.
Defined.

(* ===================================================================== *)
(** * Answer composer: a response without a sources section *)
(* ===================================================================== *)

Section KeepFacts.

Lemma split_nonempty (x : ascii) (s : string) : Py.split x s <> [].
Proof.
  destruct s as [|c r]; cbn [Py.split]; [discriminate|].
  destruct (Ascii.eqb c x); [discriminate|].
  destruct (Py.split x r); discriminate.
Qed.

(** Joining the lines of a text with the newline gives the text back. *)
Lemma join_split (s : string) :
  Py.join Chatbot.NL (Py.split "010" s) = s.
Proof.
  induction s as [|c r IH]; [reflexivity|]. cbn [Py.split].
  destruct (Ascii.eqb c "010") eqn:Hc.
  - apply Ascii.eqb_eq in Hc as ->.
    destruct (Py.split "010" r) as [|h t] eqn:Hsplit;
      [now apply split_nonempty in Hsplit|].
    rewrite join_cons2, IH. reflexivity.
  - destruct (Py.split "010" r) as [|h t] eqn:Hsplit;
      [now apply split_nonempty in Hsplit|].
    destruct t as [|h' t'].
    + cbn [Py.join] in IH |- *. now rewrite IH.
    + rewrite join_cons2 in IH |- *. rewrite append_cons. now rewrite IH.
Qed.

Lemma cleaned_lines_all (lines : list string) :
  Forall (fun l => Chatbot.is_sources_line l = false) lines ->
  Chatbot.cleaned_lines lines = lines.
Proof.
  induction 1 as [|l rest Hl _ IH]; cbn [Chatbot.cleaned_lines];
    [reflexivity|].
  now rewrite Hl, IH.
Qed.

Lemma capital_sources_lower (raw : string) :
  Py.contains "Sources:" raw = true ->
  Py.contains "sources:" (Py.lower raw) = true.
Proof.
  intros Hc. apply contains_inv in Hc as (a & b & ->).
  rewrite !lower_append. apply contains_infix.
Qed.

End KeepFacts.

(** X21. A response of the model that holds no [sources:] text in any
    letter case is returned as it is, not even stripped. One that holds
    such text, but on no line that starts with it, keeps all of its lines:
    it is only stripped of the whitespace at its two ends. *)
Theorem clean_response_keeps_answer (raw : string) :
  (Py.contains "sources:" (Py.lower raw) = false ->
   Chatbot.clean_response raw = raw) /\
  (Py.contains "sources:" (Py.lower raw) = true ->
   Forall (fun line => Chatbot.is_sources_line line = false)
          (Py.split "010" raw) ->
   Chatbot.clean_response raw = Py.strip raw).
Proof.
  unfold Chatbot.clean_response. split.
  - intros Hnone.
    destruct (Py.contains "Sources:" raw) eqn:Hcap;
      [apply capital_sources_lower in Hcap; congruence|].
    now rewrite Hnone.
  - intros Hsome Hlines. rewrite Hsome, orb_true_r.
    now rewrite cleaned_lines_all, join_split.
Qed.

Example clean_response_examples :
  Chatbot.clean_response "  GitLab is all-remote.  " = "  GitLab is all-remote.  " /\
  Chatbot.clean_response "  See the page on open sources: it is public.  "
    = "See the page on open sources: it is public." /\
  Chatbot.clean_response
    ("GitLab is all-remote." +:+ Chatbot.NL +:+ "  SOURCES: none")
    = "GitLab is all-remote.".
Proof. repeat split; vm_compute; reflexivity. Qed.

(* ===================================================================== *)
(** * Answer composer: answers without context *)
(* ===================================================================== *)

Section ContextFacts.

Context {Store : Type} `{VectorIndex Store}.
Variable retriever_invoke : Store -> string -> Result (list Document).
Variable prompt_format : string -> string -> string -> string.
Variable llm_invoke : string -> Result string.
Variable float_sum : list float -> float.

Lemma compose_context_used (store : Store) (query : string)
    (include_history : bool) (additional_context : option string)
    (search_results : list SearchResult) (used : bool)
    (history : list Message) (answer : AnswerResult)
    (history' : list Message) :
  Chatbot.compose retriever_invoke prompt_format llm_invoke float_sum store
    query include_history additional_context search_results used history
    = Ok (answer, history') ->
  context_used answer = used.
Proof.
  unfold Chatbot.compose.
  destruct (retriever_invoke store query) as [docs|e]; [|discriminate].
  match goal with |- context [llm_invoke ?p] =>
    destruct (llm_invoke p) as [raw|e]; [|discriminate]
  end.
  intros [= <- _]. reflexivity.
Qed.

Lemma sources_without_results (docs : list Document) (s : Source) :
  s ∈ Chatbot.validated_sources (Chatbot.extract_sources docs []) ->
  relevance_score s = None.
Proof.
  unfold Chatbot.validated_sources. intros Hin.
  apply list_elem_of_In, filter_In in Hin as [Hin _].
  apply list_elem_of_In in Hin.
  destruct (extract_sources_origin docs [] s Hin) as [Hdocs Hresults].
  destruct (decide (url s ∈ map url (List.filter has_url (map doc_source docs))))
    as [Hurl|Hurl].
  - apply Hdocs, doc_candidate in Hurl as (doc & _ & -> & _). reflexivity.
  - apply Hresults in Hurl. inversion Hurl.
Qed.

End ContextFacts.

(** X22. In an answer that [generate_response] composed (no guardrail, no
    error), [context_used] tells whether the search returned any match.
    When it returned none, as it always does on an index that [get_stats]
    reports as empty, the answer is still composed from the retriever's
    documents and the model, but its confidence is low and none of its
    sources has a relevance score. *)
Theorem answer_without_search_results {Store : Type} `{VectorIndex Store}
    (retriever_invoke : Store -> string -> Result (list Document))
    (prompt_format : string -> string -> string -> string)
    (llm_invoke : string -> Result string)
    (float_sum : list float -> float)
    (store : Store) (query : string) (include_history : bool)
    (max_context_chunks : Z) (additional_context : option string)
    (history : list Message) (answer : AnswerResult)
    (history' : list Message) :
  Chatbot.generate_response retriever_invoke prompt_format llm_invoke float_sum
    store query include_history max_context_chunks additional_context history
    = (Ok answer, history') ->
  guardrail_triggered answer = Some false ->
  exists search_results,
    VectorStore.search store query max_context_chunks = Ok search_results /\
    (context_used answer = true <-> search_results <> []) /\
    (VectorStore.get_stats store = 0 -> search_results = []) /\
    (search_results = [] ->
     confidence answer = low /\
     Forall (fun s => relevance_score s = None) (sources answer)).
Proof.
  intros Hrun Hguard.
  pose proof (generate_response_paths retriever_invoke prompt_format llm_invoke
                float_sum store query include_history max_context_chunks
                additional_context history) as Hpaths.
  cbv zeta in Hpaths. rewrite Hrun in Hpaths. cbn [fst snd] in Hpaths.
  destruct Hpaths as [(_ & _ & a & [= <-] & Hg & _)
                     |[(_ & _ & e & _ & [=])
                     |[(_ & _ & a & e & [= <-] & _ & Hg & _)
                      |(_ & results & a & Hsearch & Hcompose & [= <-])]]];
    try congruence.
  exists results. split; [exact Hsearch|].
  pose proof (compose_context_used _ _ _ _ _ _ _ _ _ _ _ _ _ Hcompose) as Hused.
  apply compose_success in Hcompose
    as (docs & prompt & raw & _ & _ & _ & Hsrc & Hconf & _).
  split; [|split].
  - rewrite Hused. destruct results; cbn; split; congruence || discriminate.
  - intros Hempty. rewrite (search_empty store query _ Hempty) in Hsearch.
    now injection Hsearch as <-.
  - intros ->. split; [rewrite Hconf; reflexivity|].
    rewrite Hsrc. apply Forall_forall. intros s Hs.
    now apply sources_without_results in Hs.
Qed.

Lemma answer_without_search_results_witness :
  exists answer history',
    Chatbot.generate_response list_retriever plain_prompt citing_model
      plain_sum (mkListIndex [] []) "How does GitLab work remotely?" true 5
      None []
    = (Ok answer, history') /\
    response answer = "GitLab is an all-remote company." /\
    context_used answer = false /\
    confidence answer = low.
Proof.
  assert (Hrun : Chatbot.generate_response list_retriever plain_prompt
                   citing_model plain_sum (mkListIndex [] [])
                   "How does GitLab work remotely?" true 5 None []
                 = (Ok {| response := "GitLab is an all-remote company.";
                          sources := [];
                          confidence := low;
                          context_used := false;
                          guardrail_triggered := Some false;
                          error := None |},
                    [ mkMessage "user" "How does GitLab work remotely?";
                      mkMessage "assistant" "GitLab is an all-remote company." ]))
    by (vm_compute; reflexivity).
  do 2 eexists. split; [exact Hrun|]. split; [reflexivity|].
  destruct (answer_without_search_results _ _ _ _ _ _ _ _ _ _ _ _
              Hrun eq_refl)
    as (results & _ & _ & Hnone & Hlow).
  specialize (Hnone eq_refl). split; [reflexivity|]. now apply Hlow.
Defined.

(* ===================================================================== *)
(** * Index: initialization *)
(* ===================================================================== *)

(** X23. [initialize] is idempotent on an index that accepts every batch
    and counts its documents: run on an index that holds documents it
    changes nothing, run on an empty one it ingests the corpus, and a
    second run then leaves the index as the first one left it, so no
    document is ever stored twice. With no corpus (a missing or empty
    file) it changes nothing. *)
Theorem initialize_idempotent {Store : Type} `{VectorIndex Store}
    (add : Store -> list Document -> Store)
    (text_splitter : TextSplitter) (loaded : list Chunk)
    (apply_token_chunking : bool) (store : Store) (n : Z) :
  (forall store batch, add_documents store batch = (add store batch, true)) ->
  (forall store, add store [] = store) ->
  (forall store b1 b2, add (add store b1) b2 = add store (b1 ++ b2)) ->
  (forall store m docs, count store = Some m ->
     count (add store docs) = Some (m + Z.of_nat (length docs))) ->
  count store = Some n -> 0 <= n ->
  let first := VectorStore.initialize text_splitter loaded
                 apply_token_chunking store in
  snd first = true /\
  VectorStore.initialize text_splitter loaded apply_token_chunking (fst first)
    = (fst first, true) /\
  (0 < n \/ loaded = [] -> fst first = store).
Proof.
  intros Hadd Hnil Happ Hcount Hstore Hpos first. subst first.
  assert (Hinit : forall s, VectorStore.initialize text_splitter loaded
                              apply_token_chunking s
                            = VectorStore.add_chunks text_splitter loaded
                                apply_token_chunking s)
    by (intros s; unfold VectorStore.initialize; now destruct loaded).
  rewrite !Hinit.
  destruct (Z.eq_dec n 0) as [->|Hne].
  - destruct (add_chunks_accepting_index add text_splitter loaded
                apply_token_chunking store Hadd Hnil Happ
                ltac:(intros s [m Hm] docs; erewrite Hcount by exact Hm; eauto)
                Hstore) as (documents & Hrun & Hlen).
    rewrite Hrun. cbn [fst snd]. split; [reflexivity|]. split.
    + destruct documents as [|doc rest] eqn:Hdocs.
      * rewrite Hnil. rewrite Hnil in Hrun. exact Hrun.
      * apply add_chunks_skips_populated
          with (n := 0 + Z.of_nat (length (doc :: rest)));
          [now apply Hcount|cbn [length]; lia].
    + intros [Hlt| ->]; [lia|]. cbn in Hrun. now injection Hrun as <-.
  - assert (Hnoop : VectorStore.add_chunks text_splitter loaded
                      apply_token_chunking store = (store, true))
      by (apply add_chunks_skips_populated with (n := n); [exact Hstore|lia]).
    rewrite Hnoop. cbn [fst snd]. auto.
Qed.

Lemma initialize_idempotent_witness :
  VectorStore.initialize whole_splitter [remote_work] true (mkListIndex [] [])
    = (populated_index, true) /\
  VectorStore.initialize whole_splitter [remote_work] true populated_index
    = (populated_index, true).
Proof.
  destruct (initialize_idempotent
              (fun store docs =>
                 mkListIndex (stored store ++ docs)
                             (embedded store ++ map page_content docs))
              whole_splitter [remote_work] true (mkListIndex [] []) 0)
    as (_ & Hagain & _).
  - reflexivity.
  - intros [s e]. cbn. now rewrite !app_nil_r.
  - intros [s e] b1 b2. cbn. now rewrite map_app, !app_assoc.
  - intros [s e] m docs [= <-]. cbn. rewrite length_app. f_equal. lia.
  - reflexivity.
  - lia.
  - split; [vm_compute; reflexivity|exact Hagain].
Defined.
